(** * Query-analytics collector: snapshot/delta engine, log builder,
      load probe and adaptive polling governor

    A shallow embedding of the Go sources of the QAN processor
    (packages [mysql], [postgresql], [adaptive] and [qanprocessor])
    together with the properties of the delta engine, of the log
    builder, of the snapshot store and of the governor that the design
    document states, and with further properties of the same code.

    Conventions.
    - [int64] (and [int], [time.Duration]) values are integers of type [Z];
      every arithmetic operation of the source that can leave the 64-bit
      range is written with its wrap-around ([Int64.wrap]).
    - [float64] values are the primitive binary64 floats of the standard
      library; the operators of [float_scope] are the IEEE-754 operations
      the Go compiler emits for [+ - * /] and for the comparisons.
      Operations are rounded one by one (no fused multiply-add), and a
      conversion to [int64] that Go leaves to the implementation gives
      what amd64 gives.
    - Go maps are finite maps ([gmap]); a [range] loop over a map is a
      left fold over [map_to_list], whose order is as unspecified as Go's.
    - A nil pointer is [None]; a mutex-protected object is a value
      passed from one atomic operation to the next.
    - The database, the clock and the file system answer through
      explicit arguments ([DB], [now], [IO], [World]); [math.Pow] and the
      JSON codec, library code, are parameters of the governor.
    - The library functions whose result the source depends on byte by
      byte are written out: [strconv.ParseInt] and [strconv.Atoi] with
      their syntax and range errors, and the [Scan] of [database/sql]
      for the destinations the MySQL preflight passes. *)

From Stdlib Require Import ZArith Lia Floats.
From stdpp Require Import gmap strings list fin_maps.

Local Open Scope Z_scope.

(** Decimal float literals denote the nearest binary64 value, as the Go
    compiler converts constants. *)
Set Warnings "-inexact-float".

(** ** 64-bit signed integers *)

Module Int64.

Definition min_int : Z := - 2 ^ 63.
Definition max_int : Z := 2 ^ 63 - 1.

Definition in_range (z : Z) : Prop := min_int <= z <= max_int.

  (** Two's-complement wrap-around of a mathematical integer. *)
Definition wrap (z : Z) : Z := (z + 2 ^ 63) mod 2 ^ 64 - 2 ^ 63.

Definition add (a b : Z) : Z := wrap (a + b).
Definition sub (a b : Z) : Z := wrap (a - b).

End Int64.

(** ** float64 helpers *)

Module F64.

Local Open Scope float_scope.

  (** [float64(z)] for an integer [z]: the nearest binary64 value
      (ties to even). *)
Definition of_int (z : Z) : float :=
    SF2Prim (binary_normalize prec emax z 0%Z false).

  (** Truncation of a finite spec float towards zero. *)
Definition trunc_SF (x : spec_float) : option Z :=
    match x with
    | S754_zero _ => Some 0%Z
    | S754_finite s m e =>
        let a := match e with
                 | Zneg p => Z.quot (Zpos m) (2 ^ Zpos p)
                 | _ => (Zpos m * 2 ^ e)%Z
                 end in
        Some (if s then (- a)%Z else a)
    | _ => None
    end.

  (** [int64(f)]: truncation towards zero. Go leaves the result for NaN,
      infinities and out-of-range values to the implementation; the value
      chosen here is the one amd64 produces (the minimal integer). *)
Definition to_int64 (f : float) : Z :=
    match trunc_SF (Prim2SF f) with
    | Some z => if ((Int64.min_int <=? z) && (z <=? Int64.max_int))%Z then z
                else Int64.min_int
    | None => Int64.min_int
    end.

End F64.

(** ** Instants and durations (package [time]) *)

Module Time.

  (** An instant is a number of nanoseconds on the reading clock; a
      [Duration] is a signed 64-bit count of nanoseconds. *)
Definition Time := Z.
Definition Duration := Z.

Definition Nanosecond : Duration := 1.
Definition Millisecond : Duration := 1000000.
Definition Second : Duration := 1000000000.
Definition Minute : Duration := 60 * Second.
Definition Hour : Duration := 60 * Minute.

  (** [t.Sub(u)]: the difference, saturated to the range of [Duration]. *)
Definition Sub (t u : Time) : Duration :=
    let d := t - u in
    if d <? Int64.min_int then Int64.min_int
    else if Int64.max_int <? d then Int64.max_int
    else d.

  (** [d.Seconds()]: whole seconds plus the fractional part, both
      converted to [float64]. Integer division truncates towards zero. *)
Definition Seconds (d : Duration) : float :=
    let sec := Z.quot d Second in
    let nsec := Z.rem d Second in
    (F64.of_int sec + F64.of_int nsec / 1e9)%float.

End Time.

(** ** Errors

    Go [error] values: an error reported by the database driver, a fresh
    error made by [fmt.Errorf] without a verb [%w], and an error wrapped
    by [fmt.Errorf("...: %w", err)]. *)

Inductive error : Type :=
| DriverError (msg : string)
| NewError (msg : string)
| WrapError (msg : string) (cause : error).

(** Outcome of a fallible call. *)
Inductive result (A : Type) : Type :=
| Ok (a : A)
| Err (e : error).
Arguments Ok {A} a.
Arguments Err {A} e.

(** ** Log data (package [plog] / [pcommon]) *)

Module pdata.

Inductive Value : Type :=
  | ValueStr (s : string)
  | ValueInt (i : Z)
  | ValueDouble (f : float).

  (** [pcommon.Map]: a slice of key/value pairs; [Put*] replaces the
      value of an existing key and appends otherwise. *)
Definition Map := list (string * Value).

Fixpoint Put (m : Map) (k : string) (v : Value) : Map :=
    match m with
    | [] => [(k, v)]
    | (k', v') :: m' =>
        if String.eqb k' k then (k', v) :: m' else (k', v') :: Put m' k v
    end.

Definition PutStr (m : Map) (k : string) (s : string) : Map := Put m k (ValueStr s).
Definition PutInt (m : Map) (k : string) (i : Z) : Map := Put m k (ValueInt i).
Definition PutDouble (m : Map) (k : string) (f : float) : Map := Put m k (ValueDouble f).

Fixpoint Get (m : Map) (k : string) : option Value :=
    match m with
    | [] => None
    | (k', v') :: m' => if String.eqb k' k then Some v' else Get m' k
    end.

Inductive SeverityNumber : Type := SeverityNumberUnspecified | SeverityNumberInfo.

Module LogRecord.
Record t : Type := mk {
      Timestamp : Time.Time;
      Severity : SeverityNumber;
      SeverityText : string;
      Attributes : Map;
      Body : string
    }.
End LogRecord.

Module ScopeLogs.
Record t : Type := mk {
      ScopeName : string;
      LogRecords : list LogRecord.t
    }.
End ScopeLogs.

Module ResourceLogs.
Record t : Type := mk {
      ResourceAttributes : Map;
      ScopeLogsSlice : list ScopeLogs.t
    }.
End ResourceLogs.

  (** [plog.Logs]: a slice of resource logs; [plog.NewLogs()] is empty. *)
Definition Logs := list ResourceLogs.t.
Definition NewLogs : Logs := [].

  (** Every log record of a batch, over all resource and scope levels. *)
Definition AllLogRecords (logs : Logs) : list LogRecord.t :=
    concat (map (fun rl => concat (map ScopeLogs.LogRecords (ResourceLogs.ScopeLogsSlice rl))) logs).

End pdata.

(** ** Package [database/sql] (the part the MySQL preflight uses) *)

Module sql.

Definition doubleQuote : Ascii.ascii := Ascii.ascii_of_nat 34.

(** The verb [%q] on a name without quotes or escapes. *)
Definition quoted (name : string) : string :=
  String doubleQuote (name +:+ String doubleQuote EmptyString).

(** [Row.Scan(nil, &value)] on the row of a query with two columns,
    the first of them called [column]. [row] is the error of the query
    or the value of the second column. The destinations are assigned in
    the order of the columns and the first one, [nil], is refused as
    not being a pointer, so that [value] is never written and the scan
    fails whatever the row holds. *)
Definition Row_Scan_nil_string (column : string) (row : result string) : result string :=
  match row with
  | Err err => Err err
  | Ok _ =>
      Err (WrapError ("sql: Scan error on column index 0, name " +:+ quoted column)
             (NewError "destination not a pointer"))
  end.

End sql.

(** ** Package [mysql]: snapshots and the delta engine *)

Module mysql.

(** One row of [performance_schema.events_statements_summary_by_digest]. *)
Module DigestData.
Record t : Type := mk {
  Digest : string;
  SchemaName : string;
  DigestText : string;
  CountStar : Z;
  SumTimerWait : Z;
  SumLockTime : Z;
  SumErrors : Z;
  SumWarnings : Z;
  SumRowsAffected : Z;
  SumRowsSent : Z;
  SumRowsExamined : Z;
  SumCreatedTmpTables : Z;
  SumCreatedTmpDiskTables : Z;
  SumSortRows : Z;
  SumNoIndexUsed : Z;
  SumNoGoodIndexUsed : Z;
  Timestamp : Time.Time
}.
End DigestData.

Module Snapshot.
Record t : Type := mk {
  Digests : gmap string DigestData.t;
  Timestamp : Time.Time;
  InstanceID : string
}.
End Snapshot.

Module DeltaResult.
Record t : Type := mk {
  Digest : string;
  SchemaName : string;
  DigestText : string;
  TimePeriodSecs : float;
  DeltaCountStar : Z;
  DeltaSumTimerWait : Z;
  DeltaSumLockTime : Z;
  DeltaSumErrors : Z;
  DeltaSumWarnings : Z;
  DeltaSumRowsAffected : Z;
  DeltaSumRowsSent : Z;
  DeltaSumRowsExamined : Z;
  DeltaSumCreatedTmpTables : Z;
  DeltaSumCreatedTmpDiskTables : Z;
  DeltaSumSortRows : Z;
  DeltaSumNoIndexUsed : Z;
  DeltaSumNoGoodIndexUsed : Z
}.
End DeltaResult.

(** The closure [calcDelta] of [CalculateDeltas]. *)
Definition calcDelta (curr prev : Z) : Z :=
  if curr >=? prev then Int64.sub curr prev else curr.

(** Body of the loop of [CalculateDeltas] for one entry of
    [curr.Digests]: the new value of [results]. *)
Definition deltaStep (prevDigests : gmap string DigestData.t) (timeDiffSecs : float)
    (results : list DeltaResult.t) (entry : string * DigestData.t) : list DeltaResult.t :=
  let '(digest, currData) := entry in
  match prevDigests !! digest with
  | None =>
      results ++ [ {|
        DeltaResult.Digest := digest;
        DeltaResult.SchemaName := DigestData.SchemaName currData;
        DeltaResult.DigestText := DigestData.DigestText currData;
        DeltaResult.TimePeriodSecs := timeDiffSecs;
        DeltaResult.DeltaCountStar := DigestData.CountStar currData;
        DeltaResult.DeltaSumTimerWait := DigestData.SumTimerWait currData;
        DeltaResult.DeltaSumLockTime := DigestData.SumLockTime currData;
        DeltaResult.DeltaSumErrors := DigestData.SumErrors currData;
        DeltaResult.DeltaSumWarnings := DigestData.SumWarnings currData;
        DeltaResult.DeltaSumRowsAffected := DigestData.SumRowsAffected currData;
        DeltaResult.DeltaSumRowsSent := DigestData.SumRowsSent currData;
        DeltaResult.DeltaSumRowsExamined := DigestData.SumRowsExamined currData;
        DeltaResult.DeltaSumCreatedTmpTables := DigestData.SumCreatedTmpTables currData;
        DeltaResult.DeltaSumCreatedTmpDiskTables := DigestData.SumCreatedTmpDiskTables currData;
        DeltaResult.DeltaSumSortRows := DigestData.SumSortRows currData;
        DeltaResult.DeltaSumNoIndexUsed := DigestData.SumNoIndexUsed currData;
        DeltaResult.DeltaSumNoGoodIndexUsed := DigestData.SumNoGoodIndexUsed currData
      |} ]
  | Some prevData =>
      let deltaCountStar :=
        if DigestData.CountStar currData >=? DigestData.CountStar prevData
        then Int64.sub (DigestData.CountStar currData) (DigestData.CountStar prevData)
        else DigestData.CountStar currData in
      if deltaCountStar >? 0 then
        results ++ [ {|
          DeltaResult.Digest := digest;
          DeltaResult.SchemaName := DigestData.SchemaName currData;
          DeltaResult.DigestText := DigestData.DigestText currData;
          DeltaResult.TimePeriodSecs := timeDiffSecs;
          DeltaResult.DeltaCountStar := deltaCountStar;
          DeltaResult.DeltaSumTimerWait :=
            calcDelta (DigestData.SumTimerWait currData) (DigestData.SumTimerWait prevData);
          DeltaResult.DeltaSumLockTime :=
            calcDelta (DigestData.SumLockTime currData) (DigestData.SumLockTime prevData);
          DeltaResult.DeltaSumErrors :=
            calcDelta (DigestData.SumErrors currData) (DigestData.SumErrors prevData);
          DeltaResult.DeltaSumWarnings :=
            calcDelta (DigestData.SumWarnings currData) (DigestData.SumWarnings prevData);
          DeltaResult.DeltaSumRowsAffected :=
            calcDelta (DigestData.SumRowsAffected currData) (DigestData.SumRowsAffected prevData);
          DeltaResult.DeltaSumRowsSent :=
            calcDelta (DigestData.SumRowsSent currData) (DigestData.SumRowsSent prevData);
          DeltaResult.DeltaSumRowsExamined :=
            calcDelta (DigestData.SumRowsExamined currData) (DigestData.SumRowsExamined prevData);
          DeltaResult.DeltaSumCreatedTmpTables :=
            calcDelta (DigestData.SumCreatedTmpTables currData)
                      (DigestData.SumCreatedTmpTables prevData);
          DeltaResult.DeltaSumCreatedTmpDiskTables :=
            calcDelta (DigestData.SumCreatedTmpDiskTables currData)
                      (DigestData.SumCreatedTmpDiskTables prevData);
          DeltaResult.DeltaSumSortRows :=
            calcDelta (DigestData.SumSortRows currData) (DigestData.SumSortRows prevData);
          DeltaResult.DeltaSumNoIndexUsed :=
            calcDelta (DigestData.SumNoIndexUsed currData) (DigestData.SumNoIndexUsed prevData);
          DeltaResult.DeltaSumNoGoodIndexUsed :=
            calcDelta (DigestData.SumNoGoodIndexUsed currData)
                      (DigestData.SumNoGoodIndexUsed prevData)
        |} ]
      else results
  end.

(** [CalculateDeltas(prev, curr)]; the nil slice returned for a nil
    argument is the empty list. *)
Definition CalculateDeltas (prev curr : option Snapshot.t) : list DeltaResult.t :=
  match prev, curr with
  | Some prev, Some curr =>
      let timeDiffSecs :=
        Time.Seconds (Time.Sub (Snapshot.Timestamp curr) (Snapshot.Timestamp prev)) in
      foldl (deltaStep (Snapshot.Digests prev) timeDiffSecs) []
            (map_to_list (Snapshot.Digests curr))
  | _, _ => []
  end.

(** [SnapshotStore]: the map [latestSnapshots] from instance identifier to
    the (possibly nil) pointer to the latest snapshot. The mutex is not
    modelled: every operation is atomic. *)
Abbreviation SnapshotStore := (gmap string (option Snapshot.t)).

Definition NewSnapshotStore : SnapshotStore := ∅.

Definition StoreSnapshot (s : SnapshotStore) (instanceID : string)
    (snapshot : option Snapshot.t) : SnapshotStore :=
  <[instanceID := snapshot]> s.

(** Reading a missing key of a Go map gives the zero value, here nil. *)
Definition GetSnapshot (s : SnapshotStore) (instanceID : string) : option Snapshot.t :=
  match s !! instanceID with
  | Some snapshot => snapshot
  | None => None
  end.

(** The fields of [Collector] that the collection reads. The database
    handle is modelled by the answers the server gives to one call of
    [collectSnapshot], see [DB]. *)
Module Collector.
Record t : Type := mk {
  dsn : string;
  instanceID : string
}.
End Collector.

(** One row of the digest query as the driver hands it to [rows.Scan]:
    [None] is SQL NULL ([sql.NullString] with [Valid = false]). *)
Module Row.
Record t : Type := mk {
  schemaName : option string;
  digest : option string;
  digestText : option string;
  countStar : Z;
  sumTimerWait : Z;
  sumLockTime : Z;
  sumErrors : Z;
  sumWarnings : Z;
  sumRowsAffected : Z;
  sumRowsSent : Z;
  sumRowsExamined : Z;
  sumCreatedTmpTables : Z;
  sumCreatedTmpDiskTables : Z;
  sumSortRows : Z;
  sumNoIndexUsed : Z;
  sumNoGoodIndexUsed : Z
}.
End Row.

(** The answers of the server during one call of [collectSnapshot]: the
    two preflight queries (the error of the query, [sql.ErrNoRows]
    included, or the value of the column that is read), the digest
    query with the outcome of scanning each of its rows, and the final
    [rows.Err()]. *)
Module DB.
Record t : Type := mk {
  PerformanceSchema : result string;
  StatementsDigest : result string;
  DigestRows : result (list (result Row.t));
  RowsErr : option error
}.
End DB.

(** [sql.NullString.String]: the empty string for NULL. *)
Definition NullString_String (s : option string) : string :=
  match s with Some v => v | None => ""%string end.

(** Body of the [rows.Next()] loop of [collectSnapshot]. *)
Definition scanStep (timestamp : Time.Time) (digests : gmap string DigestData.t)
    (scanned : result Row.t) : gmap string DigestData.t :=
  match scanned with
  | Err _ => digests
  | Ok row =>
      match Row.digest row with
      | None => digests
      | Some digest =>
          let data := {|
            DigestData.Digest := digest;
            DigestData.SchemaName := NullString_String (Row.schemaName row);
            DigestData.DigestText := NullString_String (Row.digestText row);
            DigestData.CountStar := Row.countStar row;
            DigestData.SumTimerWait := Row.sumTimerWait row;
            DigestData.SumLockTime := Row.sumLockTime row;
            DigestData.SumErrors := Row.sumErrors row;
            DigestData.SumWarnings := Row.sumWarnings row;
            DigestData.SumRowsAffected := Row.sumRowsAffected row;
            DigestData.SumRowsSent := Row.sumRowsSent row;
            DigestData.SumRowsExamined := Row.sumRowsExamined row;
            DigestData.SumCreatedTmpTables := Row.sumCreatedTmpTables row;
            DigestData.SumCreatedTmpDiskTables := Row.sumCreatedTmpDiskTables row;
            DigestData.SumSortRows := Row.sumSortRows row;
            DigestData.SumNoIndexUsed := Row.sumNoIndexUsed row;
            DigestData.SumNoGoodIndexUsed := Row.sumNoGoodIndexUsed row;
            DigestData.Timestamp := timestamp
          |} in
          <[DigestData.Digest data := data]> digests
      end
  end.

(** [collectSnapshot]: the two preflight checks, the digest query, the
    materialisation. [now] is the reading of [time.Now()]. The first
    check scans its row with [Scan(nil, &perfSchemaEnabled)]. *)
Definition collectSnapshot (c : Collector.t) (db : DB.t) (now : Time.Time)
    : result Snapshot.t :=
  match sql.Row_Scan_nil_string "Variable_name" (DB.PerformanceSchema db) with
  | Err err => Err (WrapError "failed to check performance_schema status" err)
  | Ok perfSchemaEnabled =>
      if negb (String.eqb perfSchemaEnabled "ON") then
        Err (NewError ("performance_schema is not enabled (status: "
                         +:+ perfSchemaEnabled +:+ ")"))
      else
        match DB.StatementsDigest db with
        | Err err => Err (WrapError "failed to check statements_digest status" err)
        | Ok digestsEnabled =>
            if negb (String.eqb digestsEnabled "YES") then
              Err (NewError "performance_schema statements_digest consumer is not enabled")
            else
              match DB.DigestRows db with
              | Err err => Err (WrapError "failed to query performance_schema" err)
              | Ok rows =>
                  let digests := foldl (scanStep now) ∅ rows in
                  match DB.RowsErr db with
                  | Some err =>
                      Err (WrapError "error iterating performance_schema rows" err)
                  | None =>
                      Ok {| Snapshot.Digests := digests;
                            Snapshot.Timestamp := now;
                            Snapshot.InstanceID := Collector.instanceID c |}
                  end
              end
        end
  end.

(** The attributes of the log record built for one delta. *)
Definition logAttributes (delta : DeltaResult.t) : pdata.Map :=
  let attrs := [] in
  let attrs := pdata.PutStr attrs "db.statement.digest" (DeltaResult.Digest delta) in
  let attrs := pdata.PutStr attrs "db.statement.sample" (DeltaResult.DigestText delta) in
  let attrs := pdata.PutStr attrs "db.schema" (DeltaResult.SchemaName delta) in
  let attrs := pdata.PutInt attrs "db.query.calls.delta" (DeltaResult.DeltaCountStar delta) in
  let attrs := pdata.PutInt attrs "db.query.total_timer_wait.delta"
                 (DeltaResult.DeltaSumTimerWait delta) in
  let attrs := pdata.PutInt attrs "db.query.lock_time.delta"
                 (DeltaResult.DeltaSumLockTime delta) in
  let attrs := pdata.PutInt attrs "db.query.errors.delta" (DeltaResult.DeltaSumErrors delta) in
  let attrs := pdata.PutInt attrs "db.query.warnings.delta"
                 (DeltaResult.DeltaSumWarnings delta) in
  let attrs := pdata.PutInt attrs "db.query.rows_affected.delta"
                 (DeltaResult.DeltaSumRowsAffected delta) in
  let attrs := pdata.PutInt attrs "db.query.rows_sent.delta"
                 (DeltaResult.DeltaSumRowsSent delta) in
  let attrs := pdata.PutInt attrs "db.query.rows_examined.delta"
                 (DeltaResult.DeltaSumRowsExamined delta) in
  let attrs := pdata.PutInt attrs "db.query.created_tmp_tables.delta"
                 (DeltaResult.DeltaSumCreatedTmpTables delta) in
  let attrs := pdata.PutInt attrs "db.query.created_tmp_disk_tables.delta"
                 (DeltaResult.DeltaSumCreatedTmpDiskTables delta) in
  let attrs := pdata.PutInt attrs "db.query.sort_rows.delta"
                 (DeltaResult.DeltaSumSortRows delta) in
  let attrs := pdata.PutInt attrs "db.query.no_index_used.delta"
                 (DeltaResult.DeltaSumNoIndexUsed delta) in
  let attrs := pdata.PutInt attrs "db.query.no_good_index_used.delta"
                 (DeltaResult.DeltaSumNoGoodIndexUsed delta) in
  let attrs := pdata.PutDouble attrs "db.query.time_period_seconds"
                 (DeltaResult.TimePeriodSecs delta) in
  attrs.

(** Body of the loop of [deltaToLogs]: the new slice of log records.
    [clock i] is the reading of [time.Now()] when the record of index
    [i] is stamped. *)
Definition logStep (clock : nat -> Time.Time) (records : list pdata.LogRecord.t)
    (delta : DeltaResult.t) : list pdata.LogRecord.t :=
  if DeltaResult.DeltaCountStar delta <=? 0 then records
  else
    records ++ [ {|
      pdata.LogRecord.Timestamp := clock (length records);
      pdata.LogRecord.Severity := pdata.SeverityNumberInfo;
      pdata.LogRecord.SeverityText := "INFO";
      pdata.LogRecord.Attributes := logAttributes delta;
      pdata.LogRecord.Body := DeltaResult.DigestText delta
    |} ].

(** The log record [deltaToLogs] appends for a delta, stamped with the
    given reading of the clock. *)
Definition logRecord (timestamp : Time.Time) (delta : DeltaResult.t) : pdata.LogRecord.t :=
  {| pdata.LogRecord.Timestamp := timestamp;
     pdata.LogRecord.Severity := pdata.SeverityNumberInfo;
     pdata.LogRecord.SeverityText := "INFO";
     pdata.LogRecord.Attributes := logAttributes delta;
     pdata.LogRecord.Body := DeltaResult.DigestText delta |}.

(** [deltaToLogs]. *)
Definition deltaToLogs (c : Collector.t) (clock : nat -> Time.Time)
    (deltas : list DeltaResult.t) : pdata.Logs :=
  let logs := pdata.NewLogs in
  if (length deltas =? 0)%nat then logs
  else
    let attrs := [] in
    let attrs := pdata.PutStr attrs "service.name" "obsidian-core" in
    let attrs := pdata.PutStr attrs "db.system" "mysql" in
    let attrs := pdata.PutStr attrs "resource.instance.id" (Collector.instanceID c) in
    logs ++ [ {|
      pdata.ResourceLogs.ResourceAttributes := attrs;
      pdata.ResourceLogs.ScopeLogsSlice := [ {|
        pdata.ScopeLogs.ScopeName := "qanprocessor";
        pdata.ScopeLogs.LogRecords := foldl (logStep clock) [] deltas
      |} ]
    |} ].

(** [Collect]: the new contents of the snapshot store, the logs and the
    error returned. [plog.Logs{}] is the empty batch. *)
Definition Collect (c : Collector.t) (db : DB.t) (now : Time.Time)
    (clock : nat -> Time.Time) (store : SnapshotStore)
    : SnapshotStore * (pdata.Logs * option error) :=
  match collectSnapshot c db now with
  | Err err => (store, ([], Some err))
  | Ok snapshot =>
      let prevSnapshot := GetSnapshot store (Collector.instanceID c) in
      let store := StoreSnapshot store (Collector.instanceID c) (Some snapshot) in
      match prevSnapshot with
      | None => (store, ([], None))
      | Some prev =>
          let deltas := CalculateDeltas (Some prev) (Some snapshot) in
          let logs := deltaToLogs c clock deltas in
          (store, (logs, None))
      end
  end.

(** [NewCollector]. [open] and [ping] are the errors, if any, of
    [sql.Open] and of [db.Ping()]; [fmt.Sprintf] with the verb [%s]
    concatenates. *)
Definition NewCollector (endpoint username password database : string)
    (open ping : option error) : result Collector.t :=
  let database := if String.eqb database "" then "information_schema" else database in
  let dsn := username +:+ ":" +:+ password +:+ "@tcp(" +:+ endpoint +:+ ")/" +:+ database in
  match open with
  | Some err => Err (WrapError "failed to create MySQL connection" err)
  | None =>
      match ping with
      | Some err => Err (WrapError "failed to connect to MySQL" err)
      | None =>
          let instanceID := "mysql://" +:+ endpoint +:+ "/" +:+ database in
          Ok {| Collector.dsn := dsn; Collector.instanceID := instanceID |}
      end
  end.

(** *** Vocabulary of the properties

    The thirteen counters of a digest row, their value in a row and
    their delta in a result. *)
Inductive counter : Type :=
| CountStar | SumTimerWait | SumLockTime | SumErrors | SumWarnings
| SumRowsAffected | SumRowsSent | SumRowsExamined | SumCreatedTmpTables
| SumCreatedTmpDiskTables | SumSortRows | SumNoIndexUsed | SumNoGoodIndexUsed.

Definition counterValue (c : counter) (d : DigestData.t) : Z :=
  match c with
  | CountStar => DigestData.CountStar d
  | SumTimerWait => DigestData.SumTimerWait d
  | SumLockTime => DigestData.SumLockTime d
  | SumErrors => DigestData.SumErrors d
  | SumWarnings => DigestData.SumWarnings d
  | SumRowsAffected => DigestData.SumRowsAffected d
  | SumRowsSent => DigestData.SumRowsSent d
  | SumRowsExamined => DigestData.SumRowsExamined d
  | SumCreatedTmpTables => DigestData.SumCreatedTmpTables d
  | SumCreatedTmpDiskTables => DigestData.SumCreatedTmpDiskTables d
  | SumSortRows => DigestData.SumSortRows d
  | SumNoIndexUsed => DigestData.SumNoIndexUsed d
  | SumNoGoodIndexUsed => DigestData.SumNoGoodIndexUsed d
  end.

Definition counterDelta (c : counter) (r : DeltaResult.t) : Z :=
  match c with
  | CountStar => DeltaResult.DeltaCountStar r
  | SumTimerWait => DeltaResult.DeltaSumTimerWait r
  | SumLockTime => DeltaResult.DeltaSumLockTime r
  | SumErrors => DeltaResult.DeltaSumErrors r
  | SumWarnings => DeltaResult.DeltaSumWarnings r
  | SumRowsAffected => DeltaResult.DeltaSumRowsAffected r
  | SumRowsSent => DeltaResult.DeltaSumRowsSent r
  | SumRowsExamined => DeltaResult.DeltaSumRowsExamined r
  | SumCreatedTmpTables => DeltaResult.DeltaSumCreatedTmpTables r
  | SumCreatedTmpDiskTables => DeltaResult.DeltaSumCreatedTmpDiskTables r
  | SumSortRows => DeltaResult.DeltaSumSortRows r
  | SumNoIndexUsed => DeltaResult.DeltaSumNoIndexUsed r
  | SumNoGoodIndexUsed => DeltaResult.DeltaSumNoGoodIndexUsed r
  end.

(** The calls delta the delta policy computes for a key of the current
    snapshot: the current count for a key the previous snapshot lacks,
    the reset-aware difference otherwise. *)
Definition callsDelta (prevDigests : gmap string DigestData.t) (digest : string)
    (currData : DigestData.t) : Z :=
  match prevDigests !! digest with
  | None => DigestData.CountStar currData
  | Some prevData => calcDelta (DigestData.CountStar currData) (DigestData.CountStar prevData)
  end.

End mysql.

(** ** Package [postgresql]: snapshots and the delta engine *)

Module postgresql.

(** One row of [pg_stat_statements]. *)
Module QueryData.
Record t : Type := mk {
  QueryID : string;
  UserID : string;
  DBID : string;
  Query : string;
  Calls : Z;
  TotalPlanTime : float;
  TotalExecTime : float;
  Rows : Z;
  SharedBlksHit : Z;
  SharedBlksRead : Z;
  SharedBlksDirtied : Z;
  SharedBlksWritten : Z;
  LocalBlksHit : Z;
  LocalBlksRead : Z;
  LocalBlksDirtied : Z;
  LocalBlksWritten : Z;
  TempBlksRead : Z;
  TempBlksWritten : Z;
  BlkReadTime : float;
  BlkWriteTime : float;
  Timestamp : Time.Time
}.
End QueryData.

Module Snapshot.
Record t : Type := mk {
  Queries : gmap string QueryData.t;
  Timestamp : Time.Time;
  InstanceID : string
}.
End Snapshot.

Module DeltaResult.
Record t : Type := mk {
  QueryID : string;
  UserID : string;
  DBID : string;
  Query : string;
  TimePeriodSecs : float;
  DeltaCalls : Z;
  DeltaTotalPlanTime : float;
  DeltaTotalExecTime : float;
  DeltaRows : Z;
  DeltaSharedBlksHit : Z;
  DeltaSharedBlksRead : Z;
  DeltaSharedBlksDirtied : Z;
  DeltaSharedBlksWritten : Z;
  DeltaLocalBlksHit : Z;
  DeltaLocalBlksRead : Z;
  DeltaLocalBlksDirtied : Z;
  DeltaLocalBlksWritten : Z;
  DeltaTempBlksRead : Z;
  DeltaTempBlksWritten : Z;
  DeltaBlkReadTime : float;
  DeltaBlkWriteTime : float
}.
End DeltaResult.

(** The closures [calcDeltaInt64] and [calcDeltaFloat64]. The float
    comparison [curr >= prev] is false as soon as one side is NaN. *)
Definition calcDeltaInt64 (curr prev : Z) : Z :=
  if curr >=? prev then Int64.sub curr prev else curr.

Definition calcDeltaFloat64 (curr prev : float) : float :=
  if (prev <=? curr)%float then (curr - prev)%float else curr.

(** Body of the loop of [CalculateDeltas] for one entry of [curr.Queries]. *)
Definition deltaStep (prevQueries : gmap string QueryData.t) (timeDiffSecs : float)
    (results : list DeltaResult.t) (entry : string * QueryData.t) : list DeltaResult.t :=
  let '(queryID, currData) := entry in
  match prevQueries !! queryID with
  | None =>
      results ++ [ {|
        DeltaResult.QueryID := queryID;
        DeltaResult.UserID := QueryData.UserID currData;
        DeltaResult.DBID := QueryData.DBID currData;
        DeltaResult.Query := QueryData.Query currData;
        DeltaResult.TimePeriodSecs := timeDiffSecs;
        DeltaResult.DeltaCalls := QueryData.Calls currData;
        DeltaResult.DeltaTotalPlanTime := QueryData.TotalPlanTime currData;
        DeltaResult.DeltaTotalExecTime := QueryData.TotalExecTime currData;
        DeltaResult.DeltaRows := QueryData.Rows currData;
        DeltaResult.DeltaSharedBlksHit := QueryData.SharedBlksHit currData;
        DeltaResult.DeltaSharedBlksRead := QueryData.SharedBlksRead currData;
        DeltaResult.DeltaSharedBlksDirtied := QueryData.SharedBlksDirtied currData;
        DeltaResult.DeltaSharedBlksWritten := QueryData.SharedBlksWritten currData;
        DeltaResult.DeltaLocalBlksHit := QueryData.LocalBlksHit currData;
        DeltaResult.DeltaLocalBlksRead := QueryData.LocalBlksRead currData;
        DeltaResult.DeltaLocalBlksDirtied := QueryData.LocalBlksDirtied currData;
        DeltaResult.DeltaLocalBlksWritten := QueryData.LocalBlksWritten currData;
        DeltaResult.DeltaTempBlksRead := QueryData.TempBlksRead currData;
        DeltaResult.DeltaTempBlksWritten := QueryData.TempBlksWritten currData;
        DeltaResult.DeltaBlkReadTime := QueryData.BlkReadTime currData;
        DeltaResult.DeltaBlkWriteTime := QueryData.BlkWriteTime currData
      |} ]
  | Some prevData =>
      let deltaCalls :=
        if QueryData.Calls currData >=? QueryData.Calls prevData
        then Int64.sub (QueryData.Calls currData) (QueryData.Calls prevData)
        else QueryData.Calls currData in
      if deltaCalls >? 0 then
        results ++ [ {|
          DeltaResult.QueryID := queryID;
          DeltaResult.UserID := QueryData.UserID currData;
          DeltaResult.DBID := QueryData.DBID currData;
          DeltaResult.Query := QueryData.Query currData;
          DeltaResult.TimePeriodSecs := timeDiffSecs;
          DeltaResult.DeltaCalls := deltaCalls;
          DeltaResult.DeltaTotalPlanTime :=
            calcDeltaFloat64 (QueryData.TotalPlanTime currData) (QueryData.TotalPlanTime prevData);
          DeltaResult.DeltaTotalExecTime :=
            calcDeltaFloat64 (QueryData.TotalExecTime currData) (QueryData.TotalExecTime prevData);
          DeltaResult.DeltaRows :=
            calcDeltaInt64 (QueryData.Rows currData) (QueryData.Rows prevData);
          DeltaResult.DeltaSharedBlksHit :=
            calcDeltaInt64 (QueryData.SharedBlksHit currData) (QueryData.SharedBlksHit prevData);
          DeltaResult.DeltaSharedBlksRead :=
            calcDeltaInt64 (QueryData.SharedBlksRead currData) (QueryData.SharedBlksRead prevData);
          DeltaResult.DeltaSharedBlksDirtied :=
            calcDeltaInt64 (QueryData.SharedBlksDirtied currData)
                           (QueryData.SharedBlksDirtied prevData);
          DeltaResult.DeltaSharedBlksWritten :=
            calcDeltaInt64 (QueryData.SharedBlksWritten currData)
                           (QueryData.SharedBlksWritten prevData);
          DeltaResult.DeltaLocalBlksHit :=
            calcDeltaInt64 (QueryData.LocalBlksHit currData) (QueryData.LocalBlksHit prevData);
          DeltaResult.DeltaLocalBlksRead :=
            calcDeltaInt64 (QueryData.LocalBlksRead currData) (QueryData.LocalBlksRead prevData);
          DeltaResult.DeltaLocalBlksDirtied :=
            calcDeltaInt64 (QueryData.LocalBlksDirtied currData)
                           (QueryData.LocalBlksDirtied prevData);
          DeltaResult.DeltaLocalBlksWritten :=
            calcDeltaInt64 (QueryData.LocalBlksWritten currData)
                           (QueryData.LocalBlksWritten prevData);
          DeltaResult.DeltaTempBlksRead :=
            calcDeltaInt64 (QueryData.TempBlksRead currData) (QueryData.TempBlksRead prevData);
          DeltaResult.DeltaTempBlksWritten :=
            calcDeltaInt64 (QueryData.TempBlksWritten currData)
                           (QueryData.TempBlksWritten prevData);
          DeltaResult.DeltaBlkReadTime :=
            calcDeltaFloat64 (QueryData.BlkReadTime currData) (QueryData.BlkReadTime prevData);
          DeltaResult.DeltaBlkWriteTime :=
            calcDeltaFloat64 (QueryData.BlkWriteTime currData) (QueryData.BlkWriteTime prevData)
        |} ]
      else results
  end.

(** [CalculateDeltas(prev, curr)]. *)
Definition CalculateDeltas (prev curr : option Snapshot.t) : list DeltaResult.t :=
  match prev, curr with
  | Some prev, Some curr =>
      let timeDiffSecs :=
        Time.Seconds (Time.Sub (Snapshot.Timestamp curr) (Snapshot.Timestamp prev)) in
      foldl (deltaStep (Snapshot.Queries prev) timeDiffSecs) []
            (map_to_list (Snapshot.Queries curr))
  | _, _ => []
  end.

Abbreviation SnapshotStore := (gmap string (option Snapshot.t)).

Definition NewSnapshotStore : SnapshotStore := ∅.

Definition StoreSnapshot (s : SnapshotStore) (instanceID : string)
    (snapshot : option Snapshot.t) : SnapshotStore :=
  <[instanceID := snapshot]> s.

Definition GetSnapshot (s : SnapshotStore) (instanceID : string) : option Snapshot.t :=
  match s !! instanceID with
  | Some snapshot => snapshot
  | None => None
  end.

Module Collector.
Record t : Type := mk {
  connStr : string;
  instanceID : string
}.
End Collector.

(** The answers of the server during one call of [collectSnapshot]: the
    extension check, the statements query with the outcome of scanning
    each row into a [QueryData], and the final [rows.Err()]. *)
Module DB.
Record t : Type := mk {
  HasExtension : result bool;
  StatementRows : result (list (result QueryData.t));
  RowsErr : option error
}.
End DB.

Definition QueryData_withTimestamp (data : QueryData.t) (timestamp : Time.Time)
    : QueryData.t :=
  {| QueryData.QueryID := QueryData.QueryID data;
     QueryData.UserID := QueryData.UserID data;
     QueryData.DBID := QueryData.DBID data;
     QueryData.Query := QueryData.Query data;
     QueryData.Calls := QueryData.Calls data;
     QueryData.TotalPlanTime := QueryData.TotalPlanTime data;
     QueryData.TotalExecTime := QueryData.TotalExecTime data;
     QueryData.Rows := QueryData.Rows data;
     QueryData.SharedBlksHit := QueryData.SharedBlksHit data;
     QueryData.SharedBlksRead := QueryData.SharedBlksRead data;
     QueryData.SharedBlksDirtied := QueryData.SharedBlksDirtied data;
     QueryData.SharedBlksWritten := QueryData.SharedBlksWritten data;
     QueryData.LocalBlksHit := QueryData.LocalBlksHit data;
     QueryData.LocalBlksRead := QueryData.LocalBlksRead data;
     QueryData.LocalBlksDirtied := QueryData.LocalBlksDirtied data;
     QueryData.LocalBlksWritten := QueryData.LocalBlksWritten data;
     QueryData.TempBlksRead := QueryData.TempBlksRead data;
     QueryData.TempBlksWritten := QueryData.TempBlksWritten data;
     QueryData.BlkReadTime := QueryData.BlkReadTime data;
     QueryData.BlkWriteTime := QueryData.BlkWriteTime data;
     QueryData.Timestamp := timestamp |}.

(** Body of the [rows.Next()] loop of [collectSnapshot]. *)
Definition scanStep (timestamp : Time.Time) (queries : gmap string QueryData.t)
    (scanned : result QueryData.t) : gmap string QueryData.t :=
  match scanned with
  | Err _ => queries
  | Ok data =>
      let data := QueryData_withTimestamp data timestamp in
      <[QueryData.QueryID data := data]> queries
  end.

(** [collectSnapshot]. *)
Definition collectSnapshot (c : Collector.t) (db : DB.t) (now : Time.Time)
    : result Snapshot.t :=
  match DB.HasExtension db with
  | Err err =>
      Err (WrapError "failed to check for pg_stat_statements extension" err)
  | Ok hasExtension =>
      if negb hasExtension then
        Err (NewError "pg_stat_statements extension is not installed")
      else
        match DB.StatementRows db with
        | Err err => Err (WrapError "failed to query pg_stat_statements" err)
        | Ok rows =>
            let queries := foldl (scanStep now) ∅ rows in
            match DB.RowsErr db with
            | Some err =>
                Err (WrapError "error iterating pg_stat_statements rows" err)
            | None =>
                Ok {| Snapshot.Queries := queries;
                            Snapshot.Timestamp := now;
                            Snapshot.InstanceID := Collector.instanceID c |}
            end
        end
  end.

(** The attributes of the log record built for one delta. *)
Definition logAttributes (delta : DeltaResult.t) : pdata.Map :=
  let attrs := [] in
  let attrs := pdata.PutStr attrs "db.query.id" (DeltaResult.QueryID delta) in
  let attrs := pdata.PutStr attrs "db.statement.sample" (DeltaResult.Query delta) in
  let attrs := pdata.PutStr attrs "db.user.id" (DeltaResult.UserID delta) in
  let attrs := pdata.PutStr attrs "db.name.id" (DeltaResult.DBID delta) in
  let attrs := pdata.PutInt attrs "db.query.calls.delta" (DeltaResult.DeltaCalls delta) in
  let attrs := pdata.PutDouble attrs "db.query.total_plan_time.delta"
                 (DeltaResult.DeltaTotalPlanTime delta) in
  let attrs := pdata.PutDouble attrs "db.query.total_exec_time.delta"
                 (DeltaResult.DeltaTotalExecTime delta) in
  let attrs := pdata.PutInt attrs "db.query.rows.delta" (DeltaResult.DeltaRows delta) in
  let attrs := pdata.PutInt attrs "db.query.shared_blks_hit.delta"
                 (DeltaResult.DeltaSharedBlksHit delta) in
  let attrs := pdata.PutInt attrs "db.query.shared_blks_read.delta"
                 (DeltaResult.DeltaSharedBlksRead delta) in
  let attrs := pdata.PutInt attrs "db.query.shared_blks_dirtied.delta"
                 (DeltaResult.DeltaSharedBlksDirtied delta) in
  let attrs := pdata.PutInt attrs "db.query.shared_blks_written.delta"
                 (DeltaResult.DeltaSharedBlksWritten delta) in
  let attrs := pdata.PutInt attrs "db.query.local_blks_hit.delta"
                 (DeltaResult.DeltaLocalBlksHit delta) in
  let attrs := pdata.PutInt attrs "db.query.local_blks_read.delta"
                 (DeltaResult.DeltaLocalBlksRead delta) in
  let attrs := pdata.PutInt attrs "db.query.local_blks_dirtied.delta"
                 (DeltaResult.DeltaLocalBlksDirtied delta) in
  let attrs := pdata.PutInt attrs "db.query.local_blks_written.delta"
                 (DeltaResult.DeltaLocalBlksWritten delta) in
  let attrs := pdata.PutInt attrs "db.query.temp_blks_read.delta"
                 (DeltaResult.DeltaTempBlksRead delta) in
  let attrs := pdata.PutInt attrs "db.query.temp_blks_written.delta"
                 (DeltaResult.DeltaTempBlksWritten delta) in
  let attrs := pdata.PutDouble attrs "db.query.blk_read_time.delta"
                 (DeltaResult.DeltaBlkReadTime delta) in
  let attrs := pdata.PutDouble attrs "db.query.blk_write_time.delta"
                 (DeltaResult.DeltaBlkWriteTime delta) in
  let attrs := pdata.PutInt attrs "db.query.rows_examined.delta"
                 (DeltaResult.DeltaRows delta) in
  let attrs := pdata.PutDouble attrs "db.query.time_period_seconds"
                 (DeltaResult.TimePeriodSecs delta) in
  attrs.

(** Body of the loop of [deltaToLogs]. *)
Definition logStep (clock : nat -> Time.Time) (records : list pdata.LogRecord.t)
    (delta : DeltaResult.t) : list pdata.LogRecord.t :=
  if DeltaResult.DeltaCalls delta <=? 0 then records
  else
    records ++ [ {|
      pdata.LogRecord.Timestamp := clock (length records);
      pdata.LogRecord.Severity := pdata.SeverityNumberInfo;
      pdata.LogRecord.SeverityText := "INFO";
      pdata.LogRecord.Attributes := logAttributes delta;
      pdata.LogRecord.Body := DeltaResult.Query delta
    |} ].

(** The log record [deltaToLogs] appends for a delta, stamped with the
    given reading of the clock. *)
Definition logRecord (timestamp : Time.Time) (delta : DeltaResult.t) : pdata.LogRecord.t :=
  {| pdata.LogRecord.Timestamp := timestamp;
     pdata.LogRecord.Severity := pdata.SeverityNumberInfo;
     pdata.LogRecord.SeverityText := "INFO";
     pdata.LogRecord.Attributes := logAttributes delta;
     pdata.LogRecord.Body := DeltaResult.Query delta |}.

(** [deltaToLogs]. *)
Definition deltaToLogs (c : Collector.t) (clock : nat -> Time.Time)
    (deltas : list DeltaResult.t) : pdata.Logs :=
  let logs := pdata.NewLogs in
  if (length deltas =? 0)%nat then logs
  else
    let attrs := [] in
    let attrs := pdata.PutStr attrs "service.name" "obsidian-core" in
    let attrs := pdata.PutStr attrs "db.system" "postgresql" in
    let attrs := pdata.PutStr attrs "resource.instance.id" (Collector.instanceID c) in
    logs ++ [ {|
      pdata.ResourceLogs.ResourceAttributes := attrs;
      pdata.ResourceLogs.ScopeLogsSlice := [ {|
        pdata.ScopeLogs.ScopeName := "qanprocessor";
        pdata.ScopeLogs.LogRecords := foldl (logStep clock) [] deltas
      |} ]
    |} ].

(** [Collect]. *)
Definition Collect (c : Collector.t) (db : DB.t) (now : Time.Time)
    (clock : nat -> Time.Time) (store : SnapshotStore)
    : SnapshotStore * (pdata.Logs * option error) :=
  match collectSnapshot c db now with
  | Err err => (store, ([], Some err))
  | Ok snapshot =>
      let prevSnapshot := GetSnapshot store (Collector.instanceID c) in
      let store := StoreSnapshot store (Collector.instanceID c) (Some snapshot) in
      match prevSnapshot with
      | None => (store, ([], None))
      | Some prev =>
          let deltas := CalculateDeltas (Some prev) (Some snapshot) in
          let logs := deltaToLogs c clock deltas in
          (store, (logs, None))
      end
  end.

(** [NewCollector]. *)
Definition NewCollector (endpoint username password database : string)
    (open ping : option error) : result Collector.t :=
  let connStr := "postgres://" +:+ username +:+ ":" +:+ password +:+ "@" +:+ endpoint
                 +:+ "/" +:+ database +:+ "?sslmode=disable" in
  match open with
  | Some err => Err (WrapError "failed to create PostgreSQL connection" err)
  | None =>
      match ping with
      | Some err => Err (WrapError "failed to connect to PostgreSQL" err)
      | None =>
          let instanceID := "postgresql://" +:+ endpoint +:+ "/" +:+ database in
          Ok {| Collector.connStr := connStr; Collector.instanceID := instanceID |}
      end
  end.

(** *** Vocabulary of the properties

    The integer and the fractional counters of a statement row, their
    value in a row and their delta in a result. *)
Inductive intCounter : Type :=
| Calls | Rows | SharedBlksHit | SharedBlksRead | SharedBlksDirtied | SharedBlksWritten
| LocalBlksHit | LocalBlksRead | LocalBlksDirtied | LocalBlksWritten
| TempBlksRead | TempBlksWritten.

Inductive floatCounter : Type :=
| TotalPlanTime | TotalExecTime | BlkReadTime | BlkWriteTime.

Definition intValue (c : intCounter) (d : QueryData.t) : Z :=
  match c with
  | Calls => QueryData.Calls d
  | Rows => QueryData.Rows d
  | SharedBlksHit => QueryData.SharedBlksHit d
  | SharedBlksRead => QueryData.SharedBlksRead d
  | SharedBlksDirtied => QueryData.SharedBlksDirtied d
  | SharedBlksWritten => QueryData.SharedBlksWritten d
  | LocalBlksHit => QueryData.LocalBlksHit d
  | LocalBlksRead => QueryData.LocalBlksRead d
  | LocalBlksDirtied => QueryData.LocalBlksDirtied d
  | LocalBlksWritten => QueryData.LocalBlksWritten d
  | TempBlksRead => QueryData.TempBlksRead d
  | TempBlksWritten => QueryData.TempBlksWritten d
  end.

Definition intDelta (c : intCounter) (r : DeltaResult.t) : Z :=
  match c with
  | Calls => DeltaResult.DeltaCalls r
  | Rows => DeltaResult.DeltaRows r
  | SharedBlksHit => DeltaResult.DeltaSharedBlksHit r
  | SharedBlksRead => DeltaResult.DeltaSharedBlksRead r
  | SharedBlksDirtied => DeltaResult.DeltaSharedBlksDirtied r
  | SharedBlksWritten => DeltaResult.DeltaSharedBlksWritten r
  | LocalBlksHit => DeltaResult.DeltaLocalBlksHit r
  | LocalBlksRead => DeltaResult.DeltaLocalBlksRead r
  | LocalBlksDirtied => DeltaResult.DeltaLocalBlksDirtied r
  | LocalBlksWritten => DeltaResult.DeltaLocalBlksWritten r
  | TempBlksRead => DeltaResult.DeltaTempBlksRead r
  | TempBlksWritten => DeltaResult.DeltaTempBlksWritten r
  end.

Definition floatValue (c : floatCounter) (d : QueryData.t) : float :=
  match c with
  | TotalPlanTime => QueryData.TotalPlanTime d
  | TotalExecTime => QueryData.TotalExecTime d
  | BlkReadTime => QueryData.BlkReadTime d
  | BlkWriteTime => QueryData.BlkWriteTime d
  end.

Definition floatDelta (c : floatCounter) (r : DeltaResult.t) : float :=
  match c with
  | TotalPlanTime => DeltaResult.DeltaTotalPlanTime r
  | TotalExecTime => DeltaResult.DeltaTotalExecTime r
  | BlkReadTime => DeltaResult.DeltaBlkReadTime r
  | BlkWriteTime => DeltaResult.DeltaBlkWriteTime r
  end.

(** The calls delta the delta policy computes for a key of the current
    snapshot. *)
Definition callsDelta (prevQueries : gmap string QueryData.t) (queryID : string)
    (currData : QueryData.t) : Z :=
  match prevQueries !! queryID with
  | None => QueryData.Calls currData
  | Some prevData => calcDeltaInt64 (QueryData.Calls currData) (QueryData.Calls prevData)
  end.

End postgresql.

(** ** Package [strconv] (the part the load probe uses) *)

Module strconv.

(** The two errors a [*NumError] can carry. *)
Inductive NumError : Type := ErrSyntax | ErrRange.

Definition digitValue (c : Ascii.ascii) : option Z :=
  let n := Z.of_nat (Ascii.nat_of_ascii c) in
  if (48 <=? n) && (n <=? 57) then Some (n - 48) else None.

Definition plusSign : Ascii.ascii := Ascii.ascii_of_nat 43.
Definition minusSign : Ascii.ascii := Ascii.ascii_of_nat 45.

Definition maxUint64 : Z := 2 ^ 64 - 1.

(** The loop of [ParseUint(s, 10, 64)] over the bytes of [s], [n] being
    the number read so far. In base 10 every byte that is not a decimal
    digit is a syntax error. The range error is returned as soon as the
    digits overflow, without a look at the bytes that follow. *)
Fixpoint parseUintLoop (s : string) (n : Z) : Z * option NumError :=
  match s with
  | EmptyString => (n, None)
  | String c s' =>
      match digitValue c with
      | None => (0, Some ErrSyntax)
      | Some d =>
          let cutoff := maxUint64 / 10 + 1 in
          if cutoff <=? n then (maxUint64, Some ErrRange)
          else
            let n := (n * 10) mod 2 ^ 64 in
            let n1 := (n + d) mod 2 ^ 64 in
            if (n1 <? n) || (maxUint64 <? n1) then (maxUint64, Some ErrRange)
            else parseUintLoop s' n1
      end
  end.

(** [strconv.ParseUint(s, 10, 64)]. *)
Definition ParseUint (s : string) : Z * option NumError :=
  match s with
  | EmptyString => (0, Some ErrSyntax)
  | _ => parseUintLoop s 0
  end.

(** [strconv.ParseInt(s, 10, 64)]: the value and the error. A syntax
    error comes with the value 0, a range error with the nearest
    bound. *)
Definition ParseInt (s : string) : Z * option NumError :=
  match s with
  | EmptyString => (0, Some ErrSyntax)
  | String c r =>
      let '(neg, digits) :=
        if Ascii.eqb c plusSign then (false, r)
        else if Ascii.eqb c minusSign then (true, r)
        else (false, s) in
      let '(un, err) := ParseUint digits in
      match err with
      | Some ErrSyntax => (0, Some ErrSyntax)
      | _ =>
          let cutoff := 2 ^ 63 in
          if negb neg && (cutoff <=? un) then (cutoff - 1, Some ErrRange)
          else if neg && (cutoff <? un) then (- cutoff, Some ErrRange)
          else
            let n := Int64.wrap un in
            (if neg then Int64.wrap (- n) else n, None)
      end
  end.

(** [strconv.Atoi(s)] where [int] has 64 bits. Its fast path, taken for
    fewer than 19 bytes, reads a sign and digits that cannot overflow
    and gives what [ParseInt(s, 10, 0)], its slow path, gives. *)
Definition Atoi (s : string) : Z * option NumError := ParseInt s.

End strconv.

(** ** Package [adaptive]: load probe *)

Module adaptive.

Module MySQLMetrics.
Record t : Type := mk {
  ThreadsRunning : Z;
  ThreadsConnected : Z;
  Questions : Z;
  SlowQueries : Z;
  InnodbRowLockTime : Z;
  Uptime : Z;
  Timestamp : Time.Time
}.
End MySQLMetrics.

Module MySQLMetricsDiff.
Record t : Type := mk {
  ThreadsRunning : Z;
  ThreadsConnected : Z;
  QuestionsDiff : Z;
  SlowQueriesDiff : Z;
  LockTimeDiff : Z;
  Timestamp : Time.Time;
  ElapsedSeconds : float;
  QPS : float;
  SlowQPS : float
}.
End MySQLMetricsDiff.

(** [MySQLMetrics.CalculateLoad] (pointer receiver): the plain thread ratio. *)
Definition MySQLMetrics_CalculateLoad (m : MySQLMetrics.t) : float :=
  if MySQLMetrics.ThreadsConnected m <=? 0 then 0%float
  else
    let ratio := (F64.of_int (MySQLMetrics.ThreadsRunning m)
                  / F64.of_int (MySQLMetrics.ThreadsConnected m))%float in
    let ratio := if (1.0 <? ratio)%float then 1.0%float else ratio in
    ratio.

(** [MySQLMetrics.CalculateDiff]. The fields a composite literal does
    not mention hold their zero value. *)
Definition CalculateDiff (m : MySQLMetrics.t) (previous : option MySQLMetrics.t)
    : MySQLMetricsDiff.t :=
  match previous with
  | None =>
      {| MySQLMetricsDiff.ThreadsRunning := MySQLMetrics.ThreadsRunning m;
         MySQLMetricsDiff.ThreadsConnected := MySQLMetrics.ThreadsConnected m;
         MySQLMetricsDiff.QuestionsDiff := 0;
         MySQLMetricsDiff.SlowQueriesDiff := 0;
         MySQLMetricsDiff.LockTimeDiff := 0;
         MySQLMetricsDiff.Timestamp := MySQLMetrics.Timestamp m;
         MySQLMetricsDiff.ElapsedSeconds := 0%float;
         MySQLMetricsDiff.QPS := 0%float;
         MySQLMetricsDiff.SlowQPS := 0%float |}
  | Some previous =>
      let elapsed :=
        Time.Seconds (Time.Sub (MySQLMetrics.Timestamp m) (MySQLMetrics.Timestamp previous)) in
      let elapsed := if (elapsed <=? 0)%float then 1%float else elapsed in
      {| MySQLMetricsDiff.ThreadsRunning := MySQLMetrics.ThreadsRunning m;
         MySQLMetricsDiff.ThreadsConnected := MySQLMetrics.ThreadsConnected m;
         MySQLMetricsDiff.QuestionsDiff :=
           Int64.sub (MySQLMetrics.Questions m) (MySQLMetrics.Questions previous);
         MySQLMetricsDiff.SlowQueriesDiff :=
           Int64.sub (MySQLMetrics.SlowQueries m) (MySQLMetrics.SlowQueries previous);
         MySQLMetricsDiff.LockTimeDiff :=
           Int64.sub (MySQLMetrics.InnodbRowLockTime m)
                     (MySQLMetrics.InnodbRowLockTime previous);
         MySQLMetricsDiff.Timestamp := MySQLMetrics.Timestamp m;
         MySQLMetricsDiff.ElapsedSeconds := elapsed;
         MySQLMetricsDiff.QPS :=
           (F64.of_int (Int64.sub (MySQLMetrics.Questions m) (MySQLMetrics.Questions previous))
            / elapsed)%float;
         MySQLMetricsDiff.SlowQPS :=
           (F64.of_int (Int64.sub (MySQLMetrics.SlowQueries m)
                                  (MySQLMetrics.SlowQueries previous))
            / elapsed)%float |}
  end.

(** [MySQLMetricsDiff.CalculateLoad]: the composite load. *)
Definition CalculateLoad (d : MySQLMetricsDiff.t) : float :=
  if MySQLMetricsDiff.ThreadsConnected d <=? 0 then 0.0%float
  else
    let threadRatio := (F64.of_int (MySQLMetricsDiff.ThreadsRunning d)
                        / F64.of_int (MySQLMetricsDiff.ThreadsConnected d))%float in
    let threadRatio := if (1.0 <? threadRatio)%float then 1.0%float else threadRatio in
    let slowQueryRatio := 0.0%float in
    let slowQueryRatio :=
      if MySQLMetricsDiff.QuestionsDiff d >? 0 then
        let slowQueryRatio := (F64.of_int (MySQLMetricsDiff.SlowQueriesDiff d)
                               / F64.of_int (MySQLMetricsDiff.QuestionsDiff d))%float in
        if (1.0 <? slowQueryRatio)%float then 1.0%float else slowQueryRatio
      else slowQueryRatio in
    let total := (threadRatio * 0.7 + slowQueryRatio * 0.3)%float in
    total.

(** [MySQLCollector]: the previous reading. *)
Module MySQLCollector.
Record t : Type := mk {
  lastMetrics : option MySQLMetrics.t
}.
End MySQLCollector.

Definition NewMySQLCollector : MySQLCollector.t :=
  {| MySQLCollector.lastMetrics := None |}.

(** The answers of the server to the status query of one probe: the
    rows (each one scanned into a name and a value, or failing to scan)
    and the final [rows.Err()]. *)
Module StatusDB.
Record t : Type := mk {
  StatusRows : result (list (result (string * string)));
  RowsErr : option error
}.
End StatusDB.

(** The [switch] of [collectMySQLMetrics] on the name of a status
    variable. The error of the conversion is dropped ([val, _ := ...])
    and the value returned with it is stored. *)
Definition setMetric (metrics : MySQLMetrics.t) (name valueStr : string) : MySQLMetrics.t :=
  let 'MySQLMetrics.mk tr tc q sq lt up ts := metrics in
  if String.eqb name "Threads_running" then
    MySQLMetrics.mk (fst (strconv.Atoi valueStr)) tc q sq lt up ts
  else if String.eqb name "Threads_connected" then
    MySQLMetrics.mk tr (fst (strconv.Atoi valueStr)) q sq lt up ts
  else if String.eqb name "Questions" then
    MySQLMetrics.mk tr tc (fst (strconv.ParseInt valueStr)) sq lt up ts
  else if String.eqb name "Slow_queries" then
    MySQLMetrics.mk tr tc q (fst (strconv.ParseInt valueStr)) lt up ts
  else if String.eqb name "Innodb_row_lock_time" then
    MySQLMetrics.mk tr tc q sq (fst (strconv.ParseInt valueStr)) up ts
  else if String.eqb name "Uptime" then
    MySQLMetrics.mk tr tc q sq lt (fst (strconv.ParseInt valueStr)) ts
  else metrics.

(** The [rows.Next()] loop of [collectMySQLMetrics]: a row that fails to
    scan aborts the probe. *)
Fixpoint scanStatusRows (rows : list (result (string * string))) (metrics : MySQLMetrics.t)
    : result MySQLMetrics.t :=
  match rows with
  | [] => Ok metrics
  | Err err :: _ => Err (WrapError "error scanning row" err)
  | Ok (name, valueStr) :: rows' => scanStatusRows rows' (setMetric metrics name valueStr)
  end.

Definition collectMySQLMetrics (db : StatusDB.t) (now : Time.Time) : result MySQLMetrics.t :=
  match StatusDB.StatusRows db with
  | Err err => Err (WrapError "error querying global status" err)
  | Ok rows =>
      let metrics := MySQLMetrics.mk 0 0 0 0 0 0 now in
      match scanStatusRows rows metrics with
      | Err err => Err err
      | Ok metrics =>
          match StatusDB.RowsErr db with
          | Some err => Err (WrapError "error iterating rows" err)
          | None => Ok metrics
          end
      end
  end.

(** [CollectMetrics]: the collector after the call, the load and the
    error returned. *)
Definition CollectMetrics (c : MySQLCollector.t) (db : StatusDB.t) (now : Time.Time)
    : MySQLCollector.t * (float * option error) :=
  match collectMySQLMetrics db now with
  | Err err => (c, (0%float, Some (WrapError "failed to collect MySQL metrics" err)))
  | Ok metrics =>
      let last := MySQLCollector.lastMetrics c in
      let diff := CalculateDiff metrics last in
      let c := {| MySQLCollector.lastMetrics := Some metrics |} in
      let load := CalculateLoad diff in
      (c, (load, None))
  end.

(** ** Package [adaptive]: EMA and governor *)

Definition HighLoadThreshold : float := 0.7%float.
Definition CriticalLoadThreshold : float := 0.9%float.
Definition FastEMAAlpha : float := 0.3%float.
Definition SlowEMAAlpha : float := 0.05%float.
Definition MinimumInterval : Time.Duration := 500 * Time.Millisecond.
Definition MaximumInterval : Time.Duration := 60 * Time.Second.
Definition DefaultJitterPercent : float := 0.1%float.
Definition StateFileName : string := "governor_state.json".

Module EMA.
Record t : Type := mk {
  alpha : float;
  value : float;
  initValue : bool
}.
End EMA.

Definition NewEMA (alpha : float) : EMA.t :=
  {| EMA.alpha := alpha; EMA.value := 0%float; EMA.initValue := false |}.

Definition EMA_Update (e : EMA.t) (value : float) : EMA.t :=
  if negb (EMA.initValue e) then
    {| EMA.alpha := EMA.alpha e; EMA.value := value; EMA.initValue := true |}
  else
    {| EMA.alpha := EMA.alpha e;
       EMA.value := (EMA.value e + EMA.alpha e * (value - EMA.value e))%float;
       EMA.initValue := EMA.initValue e |}.

Definition EMA_Value (e : EMA.t) : float := EMA.value e.

Definition EMA_SetValue (e : EMA.t) (value : float) : EMA.t :=
  {| EMA.alpha := EMA.alpha e; EMA.value := value; EMA.initValue := true |}.

Definition EMA_Reset (e : EMA.t) : EMA.t :=
  {| EMA.alpha := EMA.alpha e; EMA.value := 0%float; EMA.initValue := false |}.

Module GovernorState.
Record t : Type := mk {
  FastEMAValue : float;
  SlowEMAValue : float;
  Interval : Time.Duration;
  Timestamp : Time.Time
}.
End GovernorState.

(** [intervalChangeCb] records whether a callback is registered; what
    the callback is called with is recorded in the world, see
    [World.callbackLog]. *)
Module AdaptiveGovernor.
Record t : Type := mk {
  fastEMA : EMA.t;
  slowEMA : EMA.t;
  baseInterval : Time.Duration;
  currentInterval : Z;
  jitterPercent : float;
  stateDir : string;
  lastSnapshotTime : Time.Time;
  intervalChangeCb : bool
}.
End AdaptiveGovernor.

(** A file: its contents and its modification time. *)
Module File.
Record t : Type := mk {
  data : string;
  ModTime : Time.Time
}.
End File.

(** What the governor acts on outside itself: the files by path, and
    the arguments of the calls made to the registered callback, oldest
    first. *)
Module World.
Record t : Type := mk {
  files : gmap string File.t;
  callbackLog : list Time.Duration
}.
End World.

(** What the operating system answers during one operation of the
    governor: the reading of [time.Now()], and whether each system call
    succeeds. A missing file makes [os.Stat] fail whatever [Stat_ok]. *)
Module IO.
Record t : Type := mk {
  now : Time.Time;
  MkdirAll_ok : bool;
  WriteFile_ok : bool;
  Rename_ok : bool;
  Stat_ok : bool;
  ReadFile_ok : bool
}.
End IO.

(** The zero [time.Time] (January 1, year 1), in nanoseconds relative
    to the Unix epoch. *)
Definition zeroTime : Time.Time := -62135596800 * Time.Second.

(** [filepath.Join(dir, name)] for a non-empty directory without a
    trailing separator. *)
Definition filepath_Join (dir name : string) : string := dir +:+ "/" +:+ name.

Definition with_currentInterval (g : AdaptiveGovernor.t) (interval : Z) : AdaptiveGovernor.t :=
  {| AdaptiveGovernor.fastEMA := AdaptiveGovernor.fastEMA g;
     AdaptiveGovernor.slowEMA := AdaptiveGovernor.slowEMA g;
     AdaptiveGovernor.baseInterval := AdaptiveGovernor.baseInterval g;
     AdaptiveGovernor.currentInterval := interval;
     AdaptiveGovernor.jitterPercent := AdaptiveGovernor.jitterPercent g;
     AdaptiveGovernor.stateDir := AdaptiveGovernor.stateDir g;
     AdaptiveGovernor.lastSnapshotTime := AdaptiveGovernor.lastSnapshotTime g;
     AdaptiveGovernor.intervalChangeCb := AdaptiveGovernor.intervalChangeCb g |}.

Definition with_lastSnapshotTime (g : AdaptiveGovernor.t) (t : Time.Time) : AdaptiveGovernor.t :=
  {| AdaptiveGovernor.fastEMA := AdaptiveGovernor.fastEMA g;
     AdaptiveGovernor.slowEMA := AdaptiveGovernor.slowEMA g;
     AdaptiveGovernor.baseInterval := AdaptiveGovernor.baseInterval g;
     AdaptiveGovernor.currentInterval := AdaptiveGovernor.currentInterval g;
     AdaptiveGovernor.jitterPercent := AdaptiveGovernor.jitterPercent g;
     AdaptiveGovernor.stateDir := AdaptiveGovernor.stateDir g;
     AdaptiveGovernor.lastSnapshotTime := t;
     AdaptiveGovernor.intervalChangeCb := AdaptiveGovernor.intervalChangeCb g |}.

Definition with_EMAs (g : AdaptiveGovernor.t) (fast slow : EMA.t) : AdaptiveGovernor.t :=
  {| AdaptiveGovernor.fastEMA := fast;
     AdaptiveGovernor.slowEMA := slow;
     AdaptiveGovernor.baseInterval := AdaptiveGovernor.baseInterval g;
     AdaptiveGovernor.currentInterval := AdaptiveGovernor.currentInterval g;
     AdaptiveGovernor.jitterPercent := AdaptiveGovernor.jitterPercent g;
     AdaptiveGovernor.stateDir := AdaptiveGovernor.stateDir g;
     AdaptiveGovernor.lastSnapshotTime := AdaptiveGovernor.lastSnapshotTime g;
     AdaptiveGovernor.intervalChangeCb := AdaptiveGovernor.intervalChangeCb g |}.

(** Calling the callback, if one is registered. *)
Definition callIntervalChangeCb (g : AdaptiveGovernor.t) (w : World.t)
    (interval : Time.Duration) : World.t :=
  if AdaptiveGovernor.intervalChangeCb g then
    {| World.files := World.files w;
       World.callbackLog := World.callbackLog w ++ [interval] |}
  else w.

Definition with_files (w : World.t) (files : gmap string File.t) : World.t :=
  {| World.files := files; World.callbackLog := World.callbackLog w |}.

(** The load [ProcessLoadMetrics] feeds the averages with. *)
Definition clampLoad (load : float) : float :=
  if (load <? 0)%float then 0%float else if (1 <? load)%float then 1%float else load.

(** The operations a governor undergoes after its construction. *)
Inductive Operation : Type :=
| OpProcessLoadMetrics (load : float) (io : IO.t)
| OpReset (remove_ok : bool)
| OpRestoreState (io : IO.t).

(** An interval within the two bounds. *)
Definition withinBounds (interval : Z) : Prop :=
  MinimumInterval <= interval <= MaximumInterval.

(** The operations of the exported interface: [restoreState] is only
    called by the constructor. *)
Definition exportedOperation (op : Operation) : Prop :=
  match op with
  | OpRestoreState _ => False
  | _ => True
  end.

(** Two governors with the same settings: base interval, jitter, state
    directory and registered callback. *)
Definition sameSettings (g g' : AdaptiveGovernor.t) : Prop :=
  AdaptiveGovernor.baseInterval g' = AdaptiveGovernor.baseInterval g /\
  AdaptiveGovernor.jitterPercent g' = AdaptiveGovernor.jitterPercent g /\
  AdaptiveGovernor.stateDir g' = AdaptiveGovernor.stateDir g /\
  AdaptiveGovernor.intervalChangeCb g' = AdaptiveGovernor.intervalChangeCb g.

Section Governor.

(** The library functions the governor calls and that are not part of
    this repository: [math.Pow], and the JSON codec of [GovernorState]
    ([json.Marshal] fails on a NaN or an infinity, [json.Unmarshal] on
    malformed data). *)
Variable math_Pow : float -> float -> float.
Variable json_Marshal : GovernorState.t -> option string.
Variable json_Unmarshal : string -> option GovernorState.t.

(** The interval the exponential back-off computes, before the cap. *)
Definition backoffInterval (baseInterval : Time.Duration) (fastValue : float) : Time.Duration :=
  let loadRatio := (fastValue / HighLoadThreshold)%float in
  let multiplier := math_Pow 2%float (loadRatio - 1)%float in
  F64.to_int64 (F64.of_int baseInterval * multiplier)%float.

(** The interval [adjustInterval] decides on from the load thresholds. *)
Definition newIntervalFor (baseInterval : Time.Duration) (fastValue : float) : Time.Duration :=
  if (CriticalLoadThreshold <? fastValue)%float then MaximumInterval
  else if (HighLoadThreshold <? fastValue)%float then
    let newInterval := backoffInterval baseInterval fastValue in
    if newInterval >? MaximumInterval then MaximumInterval else newInterval
  else baseInterval.

(** [adjustInterval]. *)
Definition adjustInterval (g : AdaptiveGovernor.t) (w : World.t)
    : AdaptiveGovernor.t * World.t :=
  let fastValue := EMA_Value (AdaptiveGovernor.fastEMA g) in
  let currentInterval := AdaptiveGovernor.currentInterval g in
  let newInterval := newIntervalFor (AdaptiveGovernor.baseInterval g) fastValue in
  if (0.1 <? abs (F64.of_int (Int64.sub newInterval currentInterval))
             / F64.of_int currentInterval)%float then
    let g := with_currentInterval g newInterval in
    (g, callIntervalChangeCb g w newInterval)
  else (g, w).

(** [saveState]. The file written carries the modification time
    [IO.now]. *)
Definition saveState (g : AdaptiveGovernor.t) (io : IO.t) (w : World.t) : World.t :=
  if String.eqb (AdaptiveGovernor.stateDir g) "" then w
  else if negb (IO.MkdirAll_ok io) then w
  else
    let state := {|
      GovernorState.FastEMAValue := EMA_Value (AdaptiveGovernor.fastEMA g);
      GovernorState.SlowEMAValue := EMA_Value (AdaptiveGovernor.slowEMA g);
      GovernorState.Interval := AdaptiveGovernor.currentInterval g;
      GovernorState.Timestamp := IO.now io |} in
    match json_Marshal state with
    | None => w
    | Some data =>
        let statePath := filepath_Join (AdaptiveGovernor.stateDir g) StateFileName in
        let tempPath := statePath +:+ ".tmp" in
        if negb (IO.WriteFile_ok io) then w
        else
          let file := {| File.data := data; File.ModTime := IO.now io |} in
          let w := with_files w (<[tempPath := file]> (World.files w)) in
          if negb (IO.Rename_ok io) then w
          else with_files w (<[statePath := file]> (delete tempPath (World.files w)))
    end.

(** [restoreState]. *)
Definition restoreState (g : AdaptiveGovernor.t) (io : IO.t) (w : World.t)
    : AdaptiveGovernor.t :=
  if String.eqb (AdaptiveGovernor.stateDir g) "" then g
  else
    let statePath := filepath_Join (AdaptiveGovernor.stateDir g) StateFileName in
    match (if IO.Stat_ok io then World.files w !! statePath else None) with
    | None => g
    | Some info =>
        if Time.Sub (IO.now io) (File.ModTime info) >? Time.Hour then g
        else if negb (IO.ReadFile_ok io) then g
        else
          match json_Unmarshal (File.data info) with
          | None => g
          | Some state =>
              let g := with_EMAs g
                         (EMA_SetValue (AdaptiveGovernor.fastEMA g)
                                       (GovernorState.FastEMAValue state))
                         (EMA_SetValue (AdaptiveGovernor.slowEMA g)
                                       (GovernorState.SlowEMAValue state)) in
              let g := with_currentInterval g (GovernorState.Interval state) in
              with_lastSnapshotTime g (GovernorState.Timestamp state)
          end
    end.

(** [NewAdaptiveGovernor]. *)
Definition NewAdaptiveGovernor (baseInterval : Time.Duration) (stateDir : string)
    (io : IO.t) (w : World.t) : AdaptiveGovernor.t :=
  let baseInterval :=
    if baseInterval <? MinimumInterval then MinimumInterval else baseInterval in
  let g := {|
    AdaptiveGovernor.fastEMA := NewEMA FastEMAAlpha;
    AdaptiveGovernor.slowEMA := NewEMA SlowEMAAlpha;
    AdaptiveGovernor.baseInterval := baseInterval;
    AdaptiveGovernor.currentInterval := 0;
    AdaptiveGovernor.jitterPercent := DefaultJitterPercent;
    AdaptiveGovernor.stateDir := stateDir;
    AdaptiveGovernor.lastSnapshotTime := zeroTime;
    AdaptiveGovernor.intervalChangeCb := false |} in
  let g := with_currentInterval g baseInterval in
  restoreState g io w.

(** [WithIntervalChangeCallback]. *)
Definition WithIntervalChangeCallback (g : AdaptiveGovernor.t) : AdaptiveGovernor.t :=
  {| AdaptiveGovernor.fastEMA := AdaptiveGovernor.fastEMA g;
     AdaptiveGovernor.slowEMA := AdaptiveGovernor.slowEMA g;
     AdaptiveGovernor.baseInterval := AdaptiveGovernor.baseInterval g;
     AdaptiveGovernor.currentInterval := AdaptiveGovernor.currentInterval g;
     AdaptiveGovernor.jitterPercent := AdaptiveGovernor.jitterPercent g;
     AdaptiveGovernor.stateDir := AdaptiveGovernor.stateDir g;
     AdaptiveGovernor.lastSnapshotTime := AdaptiveGovernor.lastSnapshotTime g;
     AdaptiveGovernor.intervalChangeCb := true |}.

(** [ProcessLoadMetrics]. *)
Definition ProcessLoadMetrics (g : AdaptiveGovernor.t) (load : float) (io : IO.t)
    (w : World.t) : AdaptiveGovernor.t * World.t :=
  let load := if (load <? 0)%float then 0%float
              else if (1 <? load)%float then 1%float
              else load in
  let g := with_EMAs g (EMA_Update (AdaptiveGovernor.fastEMA g) load)
                       (EMA_Update (AdaptiveGovernor.slowEMA g) load) in
  let '(g, w) := adjustInterval g w in
  let now := IO.now io in
  if Time.Sub now (AdaptiveGovernor.lastSnapshotTime g) >? Time.Minute then
    let w := saveState g io w in
    (with_lastSnapshotTime g now, w)
  else (g, w).

(** [WithJitterPercent]. *)
Definition WithJitterPercent (g : AdaptiveGovernor.t) (percent : float) : AdaptiveGovernor.t :=
  let percent := if (percent <? 0)%float then 0%float
                 else if (0.5 <? percent)%float then 0.5%float
                 else percent in
  {| AdaptiveGovernor.fastEMA := AdaptiveGovernor.fastEMA g;
     AdaptiveGovernor.slowEMA := AdaptiveGovernor.slowEMA g;
     AdaptiveGovernor.baseInterval := AdaptiveGovernor.baseInterval g;
     AdaptiveGovernor.currentInterval := AdaptiveGovernor.currentInterval g;
     AdaptiveGovernor.jitterPercent := percent;
     AdaptiveGovernor.stateDir := AdaptiveGovernor.stateDir g;
     AdaptiveGovernor.lastSnapshotTime := AdaptiveGovernor.lastSnapshotTime g;
     AdaptiveGovernor.intervalChangeCb := AdaptiveGovernor.intervalChangeCb g |}.

(** [GetCurrentInterval]: the current interval with jitter; [random] is
    the value of [rand.Float64()], in the interval from 0 to 1. *)
Definition GetCurrentInterval (g : AdaptiveGovernor.t) (random : float) : Time.Duration :=
  let interval := AdaptiveGovernor.currentInterval g in
  if (0 <? AdaptiveGovernor.jitterPercent g)%float then
    let jitterRange := (F64.of_int interval * AdaptiveGovernor.jitterPercent g)%float in
    let jitterAmount := F64.to_int64 (jitterRange * (0.5 - random))%float in
    let interval := Int64.add interval jitterAmount in
    if interval <? MinimumInterval then MinimumInterval else interval
  else interval.

(** [GetRawInterval] and [GetBaseInterval]. *)
Definition GetRawInterval (g : AdaptiveGovernor.t) : Time.Duration :=
  AdaptiveGovernor.currentInterval g.

Definition GetBaseInterval (g : AdaptiveGovernor.t) : Time.Duration :=
  AdaptiveGovernor.baseInterval g.

(** [Reset]. Removing the state file is best effort: [remove_ok] tells
    whether [os.Remove] succeeds. *)
Definition Reset (g : AdaptiveGovernor.t) (remove_ok : bool) (w : World.t)
    : AdaptiveGovernor.t * World.t :=
  let g := with_EMAs g (EMA_Reset (AdaptiveGovernor.fastEMA g))
                       (EMA_Reset (AdaptiveGovernor.slowEMA g)) in
  let g := with_currentInterval g (AdaptiveGovernor.baseInterval g) in
  let g := with_lastSnapshotTime g zeroTime in
  let w :=
    if negb (String.eqb (AdaptiveGovernor.stateDir g) "") then
      let statePath := filepath_Join (AdaptiveGovernor.stateDir g) StateFileName in
      if remove_ok then with_files w (delete statePath (World.files w)) else w
    else w in
  (g, callIntervalChangeCb g w (AdaptiveGovernor.baseInterval g)).

Definition applyOperation (gw : AdaptiveGovernor.t * World.t) (op : Operation)
    : AdaptiveGovernor.t * World.t :=
  let '(g, w) := gw in
  match op with
  | OpProcessLoadMetrics load io => ProcessLoadMetrics g load io w
  | OpReset remove_ok => Reset g remove_ok w
  | OpRestoreState io => (restoreState g io w, w)
  end.

Definition runOperations (gw : AdaptiveGovernor.t * World.t) (ops : list Operation)
    : AdaptiveGovernor.t * World.t :=
  foldl applyOperation gw ops.

(** Every file that parses as a governor state holds an interval that
    satisfies [P]; in particular, an interval within the bounds. *)
Definition filesSatisfy (P : Z -> Prop) (w : World.t) : Prop :=
  forall path file state,
    World.files w !! path = Some file ->
    json_Unmarshal (File.data file) = Some state ->
    P (GovernorState.Interval state).

Definition filesWithinBounds (w : World.t) : Prop := filesSatisfy withinBounds w.

(** The invariant of a governor and its world, for a base interval [B]
    and a property [P] of intervals: the base interval is [B], the
    current interval and the interval of every state file satisfy [P]. *)
Definition governorInvariant (P : Z -> Prop) (B : Z)
    (gw : AdaptiveGovernor.t * World.t) : Prop :=
  AdaptiveGovernor.baseInterval (fst gw) = B /\
  P (AdaptiveGovernor.currentInterval (fst gw)) /\
  filesSatisfy P (snd gw).

(** Decoding what was encoded gives back the interval. *)
Definition codecKeepsInterval : Prop :=
  forall state data state',
    json_Marshal state = Some data ->
    json_Unmarshal data = Some state' ->
    GovernorState.Interval state' = GovernorState.Interval state.

(** The exponential back-off, whenever [adjustInterval] takes it, does
    not scale the base interval below the minimum (as is the case when
    [math.Pow(2, x) >= 1] for [x >= 0]). *)
Definition backoffAboveMinimum (baseInterval : Time.Duration) : Prop :=
  forall fastValue,
    (CriticalLoadThreshold <? fastValue)%float = false ->
    (HighLoadThreshold <? fastValue)%float = true ->
    MinimumInterval <= backoffInterval baseInterval fastValue.

(** The codec restores a state with finite averages, an interval that
    is a 64-bit integer and a timestamp of the years 0 to 9999. *)
Definition marshalable (state : GovernorState.t) : Prop :=
  is_finite (GovernorState.FastEMAValue state) = true /\
  is_finite (GovernorState.SlowEMAValue state) = true /\
  Int64.in_range (GovernorState.Interval state) /\
  -62167219200 * Time.Second <= GovernorState.Timestamp state < 253402300800 * Time.Second.

Definition codecRoundTrips : Prop :=
  forall state, marshalable state ->
    exists data, json_Marshal state = Some data /\ json_Unmarshal data = Some state.

End Governor.

End adaptive.

(** ** Package [qanprocessor]: configuration and construction *)

Module qanprocessor.

Module AdaptiveConfig.
Record t : Type := mk {
  BaseInterval : Z;
  StateDirectory : string;
  Enabled : bool
}.
End AdaptiveConfig.

Module MySQLConfig.
Record t : Type := mk {
  Enabled : bool;
  Endpoint : string;
  Username : string;
  Password : string;
  Database : string;
  CollectionInterval : string;
  AdaptiveConfig : AdaptiveConfig.t
}.
End MySQLConfig.

Module PostgreSQLConfig.
Record t : Type := mk {
  Enabled : bool;
  Endpoint : string;
  Username : string;
  Password : string;
  Database : string;
  CollectionInterval : Z
}.
End PostgreSQLConfig.

Module Config.
Record t : Type := mk {
  MySQL : MySQLConfig.t;
  PostgreSQL : PostgreSQLConfig.t
}.
End Config.

(** The adaptive collector of package [mysql], as far as its
    constructor goes: the governor and the load probe it creates. *)
Module AdaptiveCollector.
Record t : Type := mk {
  governor : adaptive.AdaptiveGovernor.t;
  collector : adaptive.MySQLCollector.t
}.
End AdaptiveCollector.

(** The collectors of the processor, each one nil or not. *)
Module qanProcessor.
Record t : Type := mk {
  mysqlCollector : option mysql.Collector.t;
  mysqlAdaptiveCollector : option AdaptiveCollector.t;
  postgresqlCollector : option postgresql.Collector.t
}.
End qanProcessor.

(** What the database servers answer while the processor is
    constructed: the error, if any, of the connection the adaptive
    collector makes, and those of [sql.Open] and [db.Ping()] in the two
    other constructors. *)
Module Connections.
Record t : Type := mk {
  mysqlAdaptive : option error;
  mysqlOpen : option error;
  mysqlPing : option error;
  postgresqlOpen : option error;
  postgresqlPing : option error
}.
End Connections.

Section Processor.

Variable json_Unmarshal : string -> option adaptive.GovernorState.t.

(** [mysql.NewAdaptiveCollector]: the connection, then the governor
    and the load probe. *)
Definition NewAdaptiveCollector (connection : option error)
    (baseInterval : Time.Duration) (stateDir : string)
    (io : adaptive.IO.t) (w : adaptive.World.t) : result AdaptiveCollector.t :=
  match connection with
  | Some err => Err err
  | None =>
      let governor := adaptive.NewAdaptiveGovernor json_Unmarshal baseInterval stateDir io w in
      let metricsCollector := adaptive.NewMySQLCollector in
      Ok {| AdaptiveCollector.governor := governor;
            AdaptiveCollector.collector := metricsCollector |}
  end.

(** The MySQL part of [newQANProcessor]: the fixed-interval collector
    and the adaptive one. *)
Definition newMySQLCollectors (config : Config.t) (conn : Connections.t)
    (io : adaptive.IO.t) (w : adaptive.World.t)
    : result (option mysql.Collector.t * option AdaptiveCollector.t) :=
  let cfg := Config.MySQL config in
  if MySQLConfig.Enabled cfg then
    if String.eqb (MySQLConfig.CollectionInterval cfg) "adaptive"
       || AdaptiveConfig.Enabled (MySQLConfig.AdaptiveConfig cfg) then
      let baseIntervalSec := AdaptiveConfig.BaseInterval (MySQLConfig.AdaptiveConfig cfg) in
      let baseIntervalSec := if baseIntervalSec <=? 0 then 1 else baseIntervalSec in
      let stateDir := AdaptiveConfig.StateDirectory (MySQLConfig.AdaptiveConfig cfg) in
      let stateDir := if String.eqb stateDir "" then "/var/otel/governor_state" else stateDir in
      match NewAdaptiveCollector (Connections.mysqlAdaptive conn)
              (Int64.wrap (baseIntervalSec * Time.Second)) stateDir io w with
      | Err err => Err err
      | Ok mysqlAdaptiveCollector => Ok (None, Some mysqlAdaptiveCollector)
      end
    else
      match mysql.NewCollector (MySQLConfig.Endpoint cfg) (MySQLConfig.Username cfg)
              (MySQLConfig.Password cfg) (MySQLConfig.Database cfg)
              (Connections.mysqlOpen conn) (Connections.mysqlPing conn) with
      | Err err => Err err
      | Ok mysqlCollector => Ok (Some mysqlCollector, None)
      end
  else Ok (None, None).

(** [newQANProcessor]. *)
Definition newQANProcessor (config : Config.t) (conn : Connections.t)
    (io : adaptive.IO.t) (w : adaptive.World.t) : result qanProcessor.t :=
  match newMySQLCollectors config conn io w with
  | Err err => Err err
  | Ok (mysqlCollector, mysqlAdaptiveCollector) =>
      let cfg := Config.PostgreSQL config in
      if PostgreSQLConfig.Enabled cfg then
        match postgresql.NewCollector (PostgreSQLConfig.Endpoint cfg)
                (PostgreSQLConfig.Username cfg) (PostgreSQLConfig.Password cfg)
                (PostgreSQLConfig.Database cfg)
                (Connections.postgresqlOpen conn) (Connections.postgresqlPing conn) with
        | Err err => Err err
        | Ok postgresqlCollector =>
            Ok {| qanProcessor.mysqlCollector := mysqlCollector;
                  qanProcessor.mysqlAdaptiveCollector := mysqlAdaptiveCollector;
                  qanProcessor.postgresqlCollector := Some postgresqlCollector |}
        end
      else
        Ok {| qanProcessor.mysqlCollector := mysqlCollector;
              qanProcessor.mysqlAdaptiveCollector := mysqlAdaptiveCollector;
              qanProcessor.postgresqlCollector := None |}
  end.

End Processor.

End qanprocessor.

(** ** Sample data for the scenarios *)

Module Scenario.

(** A digest row with the given key, calls and timer, any other
    counter being zero. *)
Definition digestRow (digest : string) (calls timer : Z) : mysql.DigestData.t :=
  {| mysql.DigestData.Digest := digest;
     mysql.DigestData.SchemaName := "app";
     mysql.DigestData.DigestText := "SELECT ?";
     mysql.DigestData.CountStar := calls;
     mysql.DigestData.SumTimerWait := timer;
     mysql.DigestData.SumLockTime := 0;
     mysql.DigestData.SumErrors := 0;
     mysql.DigestData.SumWarnings := 0;
     mysql.DigestData.SumRowsAffected := 0;
     mysql.DigestData.SumRowsSent := 0;
     mysql.DigestData.SumRowsExamined := 0;
     mysql.DigestData.SumCreatedTmpTables := 0;
     mysql.DigestData.SumCreatedTmpDiskTables := 0;
     mysql.DigestData.SumSortRows := 0;
     mysql.DigestData.SumNoIndexUsed := 0;
     mysql.DigestData.SumNoGoodIndexUsed := 0;
     mysql.DigestData.Timestamp := 0 |}.

Definition mysqlSnapshot (rows : list (string * mysql.DigestData.t)) (seconds : Z)
    : mysql.Snapshot.t :=
  {| mysql.Snapshot.Digests := list_to_map rows;
     mysql.Snapshot.Timestamp := seconds * Time.Second;
     mysql.Snapshot.InstanceID := "mysql://db:3306/information_schema" |}.

(** A statement row with the given key, calls and execution time. *)
Definition queryRow (queryID : string) (calls : Z) (execTime : float) : postgresql.QueryData.t :=
  {| postgresql.QueryData.QueryID := queryID;
     postgresql.QueryData.UserID := "10";
     postgresql.QueryData.DBID := "5";
     postgresql.QueryData.Query := "SELECT $1";
     postgresql.QueryData.Calls := calls;
     postgresql.QueryData.TotalPlanTime := 0%float;
     postgresql.QueryData.TotalExecTime := execTime;
     postgresql.QueryData.Rows := 0;
     postgresql.QueryData.SharedBlksHit := 0;
     postgresql.QueryData.SharedBlksRead := 0;
     postgresql.QueryData.SharedBlksDirtied := 0;
     postgresql.QueryData.SharedBlksWritten := 0;
     postgresql.QueryData.LocalBlksHit := 0;
     postgresql.QueryData.LocalBlksRead := 0;
     postgresql.QueryData.LocalBlksDirtied := 0;
     postgresql.QueryData.LocalBlksWritten := 0;
     postgresql.QueryData.TempBlksRead := 0;
     postgresql.QueryData.TempBlksWritten := 0;
     postgresql.QueryData.BlkReadTime := 0%float;
     postgresql.QueryData.BlkWriteTime := 0%float;
     postgresql.QueryData.Timestamp := 0 |}.

Definition postgresqlSnapshot (rows : list (string * postgresql.QueryData.t)) (seconds : Z)
    : postgresql.Snapshot.t :=
  {| postgresql.Snapshot.Queries := list_to_map rows;
     postgresql.Snapshot.Timestamp := seconds * Time.Second;
     postgresql.Snapshot.InstanceID := "postgresql://db:5432/postgres" |}.

(** The delta record with the given key, calls delta, timer delta and
    time period, any other delta being zero. *)
Definition deltaRow (digest : string) (calls timer : Z) (period : float)
    : mysql.DeltaResult.t :=
  {| mysql.DeltaResult.Digest := digest;
     mysql.DeltaResult.SchemaName := "app";
     mysql.DeltaResult.DigestText := "SELECT ?";
     mysql.DeltaResult.TimePeriodSecs := period;
     mysql.DeltaResult.DeltaCountStar := calls;
     mysql.DeltaResult.DeltaSumTimerWait := timer;
     mysql.DeltaResult.DeltaSumLockTime := 0;
     mysql.DeltaResult.DeltaSumErrors := 0;
     mysql.DeltaResult.DeltaSumWarnings := 0;
     mysql.DeltaResult.DeltaSumRowsAffected := 0;
     mysql.DeltaResult.DeltaSumRowsSent := 0;
     mysql.DeltaResult.DeltaSumRowsExamined := 0;
     mysql.DeltaResult.DeltaSumCreatedTmpTables := 0;
     mysql.DeltaResult.DeltaSumCreatedTmpDiskTables := 0;
     mysql.DeltaResult.DeltaSumSortRows := 0;
     mysql.DeltaResult.DeltaSumNoIndexUsed := 0;
     mysql.DeltaResult.DeltaSumNoGoodIndexUsed := 0 |}.

(** The delta record of a statement with the given key, calls delta,
    execution-time delta and time period. *)
Definition queryDeltaRow (queryID : string) (calls : Z) (execTime period : float)
    : postgresql.DeltaResult.t :=
  {| postgresql.DeltaResult.QueryID := queryID;
     postgresql.DeltaResult.UserID := "10";
     postgresql.DeltaResult.DBID := "5";
     postgresql.DeltaResult.Query := "SELECT $1";
     postgresql.DeltaResult.TimePeriodSecs := period;
     postgresql.DeltaResult.DeltaCalls := calls;
     postgresql.DeltaResult.DeltaTotalPlanTime := 0%float;
     postgresql.DeltaResult.DeltaTotalExecTime := execTime;
     postgresql.DeltaResult.DeltaRows := 0;
     postgresql.DeltaResult.DeltaSharedBlksHit := 0;
     postgresql.DeltaResult.DeltaSharedBlksRead := 0;
     postgresql.DeltaResult.DeltaSharedBlksDirtied := 0;
     postgresql.DeltaResult.DeltaSharedBlksWritten := 0;
     postgresql.DeltaResult.DeltaLocalBlksHit := 0;
     postgresql.DeltaResult.DeltaLocalBlksRead := 0;
     postgresql.DeltaResult.DeltaLocalBlksDirtied := 0;
     postgresql.DeltaResult.DeltaLocalBlksWritten := 0;
     postgresql.DeltaResult.DeltaTempBlksRead := 0;
     postgresql.DeltaResult.DeltaTempBlksWritten := 0;
     postgresql.DeltaResult.DeltaBlkReadTime := 0%float;
     postgresql.DeltaResult.DeltaBlkWriteTime := 0%float |}.

(** A server with [performance_schema] and the digest consumer on, and
    the rows it answers to the digest query. *)
Definition mysqlServer (rows : list (result mysql.Row.t)) : mysql.DB.t :=
  {| mysql.DB.PerformanceSchema := Ok "ON";
     mysql.DB.StatementsDigest := Ok "YES";
     mysql.DB.DigestRows := Ok rows;
     mysql.DB.RowsErr := None |}.

(** A server whose [performance_schema] is off: the preflight fails. *)
Definition mysqlServerOff : mysql.DB.t :=
  {| mysql.DB.PerformanceSchema := Ok "OFF";
     mysql.DB.StatementsDigest := Ok "YES";
     mysql.DB.DigestRows := Ok [];
     mysql.DB.RowsErr := None |}.

(** A server without the [pg_stat_statements] extension. *)
Definition postgresqlServerBare : postgresql.DB.t :=
  {| postgresql.DB.HasExtension := Ok false;
     postgresql.DB.StatementRows := Ok [];
     postgresql.DB.RowsErr := None |}.

Definition mysqlCollector : mysql.Collector.t :=
  {| mysql.Collector.dsn := "monitor:secret@tcp(db:3306)/information_schema";
     mysql.Collector.instanceID := "mysql://db:3306/information_schema" |}.

Definition postgresqlCollector : postgresql.Collector.t :=
  {| postgresql.Collector.connStr := "postgres://monitor:secret@db:5432/postgres?sslmode=disable";
     postgresql.Collector.instanceID := "postgresql://db:5432/postgres" |}.

(** A statement row of the given database, with the given key, calls
    and execution time. *)
Definition queryRowIn (dbID queryID : string) (calls : Z) (execTime : float)
    : postgresql.QueryData.t :=
  {| postgresql.QueryData.QueryID := queryID;
     postgresql.QueryData.UserID := "10";
     postgresql.QueryData.DBID := dbID;
     postgresql.QueryData.Query := "SELECT $1";
     postgresql.QueryData.Calls := calls;
     postgresql.QueryData.TotalPlanTime := 0%float;
     postgresql.QueryData.TotalExecTime := execTime;
     postgresql.QueryData.Rows := 0;
     postgresql.QueryData.SharedBlksHit := 0;
     postgresql.QueryData.SharedBlksRead := 0;
     postgresql.QueryData.SharedBlksDirtied := 0;
     postgresql.QueryData.SharedBlksWritten := 0;
     postgresql.QueryData.LocalBlksHit := 0;
     postgresql.QueryData.LocalBlksRead := 0;
     postgresql.QueryData.LocalBlksDirtied := 0;
     postgresql.QueryData.LocalBlksWritten := 0;
     postgresql.QueryData.TempBlksRead := 0;
     postgresql.QueryData.TempBlksWritten := 0;
     postgresql.QueryData.BlkReadTime := 0%float;
     postgresql.QueryData.BlkWriteTime := 0%float;
     postgresql.QueryData.Timestamp := 0 |}.

(** A server with the [pg_stat_statements] extension that answers the
    statements query with the given rows. *)
Definition postgresqlServer (rows : list (result postgresql.QueryData.t)) : postgresql.DB.t :=
  {| postgresql.DB.HasExtension := Ok true;
     postgresql.DB.StatementRows := Ok rows;
     postgresql.DB.RowsErr := None |}.

(** A clock that reads [i] seconds at the record of index [i]. *)
Definition tickingClock (i : nat) : Time.Time := Z.of_nat i * Time.Second.

(** The status rows of a server with the given thread counts. *)
Definition statusServer (running connected : string) : adaptive.StatusDB.t :=
  {| adaptive.StatusDB.StatusRows :=
       Ok [Ok ("Threads_running", running); Ok ("Threads_connected", connected);
           Ok ("Questions", "1000"); Ok ("Slow_queries", "10");
           Ok ("Innodb_row_lock_time", "0"); Ok ("Uptime", "3600")];
     adaptive.StatusDB.RowsErr := None |}.

(** A codec that stores nothing and reads nothing. *)
Definition noMarshal (state : adaptive.GovernorState.t) : option string := None.
Definition noUnmarshal (data : string) : option adaptive.GovernorState.t := None.

(** A stand-in for [math.Pow] that always answers 1. *)
Definition flatPow (x y : float) : float := 1%float.

(** A stand-in for [math.Pow] that always answers 1.0625, close to
    2^(0.76/0.70 - 1). *)
Definition gentlePow (x y : float) : float := 1.0625%float.

Definition emptyWorld : adaptive.World.t :=
  {| adaptive.World.files := ∅; adaptive.World.callbackLog := [] |}.

(** An operating system on which every call succeeds, at the given
    second. *)
Definition healthyIO (seconds : Z) : adaptive.IO.t :=
  {| adaptive.IO.now := seconds * Time.Second;
     adaptive.IO.MkdirAll_ok := true;
     adaptive.IO.WriteFile_ok := true;
     adaptive.IO.Rename_ok := true;
     adaptive.IO.Stat_ok := true;
     adaptive.IO.ReadFile_ok := true |}.

(** A lossless codec standing in for JSON: a state is numbered, and
    the number is written in binary digits, lowest first. *)
Definition digitZero : Ascii.ascii := Ascii.ascii_of_nat 48.
Definition digitOne : Ascii.ascii := Ascii.ascii_of_nat 49.

Fixpoint bitsOfPositive (p : positive) : string :=
  match p with
  | xH => EmptyString
  | xO q => String digitZero (bitsOfPositive q)
  | xI q => String digitOne (bitsOfPositive q)
  end.

Fixpoint positiveOfBits (s : string) : option positive :=
  match s with
  | EmptyString => Some xH
  | String c r =>
      if Ascii.eqb c digitZero then xO <$> positiveOfBits r
      else if Ascii.eqb c digitOne then xI <$> positiveOfBits r
      else None
  end.

Definition sumOfSpecFloat (x : spec_float) : bool + bool + unit + bool * positive * Z :=
  match x with
  | S754_zero s => inl (inl (inl s))
  | S754_infinity s => inl (inl (inr s))
  | S754_nan => inl (inr tt)
  | S754_finite s m e => inr (s, m, e)
  end.

Definition specFloatOfSum (x : bool + bool + unit + bool * positive * Z) : spec_float :=
  match x with
  | inl (inl (inl s)) => S754_zero s
  | inl (inl (inr s)) => S754_infinity s
  | inl (inr _) => S754_nan
  | inr (s, m, e) => S754_finite s m e
  end.

#[local] Instance spec_float_eq_dec : EqDecision spec_float.
Proof. solve_decision. Defined.

#[local] Instance spec_float_countable : Countable spec_float.
Proof.
  apply (inj_countable' sumOfSpecFloat specFloatOfSum). now intros [s|s| |s m e].
Defined.

#[local] Instance float_eq_dec : EqDecision float.
Proof.
  intros x y. destruct (decide (Prim2SF x = Prim2SF y)) as [H|H].
  - left. now apply Prim2SF_inj.
  - right. intros ->. now apply H.
Defined.

#[local] Instance float_countable : Countable float.
Proof. apply (inj_countable' Prim2SF SF2Prim). exact SF2Prim_Prim2SF. Defined.

Definition tupleOfState (s : adaptive.GovernorState.t) : float * float * Z * Z :=
  (adaptive.GovernorState.FastEMAValue s, adaptive.GovernorState.SlowEMAValue s,
   adaptive.GovernorState.Interval s, adaptive.GovernorState.Timestamp s).

Definition stateOfTuple (t : float * float * Z * Z) : adaptive.GovernorState.t :=
  let '(fast, slow, interval, timestamp) := t in
  adaptive.GovernorState.mk fast slow interval timestamp.

#[local] Instance GovernorState_eq_dec : EqDecision adaptive.GovernorState.t.
Proof. solve_decision. Defined.

#[local] Instance GovernorState_countable : Countable adaptive.GovernorState.t.
Proof. apply (inj_countable' tupleOfState stateOfTuple). now intros []. Defined.

Definition binaryMarshal (state : adaptive.GovernorState.t) : option string :=
  Some (bitsOfPositive (encode state)).

Definition binaryUnmarshal (data : string) : option adaptive.GovernorState.t :=
  match positiveOfBits data with
  | Some p => decode p
  | None => None
  end.

(** A governor in the middle of its life, persisting under
    [/var/otel]. *)
Definition busyGovernor : adaptive.AdaptiveGovernor.t :=
  {| adaptive.AdaptiveGovernor.fastEMA := adaptive.EMA.mk adaptive.FastEMAAlpha 0.8 true;
     adaptive.AdaptiveGovernor.slowEMA := adaptive.EMA.mk adaptive.SlowEMAAlpha 0.25 true;
     adaptive.AdaptiveGovernor.baseInterval := Time.Second;
     adaptive.AdaptiveGovernor.currentInterval := 2 * Time.Second;
     adaptive.AdaptiveGovernor.jitterPercent := adaptive.DefaultJitterPercent;
     adaptive.AdaptiveGovernor.stateDir := "/var/otel";
     adaptive.AdaptiveGovernor.lastSnapshotTime := 0;
     adaptive.AdaptiveGovernor.intervalChangeCb := true |}.

(** A world whose state file under [/var/otel], written at second 0,
    holds an interval of one nanosecond. *)
Definition tinyState : adaptive.GovernorState.t :=
  {| adaptive.GovernorState.FastEMAValue := 0.5;
     adaptive.GovernorState.SlowEMAValue := 0.5;
     adaptive.GovernorState.Interval := 1;
     adaptive.GovernorState.Timestamp := 0 |}.

Definition worldWithTinyState : adaptive.World.t :=
  {| adaptive.World.files :=
       {[ adaptive.filepath_Join "/var/otel" adaptive.StateFileName :=
            {| adaptive.File.data := bitsOfPositive (encode tinyState);
               adaptive.File.ModTime := 0 |} ]};
     adaptive.World.callbackLog := [] |}.

End Scenario.

(** ** Auxiliary predicates *)

(** A log record whose calls-delta attribute is a positive integer. *)
Definition positive_calls (lr : pdata.LogRecord.t) : Prop :=
  exists n, pdata.Get (pdata.LogRecord.Attributes lr) "db.query.calls.delta"
            = Some (pdata.ValueInt n) /\ 0 < n.

(** A spec float that is not below zero: a zero of either sign, a
    positive finite value or the positive infinity. *)
Definition SFnonneg (x : spec_float) : bool :=
  match x with
  | S754_zero _ => true
  | S754_infinity s => negb s
  | S754_nan => false
  | S754_finite s _ _ => negb s
  end.

(** Rows and snapshots whose counters are what a server reports:
    integers from zero to the largest 64-bit integer, fractions that
    are finite and not below zero. *)
Definition mysql_nonnegativeRow (d : mysql.DigestData.t) : Prop :=
  forall c, 0 <= mysql.counterValue c d <= Int64.max_int.

Definition mysql_nonnegativeSnapshot (s : mysql.Snapshot.t) : Prop :=
  forall digest d, mysql.Snapshot.Digests s !! digest = Some d -> mysql_nonnegativeRow d.

Definition postgresql_nonnegativeRow (d : postgresql.QueryData.t) : Prop :=
  (forall c, 0 <= postgresql.intValue c d <= Int64.max_int) /\
  (forall c, (0 <=? postgresql.floatValue c d)%float = true /\
             (postgresql.floatValue c d <? infinity)%float = true).

Definition postgresql_nonnegativeSnapshot (s : postgresql.Snapshot.t) : Prop :=
  forall queryID d,
    postgresql.Snapshot.Queries s !! queryID = Some d -> postgresql_nonnegativeRow d.

(** ** Statements of the design document

    The sentences of the design document that the sources do not
    satisfy as they are written, stated over the definitions above. *)

Module Stated.

(** Emission filter: a record for a key exactly when its calls delta is
    positive, and every record has a positive calls delta. *)
Definition mysql_emission_filter (prev curr : mysql.Snapshot.t) : Prop :=
  (forall digest,
     (exists r, r ∈ mysql.CalculateDeltas (Some prev) (Some curr) /\
                mysql.DeltaResult.Digest r = digest) <->
     (exists currData,
        mysql.Snapshot.Digests curr !! digest = Some currData /\
        0 < mysql.callsDelta (mysql.Snapshot.Digests prev) digest currData)) /\
  (forall r, r ∈ mysql.CalculateDeltas (Some prev) (Some curr) ->
             0 < mysql.DeltaResult.DeltaCountStar r).

Definition postgresql_emission_filter (prev curr : postgresql.Snapshot.t) : Prop :=
  (forall queryID,
     (exists r, r ∈ postgresql.CalculateDeltas (Some prev) (Some curr) /\
                postgresql.DeltaResult.QueryID r = queryID) <->
     (exists currData,
        postgresql.Snapshot.Queries curr !! queryID = Some currData /\
        0 < postgresql.callsDelta (postgresql.Snapshot.Queries prev) queryID currData)) /\
  (forall r, r ∈ postgresql.CalculateDeltas (Some prev) (Some curr) ->
             0 < postgresql.DeltaResult.DeltaCalls r).

(** Substitution of one second for a non-positive interval. *)
Definition mysql_period_substituted (prev curr : mysql.Snapshot.t) : Prop :=
  mysql.Snapshot.Timestamp curr <= mysql.Snapshot.Timestamp prev ->
  forall r, r ∈ mysql.CalculateDeltas (Some prev) (Some curr) ->
            mysql.DeltaResult.TimePeriodSecs r = 1.0%float.

Definition postgresql_period_substituted (prev curr : postgresql.Snapshot.t) : Prop :=
  postgresql.Snapshot.Timestamp curr <= postgresql.Snapshot.Timestamp prev ->
  forall r, r ∈ postgresql.CalculateDeltas (Some prev) (Some curr) ->
            postgresql.DeltaResult.TimePeriodSecs r = 1.0%float.

(** Non-negativity of every counter delta, for every pair of snapshots. *)
Definition mysql_deltas_nonnegative (prev curr : mysql.Snapshot.t) : Prop :=
  forall r c, r ∈ mysql.CalculateDeltas (Some prev) (Some curr) ->
              0 <= mysql.counterDelta c r.

Definition postgresql_deltas_nonnegative (prev curr : postgresql.Snapshot.t) : Prop :=
  forall r, r ∈ postgresql.CalculateDeltas (Some prev) (Some curr) ->
    (forall c, 0 <= postgresql.intDelta c r) /\
    (forall c, (0 <=? postgresql.floatDelta c r)%float = true).

(** First load probe: the thread ratio, zero for a non-positive
    denominator, clamped to the unit interval. *)
Definition clampUnit (x : float) : float :=
  if (x <? 0)%float then 0%float else if (1 <? x)%float then 1%float else x.

Definition first_probe_load (db : adaptive.StatusDB.t) (now : Time.Time) : Prop :=
  forall metrics,
    adaptive.collectMySQLMetrics db now = Ok metrics ->
    fst (snd (adaptive.CollectMetrics adaptive.NewMySQLCollector db now)) =
    if adaptive.MySQLMetrics.ThreadsConnected metrics <=? 0 then 0%float
    else clampUnit (F64.of_int (adaptive.MySQLMetrics.ThreadsRunning metrics)
                    / F64.of_int (adaptive.MySQLMetrics.ThreadsConnected metrics))%float.

(** Governor bounds at construction. *)
Definition governor_bounds_at_construction
    (json_Unmarshal : string -> option adaptive.GovernorState.t)
    (baseInterval : Time.Duration) (stateDir : string) (io : adaptive.IO.t)
    (w : adaptive.World.t) : Prop :=
  adaptive.withinBounds
    (adaptive.AdaptiveGovernor.currentInterval
       (adaptive.NewAdaptiveGovernor json_Unmarshal baseInterval stateDir io w)) /\
  adaptive.AdaptiveGovernor.baseInterval
    (adaptive.NewAdaptiveGovernor json_Unmarshal baseInterval stateDir io w)
  <= adaptive.MaximumInterval.

End Stated.

(** * Properties *)

(** ** Integers, durations, attribute maps *)

Lemma Int64_wrap_in_range z : Int64.in_range (Int64.wrap z).
Proof.
  unfold Int64.in_range, Int64.wrap, Int64.min_int, Int64.max_int.
  pose proof (Z.mod_pos_bound (z + 2 ^ 63) (2 ^ 64) ltac:(lia)). lia.
Qed.

Lemma Int64_wrap_small z : Int64.in_range z -> Int64.wrap z = z.
Proof.
  unfold Int64.in_range, Int64.wrap, Int64.min_int, Int64.max_int. intros Hz.
  rewrite Z.mod_small; lia.
Qed.

(** Subtracting a non-negative value from a larger one never wraps. *)
Lemma Int64_sub_exact a b :
  0 <= b -> b <= a -> a <= Int64.max_int -> Int64.sub a b = a - b.
Proof.
  intros Hb Hab Ha. unfold Int64.sub. apply Int64_wrap_small.
  unfold Int64.in_range, Int64.min_int, Int64.max_int in *. lia.
Qed.

Lemma Time_Sub_in_range t u : Int64.in_range (Time.Sub t u).
Proof.
  unfold Time.Sub, Int64.in_range.
  destruct (Z.ltb_spec (t - u) Int64.min_int);
    [unfold Int64.min_int, Int64.max_int; lia|].
  destruct (Z.ltb_spec Int64.max_int (t - u));
    [unfold Int64.min_int, Int64.max_int; lia|]. lia.
Qed.

Lemma Time_Sub_nonpos t u : t <= u -> Time.Sub t u <= 0.
Proof.
  intros Htu. unfold Time.Sub.
  destruct (Z.ltb_spec (t - u) Int64.min_int);
    [unfold Int64.min_int; lia|].
  destruct (Z.ltb_spec Int64.max_int (t - u));
    [unfold Int64.max_int in *; lia|]. lia.
Qed.

Lemma Time_Sub_exact t u :
  Int64.min_int <= t - u <= Int64.max_int -> Time.Sub t u = t - u.
Proof.
  intros Hd. unfold Time.Sub.
  destruct (Z.ltb_spec (t - u) Int64.min_int); [lia|].
  destruct (Z.ltb_spec Int64.max_int (t - u)); [lia|]. reflexivity.
Qed.

Example Seconds_ten : Time.Seconds (10 * Time.Second) = 10%float.
Proof. vm_compute. reflexivity. Qed.

Example Seconds_negative : Time.Seconds (- 1500 * Time.Millisecond) = (-1.5)%float.
Proof. vm_compute. reflexivity. Qed.

Example to_int64_truncates :
  F64.to_int64 (2.75)%float = 2 /\ F64.to_int64 (-2.75)%float = -2.
Proof. vm_compute. split; reflexivity. Qed.

Example to_int64_of_nan : F64.to_int64 nan = Int64.min_int.
Proof. vm_compute. reflexivity. Qed.

Example ParseInt_examples :
  strconv.ParseInt "42" = (42, None) /\
  strconv.ParseInt "-7" = (-7, None) /\
  strconv.ParseInt "+5" = (5, None) /\
  strconv.ParseInt "4x" = (0, Some strconv.ErrSyntax) /\
  strconv.ParseInt "" = (0, Some strconv.ErrSyntax) /\
  strconv.ParseInt "-" = (0, Some strconv.ErrSyntax) /\
  strconv.ParseInt "9223372036854775807" = (Int64.max_int, None) /\
  strconv.ParseInt "9223372036854775808" = (Int64.max_int, Some strconv.ErrRange) /\
  strconv.ParseInt "-9223372036854775808" = (Int64.min_int, None) /\
  strconv.ParseInt "-9223372036854775809" = (Int64.min_int, Some strconv.ErrRange) /\
  strconv.ParseInt "18446744073709551616" = (Int64.max_int, Some strconv.ErrRange) /\
  strconv.ParseInt "99999999999999999999" = (Int64.max_int, Some strconv.ErrRange).
Proof. vm_compute. repeat split; reflexivity. Qed.

(** Digits that overflow are a range error even when a byte that is no
    digit follows them; a byte that is no digit among digits that do
    not overflow is a syntax error. *)
Example ParseInt_overflow_before_syntax :
  strconv.ParseInt "99999999999999999999x" = (Int64.max_int, Some strconv.ErrRange) /\
  strconv.ParseInt "-99999999999999999999x" = (Int64.min_int, Some strconv.ErrRange) /\
  strconv.ParseInt "9999999999999999999x" = (0, Some strconv.ErrSyntax) /\
  strconv.ParseInt "x99999999999999999999" = (0, Some strconv.ErrSyntax).
Proof. vm_compute. repeat split; reflexivity. Qed.

Lemma Get_Put_eq m k v : pdata.Get (pdata.Put m k v) k = Some v.
Proof.
  induction m as [|[k' v'] m IH]; simpl.
  - now rewrite String.eqb_refl.
  - destruct (String.eqb k' k) eqn:E; simpl; rewrite E; auto.
Qed.

Lemma Get_Put_ne m k k' v : k <> k' -> pdata.Get (pdata.Put m k v) k' = pdata.Get m k'.
Proof.
  intros Hne. induction m as [|[k0 v0] m IH]; simpl.
  - destruct (String.eqb_spec k k'); [contradiction|reflexivity].
  - destruct (String.eqb_spec k0 k) as [->|Hk]; simpl.
    + destruct (String.eqb_spec k k'); [contradiction|reflexivity].
    + now rewrite IH.
Qed.

(** A loop that only appends: membership in the final slice. *)
Lemma elem_of_foldl_append {A B : Type} (step : list B -> A -> list B) (l : list A) :
  (forall acc a, step acc a = acc ++ step [] a) ->
  forall acc r, r ∈ foldl step acc l <-> r ∈ acc \/ exists a, a ∈ l /\ r ∈ step [] a.
Proof.
  intros Happ. induction l as [|a l IH]; intros acc r; simpl.
  - split; [auto|]. intros [H|(a & Ha & _)]; [exact H|]. inversion Ha.
  - rewrite IH, Happ, elem_of_app. split.
    + intros [[H|H]|(b & Hb & Hr)]; [auto| |].
      * right. exists a. split; [left|exact H].
      * right. exists b. split; [now right|exact Hr].
    + intros [H|(b & Hb & Hr)]; [auto|].
      apply elem_of_cons in Hb as [->|Hb]; [auto|].
      right. exists b. auto.
Qed.

(** ** The MySQL delta engine *)

Lemma mysql_deltaStep_append prevDigests t acc entry :
  mysql.deltaStep prevDigests t acc entry = acc ++ mysql.deltaStep prevDigests t [] entry.
Proof.
  destruct entry as [digest currData]. unfold mysql.deltaStep.
  destruct (prevDigests !! digest) as [prevData|]; [|reflexivity].
  match goal with |- (if ?b then _ else _) = _ => destruct b end;
    [reflexivity | now rewrite app_nil_r].
Qed.

(** The records of [CalculateDeltas] are the records the loop body
    makes for the entries of the current snapshot. *)
Lemma mysql_CalculateDeltas_elem prev curr r :
  r ∈ mysql.CalculateDeltas (Some prev) (Some curr) <->
  exists digest currData,
    mysql.Snapshot.Digests curr !! digest = Some currData /\
    mysql.deltaStep (mysql.Snapshot.Digests prev)
      (Time.Seconds (Time.Sub (mysql.Snapshot.Timestamp curr) (mysql.Snapshot.Timestamp prev)))
      [] (digest, currData) = [r].
Proof.
  unfold mysql.CalculateDeltas.
  rewrite (elem_of_foldl_append _ _ (mysql_deltaStep_append _ _)).
  split.
  - intros [H|([digest currData] & Hin & Hr)]; [inversion H|].
    apply elem_of_map_to_list in Hin. exists digest, currData. split; [exact Hin|].
    revert Hr. unfold mysql.deltaStep.
    destruct (mysql.Snapshot.Digests prev !! digest) as [prevData|].
    + match goal with |- _ ∈ (if ?b then _ else _) -> _ => destruct b end.
      * intros Hr. apply list_elem_of_singleton in Hr. now subst.
      * intros Hr. inversion Hr.
    + intros Hr. apply list_elem_of_singleton in Hr. now subst.
  - intros (digest & currData & Hin & Hr). right. exists (digest, currData).
    split; [now apply elem_of_map_to_list|]. rewrite Hr. now left.
Qed.

(** What the loop body makes of one entry. *)
Lemma mysql_deltaStep_inv prevDigests t digest currData r :
  mysql.deltaStep prevDigests t [] (digest, currData) = [r] ->
  mysql.DeltaResult.Digest r = digest /\
  mysql.DeltaResult.TimePeriodSecs r = t /\
  match prevDigests !! digest with
  | None => forall c, mysql.counterDelta c r = mysql.counterValue c currData
  | Some prevData =>
      0 < mysql.DeltaResult.DeltaCountStar r /\
      forall c, mysql.counterDelta c r =
                mysql.calcDelta (mysql.counterValue c currData) (mysql.counterValue c prevData)
  end.
Proof.
  unfold mysql.deltaStep.
  destruct (prevDigests !! digest) as [prevData|].
  - match goal with |- (if ?b then _ else _) = _ -> _ => destruct b eqn:Hpos end;
      [|discriminate].
    intros [= <-]. simpl. split; [reflexivity|]. split; [reflexivity|]. split.
    + apply Z.gtb_lt in Hpos. exact Hpos.
    + intros c. destruct c; reflexivity.
  - intros [= <-]. simpl. split; [reflexivity|]. split; [reflexivity|].
    intros c. destruct c; reflexivity.
Qed.

Lemma mysql_deltaStep_emits prevDigests t digest currData :
  prevDigests !! digest = None \/ 0 < mysql.callsDelta prevDigests digest currData ->
  exists r, mysql.deltaStep prevDigests t [] (digest, currData) = [r].
Proof.
  unfold mysql.deltaStep, mysql.callsDelta, mysql.calcDelta.
  destruct (prevDigests !! digest) as [prevData|]; [|eexists; reflexivity].
  intros [H|H]; [discriminate|].
  apply Z.gtb_lt in H. rewrite H. eexists; reflexivity.
Qed.

Lemma mysql_deltaStep_silent prevDigests t digest currData prevData :
  prevDigests !! digest = Some prevData ->
  mysql.callsDelta prevDigests digest currData <= 0 ->
  mysql.deltaStep prevDigests t [] (digest, currData) = [].
Proof.
  unfold mysql.deltaStep, mysql.callsDelta, mysql.calcDelta. intros -> H.
  match goal with |- (if ?b then _ else _) = _ => destruct b eqn:Hpos end;
    [|reflexivity].
  apply Z.gtb_lt in Hpos. lia.
Qed.

(** A key of the current snapshot has a record exactly when it is new
    or its calls delta is positive. *)
Lemma mysql_record_iff prev curr digest :
  (exists r, r ∈ mysql.CalculateDeltas (Some prev) (Some curr) /\
             mysql.DeltaResult.Digest r = digest) <->
  (exists currData,
     mysql.Snapshot.Digests curr !! digest = Some currData /\
     (mysql.Snapshot.Digests prev !! digest = None \/
      0 < mysql.callsDelta (mysql.Snapshot.Digests prev) digest currData)).
Proof.
  split.
  - intros (r & Hr & Hk). apply mysql_CalculateDeltas_elem in Hr as (k & d & Hcurr & Hstep).
    pose proof (mysql_deltaStep_inv _ _ _ _ _ Hstep) as (Hd & _ & Hc).
    subst k. subst digest.
    exists d. split; [exact Hcurr|].
    unfold mysql.callsDelta.
    destruct (mysql.Snapshot.Digests prev !! _) as [p|]; [|now left].
    right. destruct Hc as [Hpos Hc]. specialize (Hc mysql.CountStar). simpl in Hc.
    rewrite <- Hc. exact Hpos.
  - intros (d & Hcurr & Hor).
    destruct (mysql_deltaStep_emits (mysql.Snapshot.Digests prev)
                (Time.Seconds (Time.Sub (mysql.Snapshot.Timestamp curr)
                                        (mysql.Snapshot.Timestamp prev)))
                digest d Hor) as [r Hr].
    exists r. split.
    + apply mysql_CalculateDeltas_elem. eauto.
    + now apply mysql_deltaStep_inv in Hr as (? & _).
Qed.

(** A record's key comes from the current snapshot, and a key has at
    most one record. *)
Lemma mysql_record_unique prev curr r1 r2 :
  r1 ∈ mysql.CalculateDeltas (Some prev) (Some curr) ->
  r2 ∈ mysql.CalculateDeltas (Some prev) (Some curr) ->
  mysql.DeltaResult.Digest r1 = mysql.DeltaResult.Digest r2 -> r1 = r2.
Proof.
  intros H1 H2 Hk.
  apply mysql_CalculateDeltas_elem in H1 as (k1 & d1 & Hc1 & Hs1).
  apply mysql_CalculateDeltas_elem in H2 as (k2 & d2 & Hc2 & Hs2).
  pose proof (mysql_deltaStep_inv _ _ _ _ _ Hs1) as (E1 & _).
  pose proof (mysql_deltaStep_inv _ _ _ _ _ Hs2) as (E2 & _).
  assert (k1 = k2) by congruence. subst k2.
  assert (d1 = d2) by congruence. subst d2. congruence.
Qed.

(** ** The PostgreSQL delta engine *)

Lemma postgresql_deltaStep_append prevQueries t acc entry :
  postgresql.deltaStep prevQueries t acc entry =
  acc ++ postgresql.deltaStep prevQueries t [] entry.
Proof.
  destruct entry as [queryID currData]. unfold postgresql.deltaStep.
  destruct (prevQueries !! queryID) as [prevData|]; [|reflexivity].
  match goal with |- (if ?b then _ else _) = _ => destruct b end;
    [reflexivity | now rewrite app_nil_r].
Qed.

Lemma postgresql_CalculateDeltas_elem prev curr r :
  r ∈ postgresql.CalculateDeltas (Some prev) (Some curr) <->
  exists queryID currData,
    postgresql.Snapshot.Queries curr !! queryID = Some currData /\
    postgresql.deltaStep (postgresql.Snapshot.Queries prev)
      (Time.Seconds (Time.Sub (postgresql.Snapshot.Timestamp curr)
                              (postgresql.Snapshot.Timestamp prev)))
      [] (queryID, currData) = [r].
Proof.
  unfold postgresql.CalculateDeltas.
  rewrite (elem_of_foldl_append _ _ (postgresql_deltaStep_append _ _)).
  split.
  - intros [H|([queryID currData] & Hin & Hr)]; [inversion H|].
    apply elem_of_map_to_list in Hin. exists queryID, currData. split; [exact Hin|].
    revert Hr. unfold postgresql.deltaStep.
    destruct (postgresql.Snapshot.Queries prev !! queryID) as [prevData|].
    + match goal with |- _ ∈ (if ?b then _ else _) -> _ => destruct b end.
      * intros Hr. apply list_elem_of_singleton in Hr. now subst.
      * intros Hr. inversion Hr.
    + intros Hr. apply list_elem_of_singleton in Hr. now subst.
  - intros (queryID & currData & Hin & Hr). right. exists (queryID, currData).
    split; [now apply elem_of_map_to_list|]. rewrite Hr. now left.
Qed.

Lemma postgresql_deltaStep_inv prevQueries t queryID currData r :
  postgresql.deltaStep prevQueries t [] (queryID, currData) = [r] ->
  postgresql.DeltaResult.QueryID r = queryID /\
  postgresql.DeltaResult.TimePeriodSecs r = t /\
  match prevQueries !! queryID with
  | None =>
      (forall c, postgresql.intDelta c r = postgresql.intValue c currData) /\
      (forall c, postgresql.floatDelta c r = postgresql.floatValue c currData)
  | Some prevData =>
      0 < postgresql.DeltaResult.DeltaCalls r /\
      (forall c, postgresql.intDelta c r =
                 postgresql.calcDeltaInt64 (postgresql.intValue c currData)
                                           (postgresql.intValue c prevData)) /\
      (forall c, postgresql.floatDelta c r =
                 postgresql.calcDeltaFloat64 (postgresql.floatValue c currData)
                                             (postgresql.floatValue c prevData))
  end.
Proof.
  unfold postgresql.deltaStep.
  destruct (prevQueries !! queryID) as [prevData|].
  - match goal with |- (if ?b then _ else _) = _ -> _ => destruct b eqn:Hpos end;
      [|discriminate].
    intros [= <-]. simpl. split; [reflexivity|]. split; [reflexivity|].
    split; [|split].
    + apply Z.gtb_lt in Hpos. exact Hpos.
    + intros c. destruct c; reflexivity.
    + intros c. destruct c; reflexivity.
  - intros [= <-]. simpl. split; [reflexivity|]. split; [reflexivity|].
    split; intros c; destruct c; reflexivity.
Qed.

Lemma postgresql_deltaStep_emits prevQueries t queryID currData :
  prevQueries !! queryID = None \/ 0 < postgresql.callsDelta prevQueries queryID currData ->
  exists r, postgresql.deltaStep prevQueries t [] (queryID, currData) = [r].
Proof.
  unfold postgresql.deltaStep, postgresql.callsDelta, postgresql.calcDeltaInt64.
  destruct (prevQueries !! queryID) as [prevData|]; [|eexists; reflexivity].
  intros [H|H]; [discriminate|].
  apply Z.gtb_lt in H. rewrite H. eexists; reflexivity.
Qed.

Lemma postgresql_record_iff prev curr queryID :
  (exists r, r ∈ postgresql.CalculateDeltas (Some prev) (Some curr) /\
             postgresql.DeltaResult.QueryID r = queryID) <->
  (exists currData,
     postgresql.Snapshot.Queries curr !! queryID = Some currData /\
     (postgresql.Snapshot.Queries prev !! queryID = None \/
      0 < postgresql.callsDelta (postgresql.Snapshot.Queries prev) queryID currData)).
Proof.
  split.
  - intros (r & Hr & Hk).
    apply postgresql_CalculateDeltas_elem in Hr as (k & d & Hcurr & Hstep).
    pose proof (postgresql_deltaStep_inv _ _ _ _ _ Hstep) as (Hd & _ & Hc).
    subst k. subst queryID.
    exists d. split; [exact Hcurr|].
    unfold postgresql.callsDelta.
    destruct (postgresql.Snapshot.Queries prev !! _) as [p|]; [|now left].
    right. destruct Hc as (Hpos & Hc & _). specialize (Hc postgresql.Calls). simpl in Hc.
    rewrite <- Hc. exact Hpos.
  - intros (d & Hcurr & Hor).
    destruct (postgresql_deltaStep_emits (postgresql.Snapshot.Queries prev)
                (Time.Seconds (Time.Sub (postgresql.Snapshot.Timestamp curr)
                                        (postgresql.Snapshot.Timestamp prev)))
                queryID d Hor) as [r Hr].
    exists r. split.
    + apply postgresql_CalculateDeltas_elem. eauto.
    + now apply postgresql_deltaStep_inv in Hr as (? & _).
Qed.

(** ** Scenarios of the design document *)

(** S1: two identical snapshots give no record. *)
Example scenario_identical_snapshots :
  mysql.CalculateDeltas
    (Some (Scenario.mysqlSnapshot [("A", Scenario.digestRow "A" 10 1000)] 0))
    (Some (Scenario.mysqlSnapshot [("A", Scenario.digestRow "A" 10 1000)] 10)) = [].
Proof. vm_compute. reflexivity. Qed.

(** S2: a counter advance. *)
Example scenario_counter_advance :
  mysql.CalculateDeltas
    (Some (Scenario.mysqlSnapshot [("A", Scenario.digestRow "A" 10 1000)] 0))
    (Some (Scenario.mysqlSnapshot [("A", Scenario.digestRow "A" 12 1400)] 10))
  = [Scenario.deltaRow "A" 2 400 10%float].
Proof. vm_compute. reflexivity. Qed.

(** S3: a counter reset. *)
Example scenario_counter_reset :
  mysql.CalculateDeltas
    (Some (Scenario.mysqlSnapshot [("A", Scenario.digestRow "A" 100 5000)] 0))
    (Some (Scenario.mysqlSnapshot [("A", Scenario.digestRow "A" 3 120)] 10))
  = [Scenario.deltaRow "A" 3 120 10%float].
Proof. vm_compute. reflexivity. Qed.

(** S4: a new key. *)
Example scenario_new_key :
  mysql.CalculateDeltas
    (Some (Scenario.mysqlSnapshot [] 0))
    (Some (Scenario.mysqlSnapshot [("B", Scenario.digestRow "B" 5 250)] 10))
  = [Scenario.deltaRow "B" 5 250 10%float].
Proof. vm_compute. reflexivity. Qed.

(** S5: a dropped key. *)
Example scenario_dropped_key :
  mysql.CalculateDeltas
    (Some (Scenario.mysqlSnapshot [("C", Scenario.digestRow "C" 10 0)] 0))
    (Some (Scenario.mysqlSnapshot [] 10)) = [].
Proof. vm_compute. reflexivity. Qed.

(** A new key that was never executed still gets a record. *)
Example new_key_without_calls :
  mysql.CalculateDeltas
    (Some (Scenario.mysqlSnapshot [] 0))
    (Some (Scenario.mysqlSnapshot [("B", Scenario.digestRow "B" 0 0)] 10))
  = [Scenario.deltaRow "B" 0 0 10%float].
Proof. vm_compute. reflexivity. Qed.

Example new_query_without_calls :
  postgresql.CalculateDeltas
    (Some (Scenario.postgresqlSnapshot [] 0))
    (Some (Scenario.postgresqlSnapshot [("7", Scenario.queryRow "7" 0 0%float)] 10))
  = [Scenario.queryDeltaRow "7" 0 0%float 10%float].
Proof. vm_compute. reflexivity. Qed.

(** ** Emission filter *)

(** C1, as stated, fails: a key that is new in the current snapshot is
    emitted whatever its count, so the record of a new key that was
    never executed has a calls delta of zero. MySQL: previous snapshot
    empty, current snapshot with the single row B, calls 0. PostgreSQL:
    the same with the statement 7. *)
Lemma emission_filter_counterexample :
  ~ Stated.mysql_emission_filter
      (Scenario.mysqlSnapshot [] 0)
      (Scenario.mysqlSnapshot [("B", Scenario.digestRow "B" 0 0)] 10) /\
  ~ Stated.postgresql_emission_filter
      (Scenario.postgresqlSnapshot [] 0)
      (Scenario.postgresqlSnapshot [("7", Scenario.queryRow "7" 0 0%float)] 10).
Proof.
  split; intros [_ H].
  - specialize (H (Scenario.deltaRow "B" 0 0 10%float)).
    rewrite new_key_without_calls in H.
    specialize (H ltac:(left)). simpl in H. lia.
  - specialize (H (Scenario.queryDeltaRow "7" 0 0%float 10%float)).
    rewrite new_query_without_calls in H.
    specialize (H ltac:(left)). simpl in H. lia.
Qed.

(** C1, amended: for non-nil snapshots, a key has a record if and only
    if it is in the current snapshot and either is absent from the
    previous one or has a strictly positive calls delta; the record of
    a key present in both snapshots has a strictly positive calls
    delta, and a key present in both with no execution in the interval
    has no record. Both families. *)
Theorem emission_filter_new_or_positive :
  (forall prev curr digest,
     (exists r, r ∈ mysql.CalculateDeltas (Some prev) (Some curr) /\
                mysql.DeltaResult.Digest r = digest) <->
     (exists currData,
        mysql.Snapshot.Digests curr !! digest = Some currData /\
        (mysql.Snapshot.Digests prev !! digest = None \/
         0 < mysql.callsDelta (mysql.Snapshot.Digests prev) digest currData))) /\
  (forall prev curr r,
     r ∈ mysql.CalculateDeltas (Some prev) (Some curr) ->
     is_Some (mysql.Snapshot.Digests prev !! mysql.DeltaResult.Digest r) ->
     0 < mysql.DeltaResult.DeltaCountStar r) /\
  (forall prev curr queryID,
     (exists r, r ∈ postgresql.CalculateDeltas (Some prev) (Some curr) /\
                postgresql.DeltaResult.QueryID r = queryID) <->
     (exists currData,
        postgresql.Snapshot.Queries curr !! queryID = Some currData /\
        (postgresql.Snapshot.Queries prev !! queryID = None \/
         0 < postgresql.callsDelta (postgresql.Snapshot.Queries prev) queryID currData))) /\
  (forall prev curr r,
     r ∈ postgresql.CalculateDeltas (Some prev) (Some curr) ->
     is_Some (postgresql.Snapshot.Queries prev !! postgresql.DeltaResult.QueryID r) ->
     0 < postgresql.DeltaResult.DeltaCalls r).
Proof.
  split; [exact mysql_record_iff|]. split; [|split; [exact postgresql_record_iff|]].
  - intros prev curr r Hr [p Hp].
    apply mysql_CalculateDeltas_elem in Hr as (k & d & _ & Hstep).
    apply mysql_deltaStep_inv in Hstep as (Hk & _ & Hc). subst k.
    rewrite Hp in Hc. apply Hc.
  - intros prev curr r Hr [p Hp].
    apply postgresql_CalculateDeltas_elem in Hr as (k & d & _ & Hstep).
    apply postgresql_deltaStep_inv in Hstep as (Hk & _ & Hc). subst k.
    rewrite Hp in Hc. apply Hc.
Qed.

(** The amended filter at work on the counter advance of scenario S2. *)
Lemma emission_filter_new_or_positive_witness :
  0 < mysql.DeltaResult.DeltaCountStar (Scenario.deltaRow "A" 2 400 10%float).
Proof.
  apply (proj1 (proj2 emission_filter_new_or_positive)
           (Scenario.mysqlSnapshot [("A", Scenario.digestRow "A" 10 1000)] 0)
           (Scenario.mysqlSnapshot [("A", Scenario.digestRow "A" 12 1400)] 10)).
  - rewrite scenario_counter_advance. left.
  - vm_compute. eauto.
Defined.

(** ** Reset-aware subtraction *)

Lemma calcDelta_cases curr prev :
  (prev <= curr -> mysql.calcDelta curr prev = Int64.sub curr prev) /\
  (curr < prev -> mysql.calcDelta curr prev = curr).
Proof.
  unfold mysql.calcDelta. rewrite Z.geb_leb.
  destruct (Z.leb_spec prev curr); split; intros; (reflexivity || lia).
Qed.

Lemma calcDeltaInt64_cases curr prev :
  (prev <= curr -> postgresql.calcDeltaInt64 curr prev = Int64.sub curr prev) /\
  (curr < prev -> postgresql.calcDeltaInt64 curr prev = curr).
Proof. exact (calcDelta_cases curr prev). Qed.

Lemma calcDeltaFloat64_cases (curr prev : float) :
  ((prev <=? curr)%float = true ->
   postgresql.calcDeltaFloat64 curr prev = (curr - prev)%float) /\
  ((prev <=? curr)%float = false -> postgresql.calcDeltaFloat64 curr prev = curr).
Proof.
  unfold postgresql.calcDeltaFloat64.
  destruct (prev <=? curr)%float; split; intros; (reflexivity || discriminate).
Qed.

(** The record of a key present in both snapshots: every delta is the
    reset-aware difference of the two rows. *)
Lemma mysql_record_of_existing prev curr r prevData currData :
  r ∈ mysql.CalculateDeltas (Some prev) (Some curr) ->
  mysql.Snapshot.Digests prev !! mysql.DeltaResult.Digest r = Some prevData ->
  mysql.Snapshot.Digests curr !! mysql.DeltaResult.Digest r = Some currData ->
  forall c, mysql.counterDelta c r =
            mysql.calcDelta (mysql.counterValue c currData) (mysql.counterValue c prevData).
Proof.
  intros Hr Hp Hc.
  apply mysql_CalculateDeltas_elem in Hr as (k & d & Hcurr & Hstep).
  apply mysql_deltaStep_inv in Hstep as (Hk & _ & Hall). subst k.
  rewrite Hp in Hall. assert (d = currData) by congruence. subst d. apply Hall.
Qed.

Lemma postgresql_record_of_existing prev curr r prevData currData :
  r ∈ postgresql.CalculateDeltas (Some prev) (Some curr) ->
  postgresql.Snapshot.Queries prev !! postgresql.DeltaResult.QueryID r = Some prevData ->
  postgresql.Snapshot.Queries curr !! postgresql.DeltaResult.QueryID r = Some currData ->
  (forall c, postgresql.intDelta c r =
             postgresql.calcDeltaInt64 (postgresql.intValue c currData)
                                       (postgresql.intValue c prevData)) /\
  (forall c, postgresql.floatDelta c r =
             postgresql.calcDeltaFloat64 (postgresql.floatValue c currData)
                                         (postgresql.floatValue c prevData)).
Proof.
  intros Hr Hp Hc.
  apply postgresql_CalculateDeltas_elem in Hr as (k & d & Hcurr & Hstep).
  apply postgresql_deltaStep_inv in Hstep as (Hk & _ & Hall). subst k.
  rewrite Hp in Hall. assert (d = currData) by congruence. subst d. apply Hall.
Qed.

(** The record of a key the previous snapshot lacks: every delta is the
    current counter. *)
Lemma mysql_record_of_new prev curr r currData :
  r ∈ mysql.CalculateDeltas (Some prev) (Some curr) ->
  mysql.Snapshot.Digests prev !! mysql.DeltaResult.Digest r = None ->
  mysql.Snapshot.Digests curr !! mysql.DeltaResult.Digest r = Some currData ->
  forall c, mysql.counterDelta c r = mysql.counterValue c currData.
Proof.
  intros Hr Hp Hc.
  apply mysql_CalculateDeltas_elem in Hr as (k & d & Hcurr & Hstep).
  apply mysql_deltaStep_inv in Hstep as (Hk & _ & Hall). subst k.
  rewrite Hp in Hall. assert (d = currData) by congruence. subst d. apply Hall.
Qed.

Lemma postgresql_record_of_new prev curr r currData :
  r ∈ postgresql.CalculateDeltas (Some prev) (Some curr) ->
  postgresql.Snapshot.Queries prev !! postgresql.DeltaResult.QueryID r = None ->
  postgresql.Snapshot.Queries curr !! postgresql.DeltaResult.QueryID r = Some currData ->
  (forall c, postgresql.intDelta c r = postgresql.intValue c currData) /\
  (forall c, postgresql.floatDelta c r = postgresql.floatValue c currData).
Proof.
  intros Hr Hp Hc.
  apply postgresql_CalculateDeltas_elem in Hr as (k & d & Hcurr & Hstep).
  apply postgresql_deltaStep_inv in Hstep as (Hk & _ & Hall). subst k.
  rewrite Hp in Hall. assert (d = currData) by congruence. subst d. apply Hall.
Qed.

(** Every record stems from a row of the current snapshot. *)
Lemma mysql_record_has_row prev curr r :
  r ∈ mysql.CalculateDeltas (Some prev) (Some curr) ->
  exists currData, mysql.Snapshot.Digests curr !! mysql.DeltaResult.Digest r = Some currData.
Proof.
  intros Hr. apply mysql_CalculateDeltas_elem in Hr as (k & d & Hcurr & Hstep).
  apply mysql_deltaStep_inv in Hstep as (Hk & _). subst k. eauto.
Qed.

Lemma postgresql_record_has_row prev curr r :
  r ∈ postgresql.CalculateDeltas (Some prev) (Some curr) ->
  exists currData,
    postgresql.Snapshot.Queries curr !! postgresql.DeltaResult.QueryID r = Some currData.
Proof.
  intros Hr. apply postgresql_CalculateDeltas_elem in Hr as (k & d & Hcurr & Hstep).
  apply postgresql_deltaStep_inv in Hstep as (Hk & _). subst k. eauto.
Qed.

(** C2: for a key present in both snapshots whose record is emitted,
    every delta is the difference of the current and the previous
    counter when the current one is at least the previous one (the
    64-bit subtraction of the source, which is the exact difference as
    soon as the previous counter is not negative), and the current
    counter otherwise. Integer counters of both families, fractional
    counters of PostgreSQL with the float comparison and subtraction. *)
Theorem reset_aware_subtraction :
  (forall prev curr r prevData currData c,
     r ∈ mysql.CalculateDeltas (Some prev) (Some curr) ->
     mysql.Snapshot.Digests prev !! mysql.DeltaResult.Digest r = Some prevData ->
     mysql.Snapshot.Digests curr !! mysql.DeltaResult.Digest r = Some currData ->
     (mysql.counterValue c prevData <= mysql.counterValue c currData ->
      mysql.counterDelta c r =
        Int64.sub (mysql.counterValue c currData) (mysql.counterValue c prevData) /\
      (0 <= mysql.counterValue c prevData ->
       mysql.counterValue c currData <= Int64.max_int ->
       mysql.counterDelta c r = mysql.counterValue c currData - mysql.counterValue c prevData)) /\
     (mysql.counterValue c currData < mysql.counterValue c prevData ->
      mysql.counterDelta c r = mysql.counterValue c currData)) /\
  (forall prev curr r prevData currData,
     r ∈ postgresql.CalculateDeltas (Some prev) (Some curr) ->
     postgresql.Snapshot.Queries prev !! postgresql.DeltaResult.QueryID r = Some prevData ->
     postgresql.Snapshot.Queries curr !! postgresql.DeltaResult.QueryID r = Some currData ->
     (forall c,
        (postgresql.intValue c prevData <= postgresql.intValue c currData ->
         postgresql.intDelta c r =
           Int64.sub (postgresql.intValue c currData) (postgresql.intValue c prevData) /\
         (0 <= postgresql.intValue c prevData ->
          postgresql.intValue c currData <= Int64.max_int ->
          postgresql.intDelta c r =
            postgresql.intValue c currData - postgresql.intValue c prevData)) /\
        (postgresql.intValue c currData < postgresql.intValue c prevData ->
         postgresql.intDelta c r = postgresql.intValue c currData)) /\
     (forall c,
        ((postgresql.floatValue c prevData <=? postgresql.floatValue c currData)%float = true ->
         postgresql.floatDelta c r =
           (postgresql.floatValue c currData - postgresql.floatValue c prevData)%float) /\
        ((postgresql.floatValue c prevData <=? postgresql.floatValue c currData)%float = false ->
         postgresql.floatDelta c r = postgresql.floatValue c currData))).
Proof.
  split.
  - intros prev curr r prevData currData c Hr Hp Hc.
    rewrite (mysql_record_of_existing _ _ _ _ _ Hr Hp Hc c).
    destruct (calcDelta_cases (mysql.counterValue c currData) (mysql.counterValue c prevData))
      as [Hge Hlt].
    split; [|exact Hlt]. intros Hle. split; [exact (Hge Hle)|].
    intros H0 Hmax. rewrite (Hge Hle). now apply Int64_sub_exact.
  - intros prev curr r prevData currData Hr Hp Hc.
    destruct (postgresql_record_of_existing _ _ _ _ _ Hr Hp Hc) as [Hint Hfloat].
    split; intros c.
    + rewrite Hint.
      destruct (calcDeltaInt64_cases (postgresql.intValue c currData)
                                     (postgresql.intValue c prevData)) as [Hge Hlt].
      split; [|exact Hlt]. intros Hle. split; [exact (Hge Hle)|].
      intros H0 Hmax. rewrite (Hge Hle). now apply Int64_sub_exact.
    + rewrite Hfloat. apply calcDeltaFloat64_cases.
Qed.

(** The timer of scenario S3 was reset from 5000 to 120: the delta is 120. *)
Lemma reset_aware_subtraction_witness :
  mysql.counterDelta mysql.SumTimerWait (Scenario.deltaRow "A" 3 120 10%float) = 120.
Proof.
  refine (proj2 (proj1 reset_aware_subtraction
           (Scenario.mysqlSnapshot [("A", Scenario.digestRow "A" 100 5000)] 0)
           (Scenario.mysqlSnapshot [("A", Scenario.digestRow "A" 3 120)] 10)
           (Scenario.deltaRow "A" 3 120 10%float)
           (Scenario.digestRow "A" 100 5000) (Scenario.digestRow "A" 3 120)
           mysql.SumTimerWait _ _ _) _).
  - rewrite scenario_counter_reset. left.
  - vm_compute. reflexivity.
  - vm_compute. reflexivity.
  - simpl. lia.
Defined.

(** ** Time period of a record *)

Lemma float_neq_by (f : float -> bool) (x y : float) : f x <> f y -> x <> y.
Proof. intros Hf ->. now apply Hf. Qed.

(** Every record carries the raw difference of the two timestamps. *)
Lemma mysql_record_period prev curr r :
  r ∈ mysql.CalculateDeltas (Some prev) (Some curr) ->
  mysql.DeltaResult.TimePeriodSecs r =
  Time.Seconds (Time.Sub (mysql.Snapshot.Timestamp curr) (mysql.Snapshot.Timestamp prev)).
Proof.
  intros Hr. apply mysql_CalculateDeltas_elem in Hr as (k & d & _ & Hstep).
  now apply mysql_deltaStep_inv in Hstep as (_ & Ht & _).
Qed.

Lemma postgresql_record_period prev curr r :
  r ∈ postgresql.CalculateDeltas (Some prev) (Some curr) ->
  postgresql.DeltaResult.TimePeriodSecs r =
  Time.Seconds (Time.Sub (postgresql.Snapshot.Timestamp curr)
                         (postgresql.Snapshot.Timestamp prev)).
Proof.
  intros Hr. apply postgresql_CalculateDeltas_elem in Hr as (k & d & _ & Hstep).
  now apply postgresql_deltaStep_inv in Hstep as (_ & Ht & _).
Qed.

Example counter_advance_same_instant :
  mysql.CalculateDeltas
    (Some (Scenario.mysqlSnapshot [("A", Scenario.digestRow "A" 10 1000)] 10))
    (Some (Scenario.mysqlSnapshot [("A", Scenario.digestRow "A" 12 1400)] 10))
  = [Scenario.deltaRow "A" 2 400 0%float].
Proof. vm_compute. reflexivity. Qed.

Example query_advance_backwards :
  postgresql.CalculateDeltas
    (Some (Scenario.postgresqlSnapshot [("7", Scenario.queryRow "7" 10 1.5%float)] 10))
    (Some (Scenario.postgresqlSnapshot [("7", Scenario.queryRow "7" 12 4%float)] 0))
  = [Scenario.queryDeltaRow "7" 2 2.5%float (-10)%float].
Proof. vm_compute. reflexivity. Qed.

(** C4, as stated, fails: [CalculateDeltas] never replaces the interval.
    MySQL: two snapshots taken at the same instant (10 s), the row A
    advancing from 10 to 12 calls, give a record whose time period is
    0. PostgreSQL: a current snapshot taken 10 s before the previous
    one gives a record whose time period is -10. *)
Lemma period_substitution_counterexample :
  ~ Stated.mysql_period_substituted
      (Scenario.mysqlSnapshot [("A", Scenario.digestRow "A" 10 1000)] 10)
      (Scenario.mysqlSnapshot [("A", Scenario.digestRow "A" 12 1400)] 10) /\
  ~ Stated.postgresql_period_substituted
      (Scenario.postgresqlSnapshot [("7", Scenario.queryRow "7" 10 1.5%float)] 10)
      (Scenario.postgresqlSnapshot [("7", Scenario.queryRow "7" 12 4%float)] 0).
Proof.
  split; intros H.
  - specialize (H ltac:(vm_compute; discriminate) (Scenario.deltaRow "A" 2 400 0%float)).
    rewrite counter_advance_same_instant in H. specialize (H ltac:(left)).
    simpl in H. revert H.
    apply (float_neq_by (fun x => (x <? 0.5)%float)). vm_compute. discriminate.
  - specialize (H ltac:(vm_compute; discriminate) (Scenario.queryDeltaRow "7" 2 2.5%float (-10)%float)).
    rewrite query_advance_backwards in H. specialize (H ltac:(left)).
    simpl in H. revert H.
    apply (float_neq_by (fun x => (x <? 0.5)%float)). vm_compute. discriminate.
Qed.

(** C4, amended: for non-nil snapshots with [curr.Timestamp <=
    prev.Timestamp], nothing is substituted: every emitted record has
    [TimePeriodSecs] equal to the seconds of the difference of the two
    timestamps, a duration that is not positive (0 seconds, hence 0.0,
    when the timestamps are equal); records are still emitted, for
    every new key and every key with a positive calls delta. Both
    families. *)
Theorem period_is_raw_difference :
  (forall prev curr,
     mysql.Snapshot.Timestamp curr <= mysql.Snapshot.Timestamp prev ->
     let d := Time.Sub (mysql.Snapshot.Timestamp curr) (mysql.Snapshot.Timestamp prev) in
     d <= 0 /\
     (forall r, r ∈ mysql.CalculateDeltas (Some prev) (Some curr) ->
                mysql.DeltaResult.TimePeriodSecs r = Time.Seconds d /\
                (mysql.Snapshot.Timestamp curr = mysql.Snapshot.Timestamp prev ->
                 mysql.DeltaResult.TimePeriodSecs r = 0%float)) /\
     (forall digest currData,
        mysql.Snapshot.Digests curr !! digest = Some currData ->
        mysql.Snapshot.Digests prev !! digest = None \/
        0 < mysql.callsDelta (mysql.Snapshot.Digests prev) digest currData ->
        exists r, r ∈ mysql.CalculateDeltas (Some prev) (Some curr) /\
                  mysql.DeltaResult.Digest r = digest)) /\
  (forall prev curr,
     postgresql.Snapshot.Timestamp curr <= postgresql.Snapshot.Timestamp prev ->
     let d := Time.Sub (postgresql.Snapshot.Timestamp curr)
                       (postgresql.Snapshot.Timestamp prev) in
     d <= 0 /\
     (forall r, r ∈ postgresql.CalculateDeltas (Some prev) (Some curr) ->
                postgresql.DeltaResult.TimePeriodSecs r = Time.Seconds d /\
                (postgresql.Snapshot.Timestamp curr = postgresql.Snapshot.Timestamp prev ->
                 postgresql.DeltaResult.TimePeriodSecs r = 0%float)) /\
     (forall queryID currData,
        postgresql.Snapshot.Queries curr !! queryID = Some currData ->
        postgresql.Snapshot.Queries prev !! queryID = None \/
        0 < postgresql.callsDelta (postgresql.Snapshot.Queries prev) queryID currData ->
        exists r, r ∈ postgresql.CalculateDeltas (Some prev) (Some curr) /\
                  postgresql.DeltaResult.QueryID r = queryID)).
Proof.
  split; intros prev curr Hts d; (split; [now apply Time_Sub_nonpos|]); split.
  - intros r Hr. split; [now apply mysql_record_period|].
    intros Heq. rewrite (mysql_record_period _ _ _ Hr).
    rewrite Heq, Time_Sub_exact by (unfold Int64.min_int, Int64.max_int; lia).
    rewrite Z.sub_diag. vm_compute. reflexivity.
  - intros digest currData Hc Hor. apply mysql_record_iff. eauto.
  - intros r Hr. split; [now apply postgresql_record_period|].
    intros Heq. rewrite (postgresql_record_period _ _ _ Hr).
    rewrite Heq, Time_Sub_exact by (unfold Int64.min_int, Int64.max_int; lia).
    rewrite Z.sub_diag. vm_compute. reflexivity.
  - intros queryID currData Hc Hor. apply postgresql_record_iff. eauto.
Qed.

(** The amended statement on two snapshots taken at the same instant. *)
Lemma period_is_raw_difference_witness :
  mysql.DeltaResult.TimePeriodSecs (Scenario.deltaRow "A" 2 400 0%float)
  = Time.Seconds (Time.Sub (10 * Time.Second) (10 * Time.Second)).
Proof.
  refine (proj1 (proj1 (proj2 (proj1 period_is_raw_difference
           (Scenario.mysqlSnapshot [("A", Scenario.digestRow "A" 10 1000)] 10)
           (Scenario.mysqlSnapshot [("A", Scenario.digestRow "A" 12 1400)] 10) _))
           (Scenario.deltaRow "A" 2 400 0%float) _)).
  - vm_compute. discriminate.
  - rewrite counter_advance_same_instant. left.
Defined.

(** ** Failure of the snapshot collection *)

Example mysql_preflight_failure :
  mysql.collectSnapshot Scenario.mysqlCollector Scenario.mysqlServerOff 0
  = Err (WrapError "failed to check performance_schema status"
           (WrapError ("sql: Scan error on column index 0, name "
                         +:+ sql.quoted "Variable_name")
              (NewError "destination not a pointer"))).
Proof. vm_compute. reflexivity. Qed.

Example postgresql_preflight_failure :
  postgresql.collectSnapshot Scenario.postgresqlCollector Scenario.postgresqlServerBare 0
  = Err (NewError "pg_stat_statements extension is not installed").
Proof. vm_compute. reflexivity. Qed.

(** C8: when [collectSnapshot] fails, with whatever error (preflight or
    query), [Collect] returns that very error with an empty batch, and
    the snapshot store is left as it was: [GetSnapshot] answers as
    before the call, for the instance and for any other. Both
    families. *)
Theorem collect_failure_keeps_store :
  (forall c db now clock store err,
     mysql.collectSnapshot c db now = Err err ->
     snd (mysql.Collect c db now clock store) = ([], Some err) /\
     fst (mysql.Collect c db now clock store) = store /\
     forall instanceID,
       mysql.GetSnapshot (fst (mysql.Collect c db now clock store)) instanceID
       = mysql.GetSnapshot store instanceID) /\
  (forall c db now clock store err,
     postgresql.collectSnapshot c db now = Err err ->
     snd (postgresql.Collect c db now clock store) = ([], Some err) /\
     fst (postgresql.Collect c db now clock store) = store /\
     forall instanceID,
       postgresql.GetSnapshot (fst (postgresql.Collect c db now clock store)) instanceID
       = postgresql.GetSnapshot store instanceID).
Proof.
  split; intros c db now clock store err Hfail.
  - unfold mysql.Collect. rewrite Hfail. simpl. auto.
  - unfold postgresql.Collect. rewrite Hfail. simpl. auto.
Qed.

(** A store that holds a snapshot, and a tick whose preflight fails. *)
Lemma collect_failure_keeps_store_witness :
  let store := mysql.StoreSnapshot mysql.NewSnapshotStore
                 (mysql.Collector.instanceID Scenario.mysqlCollector)
                 (Some (Scenario.mysqlSnapshot [("A", Scenario.digestRow "A" 10 1000)] 0)) in
  let err := WrapError "failed to check performance_schema status"
               (WrapError ("sql: Scan error on column index 0, name "
                             +:+ sql.quoted "Variable_name")
                  (NewError "destination not a pointer")) in
  snd (mysql.Collect Scenario.mysqlCollector Scenario.mysqlServerOff 10
         Scenario.tickingClock store)
  = ([], Some err) /\
  mysql.GetSnapshot
    (fst (mysql.Collect Scenario.mysqlCollector Scenario.mysqlServerOff 10
            Scenario.tickingClock store))
    (mysql.Collector.instanceID Scenario.mysqlCollector)
  = Some (Scenario.mysqlSnapshot [("A", Scenario.digestRow "A" 10 1000)] 0).
Proof.
  intros store err.
  destruct (proj1 collect_failure_keeps_store Scenario.mysqlCollector
              Scenario.mysqlServerOff 10 Scenario.tickingClock store err
              ltac:(vm_compute; reflexivity)) as (Herr & _ & Hget).
  split; [exact Herr|]. rewrite Hget. vm_compute. reflexivity.
Defined.

(** ** Log builder *)

Lemma mysql_calls_attribute delta :
  pdata.Get (mysql.logAttributes delta) "db.query.calls.delta"
  = Some (pdata.ValueInt (mysql.DeltaResult.DeltaCountStar delta)).
Proof. reflexivity. Qed.

Lemma postgresql_calls_attribute delta :
  pdata.Get (postgresql.logAttributes delta) "db.query.calls.delta"
  = Some (pdata.ValueInt (postgresql.DeltaResult.DeltaCalls delta)).
Proof. reflexivity. Qed.

Lemma mysql_logStep_invariant clock deltas :
  forall records,
    (forall lr, lr ∈ records -> positive_calls lr) ->
    forall lr, lr ∈ foldl (mysql.logStep clock) records deltas -> positive_calls lr.
Proof.
  induction deltas as [|delta deltas IH]; intros records Hrec lr; simpl; [apply Hrec|].
  apply IH. intros lr' Hin. unfold mysql.logStep in Hin.
  destruct (Z.leb_spec (mysql.DeltaResult.DeltaCountStar delta) 0) as [Hle|Hpos];
    [now apply Hrec|].
  apply elem_of_app in Hin as [Hin|Hin]; [now apply Hrec|].
  apply list_elem_of_singleton in Hin. subst lr'.
  exists (mysql.DeltaResult.DeltaCountStar delta). split; [|exact Hpos].
  apply mysql_calls_attribute.
Qed.

Lemma postgresql_logStep_invariant clock deltas :
  forall records,
    (forall lr, lr ∈ records -> positive_calls lr) ->
    forall lr, lr ∈ foldl (postgresql.logStep clock) records deltas -> positive_calls lr.
Proof.
  induction deltas as [|delta deltas IH]; intros records Hrec lr; simpl; [apply Hrec|].
  apply IH. intros lr' Hin. unfold postgresql.logStep in Hin.
  destruct (Z.leb_spec (postgresql.DeltaResult.DeltaCalls delta) 0) as [Hle|Hpos];
    [now apply Hrec|].
  apply elem_of_app in Hin as [Hin|Hin]; [now apply Hrec|].
  apply list_elem_of_singleton in Hin. subst lr'.
  exists (postgresql.DeltaResult.DeltaCalls delta). split; [|exact Hpos].
  apply postgresql_calls_attribute.
Qed.

(** C10: whatever the delta results handed to [deltaToLogs], results
    with a zero or negative calls delta included, every log record of
    the batch has an attribute [db.query.calls.delta] that is an
    integer strictly greater than zero. Both families. *)
Theorem logs_carry_positive_calls :
  (forall c clock deltas lr,
     lr ∈ pdata.AllLogRecords (mysql.deltaToLogs c clock deltas) ->
     exists n, pdata.Get (pdata.LogRecord.Attributes lr) "db.query.calls.delta"
               = Some (pdata.ValueInt n) /\ 0 < n) /\
  (forall c clock deltas lr,
     lr ∈ pdata.AllLogRecords (postgresql.deltaToLogs c clock deltas) ->
     exists n, pdata.Get (pdata.LogRecord.Attributes lr) "db.query.calls.delta"
               = Some (pdata.ValueInt n) /\ 0 < n).
Proof.
  split; intros c clock deltas lr.
  - unfold mysql.deltaToLogs. destruct (length deltas =? 0)%nat.
    + intros Hin. inversion Hin.
    + unfold pdata.AllLogRecords. simpl. rewrite !app_nil_r.
      apply (mysql_logStep_invariant clock deltas []). intros lr' Hin. inversion Hin.
  - unfold postgresql.deltaToLogs. destruct (length deltas =? 0)%nat.
    + intros Hin. inversion Hin.
    + unfold pdata.AllLogRecords. simpl. rewrite !app_nil_r.
      apply (postgresql_logStep_invariant clock deltas []). intros lr' Hin. inversion Hin.
Qed.

(** Of a zero, a positive and a negative calls delta only the positive
    one reaches the batch. *)
Example mysql_log_batch_filters :
  map pdata.LogRecord.Attributes
    (pdata.AllLogRecords
       (mysql.deltaToLogs Scenario.mysqlCollector Scenario.tickingClock
          [Scenario.deltaRow "B" 0 0 10%float; Scenario.deltaRow "A" 2 400 10%float;
           Scenario.deltaRow "C" (-1) 0 10%float]))
  = [mysql.logAttributes (Scenario.deltaRow "A" 2 400 10%float)].
Proof. vm_compute. reflexivity. Qed.

Lemma logs_carry_positive_calls_witness :
  exists lr n,
    lr ∈ pdata.AllLogRecords
           (mysql.deltaToLogs Scenario.mysqlCollector Scenario.tickingClock
              [Scenario.deltaRow "B" 0 0 10%float; Scenario.deltaRow "A" 2 400 10%float]) /\
    pdata.Get (pdata.LogRecord.Attributes lr) "db.query.calls.delta"
    = Some (pdata.ValueInt n) /\ 0 < n.
Proof.
  eexists.
  assert (Hin : forall (x : pdata.LogRecord.t), x ∈ [x]) by (intros; left).
  pose proof (proj1 logs_carry_positive_calls Scenario.mysqlCollector Scenario.tickingClock
                [Scenario.deltaRow "B" 0 0 10%float; Scenario.deltaRow "A" 2 400 10%float]
                _ (Hin _)) as (n & Hget & Hpos).
  exists n. split; [apply Hin|]. split; [exact Hget|exact Hpos].
Defined.

(** ** Load probe *)

Example status_rows_parsed :
  adaptive.collectMySQLMetrics (Scenario.statusServer "3" "12") 5
  = Ok (adaptive.MySQLMetrics.mk 3 12 1000 10 0 3600 5).
Proof. vm_compute. reflexivity. Qed.

(** All the connected threads are running: the first probe reports a
    load of 0.7, not 1. *)
Example first_probe_all_threads_running :
  adaptive.CollectMetrics adaptive.NewMySQLCollector (Scenario.statusServer "1" "1") 0
  = ({| adaptive.MySQLCollector.lastMetrics :=
          Some (adaptive.MySQLMetrics.mk 1 1 1000 10 0 3600 0) |},
     (0.7%float, None)).
Proof. vm_compute. reflexivity. Qed.

(** C5, as stated, fails: the first probe goes through the composite
    load like any other, with a slow-query ratio of zero, so the thread
    ratio is weighted by 0.7. With Threads_running = 1 and
    Threads_connected = 1 the load is 0.7 where the statement gives
    1/1 = 1. *)
Lemma first_probe_load_counterexample :
  ~ Stated.first_probe_load (Scenario.statusServer "1" "1") 0.
Proof.
  intros H. specialize (H _ eq_refl).
  rewrite first_probe_all_threads_running in H. vm_compute in H. revert H.
  apply (float_neq_by (fun x => (x <? 0.8)%float)). vm_compute. discriminate.
Qed.

(** C5, amended: on the first load probe (no prior reading stored) the
    load returned by [CollectMetrics] is 0 if Threads_connected is zero
    or negative, and otherwise 0.7 * t + 0.3 * 0, that is [t * 0.7 + 0],
    where t is Threads_running / Threads_connected capped above at 1;
    the reading is stored for the next probe. *)
Theorem first_probe_load_is_weighted :
  forall c db now metrics,
    adaptive.MySQLCollector.lastMetrics c = None ->
    adaptive.collectMySQLMetrics db now = Ok metrics ->
    adaptive.CollectMetrics c db now =
    ({| adaptive.MySQLCollector.lastMetrics := Some metrics |},
     ((if adaptive.MySQLMetrics.ThreadsConnected metrics <=? 0 then 0%float
       else
         let t := (F64.of_int (adaptive.MySQLMetrics.ThreadsRunning metrics)
                   / F64.of_int (adaptive.MySQLMetrics.ThreadsConnected metrics))%float in
         ((if (1 <? t)%float then 1%float else t) * 0.7 + 0)%float),
      None)).
Proof.
  intros c db now metrics Hlast Hok.
  unfold adaptive.CollectMetrics. rewrite Hok, Hlast.
  unfold adaptive.CalculateDiff, adaptive.CalculateLoad. simpl.
  destruct (adaptive.MySQLMetrics.ThreadsConnected metrics <=? 0); reflexivity.
Qed.

(** Three running threads out of twelve: 0.25 * 0.7 + 0. *)
Lemma first_probe_load_is_weighted_witness :
  adaptive.CollectMetrics adaptive.NewMySQLCollector (Scenario.statusServer "3" "12") 5
  = ({| adaptive.MySQLCollector.lastMetrics :=
          Some (adaptive.MySQLMetrics.mk 3 12 1000 10 0 3600 5) |},
     ((0.25 * 0.7 + 0)%float, None)).
Proof.
  rewrite (first_probe_load_is_weighted adaptive.NewMySQLCollector
             (Scenario.statusServer "3" "12") 5
             (adaptive.MySQLMetrics.mk 3 12 1000 10 0 3600 5) eq_refl status_rows_parsed).
  vm_compute. reflexivity.
Defined.

(** Later probes weigh the thread ratio and the slow-query ratio. *)
Example second_probe_load :
  fst (snd (adaptive.CollectMetrics
              {| adaptive.MySQLCollector.lastMetrics :=
                   Some (adaptive.MySQLMetrics.mk 1 1 0 0 0 3590 0) |}
              (Scenario.statusServer "6" "12") (10 * Time.Second)))
  = (0.5 * 0.7 + 0.01 * 0.3)%float.
Proof. vm_compute. reflexivity. Qed.

(** ** Governor: interval bounds *)

Section GovernorBounds.

Variable math_Pow : float -> float -> float.
Variable json_Marshal : adaptive.GovernorState.t -> option string.
Variable json_Unmarshal : string -> option adaptive.GovernorState.t.

Lemma newIntervalFor_upper baseInterval fastValue :
  baseInterval <= adaptive.MaximumInterval ->
  adaptive.newIntervalFor math_Pow baseInterval fastValue <= adaptive.MaximumInterval.
Proof.
  intros Hbase. unfold adaptive.newIntervalFor.
  destruct (adaptive.CriticalLoadThreshold <? fastValue)%float; [lia|].
  destruct (adaptive.HighLoadThreshold <? fastValue)%float; [|exact Hbase].
  destruct (Z.gtb_spec (adaptive.backoffInterval math_Pow baseInterval fastValue)
                       adaptive.MaximumInterval); lia.
Qed.

Lemma newIntervalFor_lower baseInterval fastValue :
  adaptive.MinimumInterval <= baseInterval ->
  adaptive.backoffAboveMinimum math_Pow baseInterval ->
  adaptive.MinimumInterval <= adaptive.newIntervalFor math_Pow baseInterval fastValue.
Proof.
  intros Hbase Hback. unfold adaptive.newIntervalFor.
  destruct (adaptive.CriticalLoadThreshold <? fastValue)%float eqn:Hcrit;
    [unfold adaptive.MinimumInterval, adaptive.MaximumInterval,
       Time.Millisecond, Time.Second; lia|].
  destruct (adaptive.HighLoadThreshold <? fastValue)%float eqn:Hhigh; [|exact Hbase].
  destruct (Z.gtb_spec (adaptive.backoffInterval math_Pow baseInterval fastValue)
                       adaptive.MaximumInterval).
  - unfold adaptive.MinimumInterval, adaptive.MaximumInterval,
      Time.Millisecond, Time.Second; lia.
  - now apply Hback.
Qed.

(** The invariant is kept for a base interval [B] and a property [P]
    of intervals that [B] and every interval [adjustInterval] may
    decide on satisfy. *)
Variable P : Z -> Prop.
Variable B : Z.
Hypothesis P_base : P B.
Hypothesis P_new : forall fastValue, P (adaptive.newIntervalFor math_Pow B fastValue).
Hypothesis codec : adaptive.codecKeepsInterval json_Marshal json_Unmarshal.

Local Abbreviation Inv := (adaptive.governorInvariant json_Unmarshal P B).

Lemma adjustInterval_files g w :
  adaptive.World.files (snd (adaptive.adjustInterval math_Pow g w)) = adaptive.World.files w.
Proof.
  unfold adaptive.adjustInterval, adaptive.callIntervalChangeCb.
  destruct (0.1 <? _)%float; simpl; [|reflexivity].
  destruct (adaptive.AdaptiveGovernor.intervalChangeCb g); reflexivity.
Qed.

Lemma adjustInterval_base g w :
  adaptive.AdaptiveGovernor.baseInterval (fst (adaptive.adjustInterval math_Pow g w))
  = adaptive.AdaptiveGovernor.baseInterval g.
Proof.
  unfold adaptive.adjustInterval. destruct (0.1 <? _)%float; reflexivity.
Qed.

Lemma adjustInterval_current g w :
  adaptive.AdaptiveGovernor.baseInterval g = B ->
  P (adaptive.AdaptiveGovernor.currentInterval g) ->
  P (adaptive.AdaptiveGovernor.currentInterval (fst (adaptive.adjustInterval math_Pow g w))).
Proof.
  intros Hbase Hcur. unfold adaptive.adjustInterval.
  destruct (0.1 <? _)%float; simpl; [|exact Hcur].
  rewrite Hbase. apply P_new.
Qed.

Lemma saveState_files g io w :
  P (adaptive.AdaptiveGovernor.currentInterval g) ->
  adaptive.filesSatisfy json_Unmarshal P w ->
  adaptive.filesSatisfy json_Unmarshal P (adaptive.saveState json_Marshal g io w).
Proof.
  intros Hcur Hfiles. unfold adaptive.saveState.
  destruct (String.eqb _ _); [exact Hfiles|].
  destruct (adaptive.IO.MkdirAll_ok io); simpl; [|exact Hfiles].
  destruct (json_Marshal _) as [data|] eqn:Hdata; [|exact Hfiles].
  destruct (adaptive.IO.WriteFile_ok io); simpl; [|exact Hfiles].
  assert (Hnew : forall state,
             json_Unmarshal data = Some state ->
             P (adaptive.GovernorState.Interval state)).
  { intros state Hstate. rewrite (codec _ _ _ Hdata Hstate). exact Hcur. }
  destruct (adaptive.IO.Rename_ok io); simpl; intros path file state Hfile Hstate;
    simpl in Hfile.
  - apply lookup_insert_Some in Hfile as [[_ <-]|[_ Hfile]]; [now apply Hnew|].
    apply lookup_delete_Some in Hfile as [_ Hfile].
    apply lookup_insert_Some in Hfile as [[_ <-]|[_ Hfile]]; [now apply Hnew|].
    exact (Hfiles _ _ _ Hfile Hstate).
  - apply lookup_insert_Some in Hfile as [[_ <-]|[_ Hfile]]; [now apply Hnew|].
    exact (Hfiles _ _ _ Hfile Hstate).
Qed.

Lemma callIntervalChangeCb_files g w interval :
  adaptive.World.files (adaptive.callIntervalChangeCb g w interval) = adaptive.World.files w.
Proof.
  unfold adaptive.callIntervalChangeCb.
  destruct (adaptive.AdaptiveGovernor.intervalChangeCb g); reflexivity.
Qed.

Lemma filesSatisfy_same_files w w' :
  adaptive.World.files w' = adaptive.World.files w ->
  adaptive.filesSatisfy json_Unmarshal P w ->
  adaptive.filesSatisfy json_Unmarshal P w'.
Proof. intros Heq Hfiles path file state. rewrite Heq. apply Hfiles. Qed.

Lemma ProcessLoadMetrics_invariant g w load io :
  Inv (g, w) -> Inv (adaptive.ProcessLoadMetrics math_Pow json_Marshal g load io w).
Proof.
  intros (Hbase & Hcur & Hfiles). simpl in Hbase, Hcur, Hfiles.
  unfold adaptive.ProcessLoadMetrics.
  set (load' := if (load <? 0)%float then _ else _).
  set (g1 := adaptive.with_EMAs g _ _).
  assert (Hbase1 : adaptive.AdaptiveGovernor.baseInterval g1 = B) by exact Hbase.
  assert (Hcur1 : P (adaptive.AdaptiveGovernor.currentInterval g1)) by exact Hcur.
  pose proof (adjustInterval_files g1 w) as Hf.
  pose proof (adjustInterval_base g1 w) as Hb.
  pose proof (adjustInterval_current g1 w Hbase1 Hcur1) as Hc.
  destruct (adaptive.adjustInterval math_Pow g1 w) as [g2 w2]. simpl in Hf, Hb, Hc.
  assert (Hfiles2 : adaptive.filesSatisfy json_Unmarshal P w2)
    by (now apply (filesSatisfy_same_files w)).
  destruct (Time.Sub _ _ >? Time.Minute); unfold adaptive.governorInvariant; simpl.
  - split; [congruence|]. split; [exact Hc|]. now apply saveState_files.
  - split; [congruence|]. split; [exact Hc|exact Hfiles2].
Qed.

Lemma Reset_invariant g w remove_ok :
  Inv (g, w) -> Inv (adaptive.Reset g remove_ok w).
Proof.
  intros (Hbase & Hcur & Hfiles). simpl in Hbase, Hcur, Hfiles.
  unfold adaptive.Reset, adaptive.governorInvariant. simpl. split; [exact Hbase|].
  split; [rewrite Hbase; exact P_base|].
  intros path file state. rewrite callIntervalChangeCb_files.
  destruct (negb _); [|apply Hfiles].
  destruct remove_ok; [|apply Hfiles]. simpl.
  intros Hfile Hstate. apply lookup_delete_Some in Hfile as [_ Hfile].
  exact (Hfiles _ _ _ Hfile Hstate).
Qed.

Lemma restoreState_base g io w :
  adaptive.AdaptiveGovernor.baseInterval (adaptive.restoreState json_Unmarshal g io w)
  = adaptive.AdaptiveGovernor.baseInterval g.
Proof.
  unfold adaptive.restoreState.
  destruct (String.eqb _ _); [reflexivity|].
  destruct (if adaptive.IO.Stat_ok io then _ else _) as [info|]; [|reflexivity].
  destruct (Time.Sub _ _ >? Time.Hour); [reflexivity|].
  destruct (negb _); [reflexivity|].
  destruct (json_Unmarshal _); reflexivity.
Qed.

Lemma restoreState_current g io w :
  adaptive.filesSatisfy json_Unmarshal P w ->
  P (adaptive.AdaptiveGovernor.currentInterval g) ->
  P (adaptive.AdaptiveGovernor.currentInterval (adaptive.restoreState json_Unmarshal g io w)).
Proof.
  intros Hfiles Hcur. unfold adaptive.restoreState.
  destruct (String.eqb _ _); [exact Hcur|].
  destruct (if adaptive.IO.Stat_ok io then _ else _) as [info|] eqn:Hinfo; [|exact Hcur].
  destruct (Time.Sub _ _ >? Time.Hour); [exact Hcur|].
  destruct (negb _); [exact Hcur|].
  destruct (json_Unmarshal _) as [state|] eqn:Hstate; [|exact Hcur]. simpl.
  destruct (adaptive.IO.Stat_ok io); [|discriminate].
  exact (Hfiles _ _ _ Hinfo Hstate).
Qed.

Lemma runOperations_invariant ops :
  forall gw, Inv gw ->
             Inv (adaptive.runOperations math_Pow json_Marshal json_Unmarshal gw ops).
Proof.
  induction ops as [|op ops IH]; intros [g w] Hinv; [exact Hinv|].
  unfold adaptive.runOperations. simpl. apply IH. destruct op as [load io|remove_ok|io].
  - now apply ProcessLoadMetrics_invariant.
  - now apply Reset_invariant.
  - destruct Hinv as (Hbase & Hcur & Hfiles). simpl in Hbase, Hcur, Hfiles.
    unfold adaptive.governorInvariant. simpl. rewrite restoreState_base.
    split; [exact Hbase|]. split; [now apply restoreState_current|exact Hfiles].
Qed.

(** The whole life of a governor: construction, then any operations. *)
Lemma governor_life baseInterval stateDir io w ops :
  B = Z.max baseInterval adaptive.MinimumInterval ->
  adaptive.filesSatisfy json_Unmarshal P w ->
  P (adaptive.AdaptiveGovernor.currentInterval
       (fst (adaptive.runOperations math_Pow json_Marshal json_Unmarshal
               (adaptive.NewAdaptiveGovernor json_Unmarshal baseInterval stateDir io w, w)
               ops))).
Proof.
  intros HB Hfiles.
  assert (Hclamp : (if baseInterval <? adaptive.MinimumInterval
                    then adaptive.MinimumInterval else baseInterval) = B).
  { rewrite HB. destruct (Z.ltb_spec baseInterval adaptive.MinimumInterval); lia. }
  apply (runOperations_invariant ops). unfold adaptive.governorInvariant. simpl.
  unfold adaptive.NewAdaptiveGovernor. rewrite restoreState_base. simpl.
  split; [exact Hclamp|]. split; [|exact Hfiles].
  apply restoreState_current; [exact Hfiles|]. simpl. rewrite Hclamp. exact P_base.
Qed.

End GovernorBounds.

Lemma NewAdaptiveGovernor_base json_Unmarshal baseInterval stateDir io w :
  adaptive.AdaptiveGovernor.baseInterval
    (adaptive.NewAdaptiveGovernor json_Unmarshal baseInterval stateDir io w)
  = Z.max baseInterval adaptive.MinimumInterval.
Proof.
  unfold adaptive.NewAdaptiveGovernor. rewrite restoreState_base. simpl.
  destruct (Z.ltb_spec baseInterval adaptive.MinimumInterval); lia.
Qed.

Lemma NewAdaptiveGovernor_cold json_Unmarshal baseInterval io w :
  adaptive.AdaptiveGovernor.currentInterval
    (adaptive.NewAdaptiveGovernor json_Unmarshal baseInterval "" io w)
  = Z.max baseInterval adaptive.MinimumInterval.
Proof.
  unfold adaptive.NewAdaptiveGovernor, adaptive.restoreState. simpl.
  destruct (Z.ltb_spec baseInterval adaptive.MinimumInterval); lia.
Qed.

(** C3, as stated, fails: the constructor raises a base interval below
    the minimum but does not lower one above the maximum. A governor
    built with a base interval of 120 s and no state directory has a
    base and a current interval of 120 s, above the 60 s bound.
    Likewise the interval of a restored state is adopted unchecked: a
    state file one minute old that holds an interval of 1 ns gives a
    governor whose current interval is 1 ns, below the 500 ms bound. *)
Lemma governor_bounds_counterexample :
  ~ Stated.governor_bounds_at_construction Scenario.noUnmarshal
      (120 * Time.Second) "" (Scenario.healthyIO 0) Scenario.emptyWorld /\
  ~ Stated.governor_bounds_at_construction Scenario.binaryUnmarshal
      Time.Second "/var/otel" (Scenario.healthyIO 60) Scenario.worldWithTinyState.
Proof.
  split.
  - intros [[_ Hcur] _]. vm_compute in Hcur. now apply Hcur.
  - intros [[Hcur _] _]. vm_compute in Hcur. now apply Hcur.
Qed.

(** A restored state is adopted as it is, whatever its interval. *)
Lemma restoreState_adopts json_Unmarshal g io w file state :
  adaptive.AdaptiveGovernor.stateDir g <> "" ->
  adaptive.IO.Stat_ok io = true ->
  adaptive.IO.ReadFile_ok io = true ->
  adaptive.World.files w
    !! adaptive.filepath_Join (adaptive.AdaptiveGovernor.stateDir g) adaptive.StateFileName
  = Some file ->
  Time.Sub (adaptive.IO.now io) (adaptive.File.ModTime file) <= Time.Hour ->
  json_Unmarshal (adaptive.File.data file) = Some state ->
  let g' := adaptive.restoreState json_Unmarshal g io w in
  adaptive.EMA_Value (adaptive.AdaptiveGovernor.fastEMA g')
    = adaptive.GovernorState.FastEMAValue state /\
  adaptive.EMA_Value (adaptive.AdaptiveGovernor.slowEMA g')
    = adaptive.GovernorState.SlowEMAValue state /\
  adaptive.AdaptiveGovernor.currentInterval g' = adaptive.GovernorState.Interval state /\
  adaptive.AdaptiveGovernor.lastSnapshotTime g' = adaptive.GovernorState.Timestamp state.
Proof.
  intros Hdir Hstat Hread Hfile Hfresh Hstate. unfold adaptive.restoreState.
  apply String.eqb_neq in Hdir. rewrite Hdir, Hstat, Hfile.
  destruct (Z.gtb_spec (Time.Sub (adaptive.IO.now io) (adaptive.File.ModTime file))
                       Time.Hour); [lia|].
  rewrite Hread, Hstate. simpl. auto.
Qed.

(** C3, amended: the constructor clamps the base interval below by
    MIN_INTERVAL only, and without a state directory the current
    interval starts at the clamped base. For a base interval of at most
    MAX_INTERVAL and a codec that gives back the interval it was given:
    if every state file that parses holds an interval of at most
    MAX_INTERVAL, then currentInterval <= MAX_INTERVAL after
    construction and after any sequence of ProcessLoadMetrics, Reset
    and state-restore operations; if moreover those intervals are at
    least MIN_INTERVAL and the exponential back-off does not scale the
    base interval below MIN_INTERVAL, then MIN_INTERVAL <=
    currentInterval <= MAX_INTERVAL throughout. *)
Theorem governor_bounds_conditional :
  forall (math_Pow : float -> float -> float)
         (json_Marshal : adaptive.GovernorState.t -> option string)
         (json_Unmarshal : string -> option adaptive.GovernorState.t)
         (baseInterval : Time.Duration) (stateDir : string)
         (io : adaptive.IO.t) (w : adaptive.World.t),
    let g := adaptive.NewAdaptiveGovernor json_Unmarshal baseInterval stateDir io w in
    adaptive.AdaptiveGovernor.baseInterval g = Z.max baseInterval adaptive.MinimumInterval /\
    (stateDir = "" ->
     adaptive.AdaptiveGovernor.currentInterval g
     = Z.max baseInterval adaptive.MinimumInterval) /\
    (baseInterval <= adaptive.MaximumInterval ->
     adaptive.codecKeepsInterval json_Marshal json_Unmarshal ->
     (adaptive.filesSatisfy json_Unmarshal (fun i => i <= adaptive.MaximumInterval) w ->
      forall ops,
        adaptive.AdaptiveGovernor.currentInterval
          (fst (adaptive.runOperations math_Pow json_Marshal json_Unmarshal (g, w) ops))
        <= adaptive.MaximumInterval) /\
     (adaptive.filesWithinBounds json_Unmarshal w ->
      adaptive.backoffAboveMinimum math_Pow (Z.max baseInterval adaptive.MinimumInterval) ->
      forall ops,
        adaptive.withinBounds
          (adaptive.AdaptiveGovernor.currentInterval
             (fst (adaptive.runOperations math_Pow json_Marshal json_Unmarshal (g, w) ops))))).
Proof.
  intros math_Pow json_Marshal json_Unmarshal baseInterval stateDir io w g.
  split; [apply NewAdaptiveGovernor_base|]. split.
  - intros ->. apply NewAdaptiveGovernor_cold.
  - intros Hmax Hcodec.
    assert (HB : adaptive.withinBounds (Z.max baseInterval adaptive.MinimumInterval)).
    { unfold adaptive.withinBounds, adaptive.MinimumInterval, adaptive.MaximumInterval,
        Time.Millisecond, Time.Second in *. lia. }
    split.
    + intros Hfiles ops.
      apply (governor_life math_Pow json_Marshal json_Unmarshal
               (fun i => i <= adaptive.MaximumInterval)
               (Z.max baseInterval adaptive.MinimumInterval));
        [apply HB | | exact Hcodec | reflexivity | exact Hfiles].
      intros fastValue. apply newIntervalFor_upper. apply HB.
    + intros Hfiles Hback ops.
      apply (governor_life math_Pow json_Marshal json_Unmarshal adaptive.withinBounds
               (Z.max baseInterval adaptive.MinimumInterval));
        [exact HB | | exact Hcodec | reflexivity | exact Hfiles].
      intros fastValue. split.
      * apply newIntervalFor_lower; [apply HB|exact Hback].
      * apply newIntervalFor_upper. apply HB.
Qed.

(** The binary codec is lossless. *)
Lemma positiveOfBits_bitsOfPositive p :
  Scenario.positiveOfBits (Scenario.bitsOfPositive p) = Some p.
Proof.
  induction p as [p IH|p IH|]; simpl; [| |reflexivity].
  - rewrite IH. reflexivity.
  - rewrite IH. reflexivity.
Qed.

Lemma binary_codec_round_trip state :
  exists data, Scenario.binaryMarshal state = Some data /\
               Scenario.binaryUnmarshal data = Some state.
Proof.
  eexists. split; [reflexivity|]. unfold Scenario.binaryUnmarshal.
  rewrite positiveOfBits_bitsOfPositive. apply decode_encode.
Qed.

Lemma binary_codec_keeps_interval :
  adaptive.codecKeepsInterval Scenario.binaryMarshal Scenario.binaryUnmarshal.
Proof.
  intros state data state' Hm Hu.
  destruct (binary_codec_round_trip state) as (data' & Hm' & Hu').
  assert (data' = data) by congruence. subst data'.
  assert (state' = state) by congruence. now subst.
Qed.

Lemma flatPow_backoff_above_minimum :
  adaptive.backoffAboveMinimum Scenario.flatPow (Z.max Time.Second adaptive.MinimumInterval).
Proof. intros fastValue _ _. vm_compute. discriminate. Qed.

(** A governor with a base interval of one second that persists under
    [/var/otel]: a critical load, a restore, a reset. *)
Lemma governor_bounds_conditional_witness :
  adaptive.withinBounds
    (adaptive.AdaptiveGovernor.currentInterval
       (fst (adaptive.runOperations Scenario.flatPow Scenario.binaryMarshal
               Scenario.binaryUnmarshal
               (adaptive.NewAdaptiveGovernor Scenario.binaryUnmarshal Time.Second
                  "/var/otel" (Scenario.healthyIO 0) Scenario.emptyWorld,
                Scenario.emptyWorld)
               [adaptive.OpProcessLoadMetrics 0.95 (Scenario.healthyIO 100);
                adaptive.OpRestoreState (Scenario.healthyIO 200);
                adaptive.OpReset true]))).
Proof.
  refine (proj2 (proj2 (proj2 (governor_bounds_conditional Scenario.flatPow
                                 Scenario.binaryMarshal Scenario.binaryUnmarshal Time.Second
                                 "/var/otel" (Scenario.healthyIO 0) Scenario.emptyWorld))
                        _ binary_codec_keeps_interval)
            _ flatPow_backoff_above_minimum _).
  - vm_compute. discriminate.
  - intros path file state Hfile. simpl in Hfile. rewrite lookup_empty in Hfile.
    discriminate.
Defined.

(** ** Governor: persistence *)

Section GovernorPersistence.

Variable json_Marshal : adaptive.GovernorState.t -> option string.
Variable json_Unmarshal : string -> option adaptive.GovernorState.t.

(** What a successful [saveState] leaves at the path of the state file. *)
Lemma saveState_writes g io w data :
  adaptive.AdaptiveGovernor.stateDir g <> "" ->
  adaptive.IO.MkdirAll_ok io = true ->
  adaptive.IO.WriteFile_ok io = true ->
  adaptive.IO.Rename_ok io = true ->
  json_Marshal
    {| adaptive.GovernorState.FastEMAValue :=
         adaptive.EMA_Value (adaptive.AdaptiveGovernor.fastEMA g);
       adaptive.GovernorState.SlowEMAValue :=
         adaptive.EMA_Value (adaptive.AdaptiveGovernor.slowEMA g);
       adaptive.GovernorState.Interval := adaptive.AdaptiveGovernor.currentInterval g;
       adaptive.GovernorState.Timestamp := adaptive.IO.now io |} = Some data ->
  adaptive.World.files (adaptive.saveState json_Marshal g io w)
    !! adaptive.filepath_Join (adaptive.AdaptiveGovernor.stateDir g) adaptive.StateFileName
  = Some {| adaptive.File.data := data; adaptive.File.ModTime := adaptive.IO.now io |}.
Proof.
  intros Hdir Hmk Hwr Hrn Hdata. unfold adaptive.saveState.
  apply String.eqb_neq in Hdir. rewrite Hdir, Hmk, Hdata, Hwr, Hrn. simpl.
  apply lookup_insert_eq.
Qed.

End GovernorPersistence.

(** C7: for a governor with a non-empty state directory and finite EMA
    values, [saveState] followed by the construction of a new governor
    on the same state directory, at most one hour later, restores
    fastEMA, slowEMA and currentInterval equal to the values saved.
    The file operations are those of a healthy system and the codec
    round-trips every state it can encode (finite averages, 64-bit
    interval, timestamp of the years 0 to 9999). *)
Theorem state_round_trip :
  forall (json_Marshal : adaptive.GovernorState.t -> option string)
         (json_Unmarshal : string -> option adaptive.GovernorState.t)
         (g : adaptive.AdaptiveGovernor.t) (ioSave ioNew : adaptive.IO.t)
         (w : adaptive.World.t) (baseInterval : Time.Duration),
    adaptive.codecRoundTrips json_Marshal json_Unmarshal ->
    adaptive.AdaptiveGovernor.stateDir g <> "" ->
    is_finite (adaptive.EMA_Value (adaptive.AdaptiveGovernor.fastEMA g)) = true ->
    is_finite (adaptive.EMA_Value (adaptive.AdaptiveGovernor.slowEMA g)) = true ->
    Int64.in_range (adaptive.AdaptiveGovernor.currentInterval g) ->
    -62167219200 * Time.Second <= adaptive.IO.now ioSave < 253402300800 * Time.Second ->
    adaptive.IO.MkdirAll_ok ioSave = true ->
    adaptive.IO.WriteFile_ok ioSave = true ->
    adaptive.IO.Rename_ok ioSave = true ->
    adaptive.IO.Stat_ok ioNew = true ->
    adaptive.IO.ReadFile_ok ioNew = true ->
    Time.Sub (adaptive.IO.now ioNew) (adaptive.IO.now ioSave) <= Time.Hour ->
    let w' := adaptive.saveState json_Marshal g ioSave w in
    let g' := adaptive.NewAdaptiveGovernor json_Unmarshal baseInterval
                (adaptive.AdaptiveGovernor.stateDir g) ioNew w' in
    adaptive.EMA_Value (adaptive.AdaptiveGovernor.fastEMA g')
      = adaptive.EMA_Value (adaptive.AdaptiveGovernor.fastEMA g) /\
    adaptive.EMA_Value (adaptive.AdaptiveGovernor.slowEMA g')
      = adaptive.EMA_Value (adaptive.AdaptiveGovernor.slowEMA g) /\
    adaptive.AdaptiveGovernor.currentInterval g'
      = adaptive.AdaptiveGovernor.currentInterval g.
Proof.
  intros json_Marshal json_Unmarshal g ioSave ioNew w baseInterval
    Hcodec Hdir Hfast Hslow Hint Hts Hmk Hwr Hrn Hstat Hread Hfresh w' g'.
  destruct (Hcodec
              {| adaptive.GovernorState.FastEMAValue :=
                   adaptive.EMA_Value (adaptive.AdaptiveGovernor.fastEMA g);
                 adaptive.GovernorState.SlowEMAValue :=
                   adaptive.EMA_Value (adaptive.AdaptiveGovernor.slowEMA g);
                 adaptive.GovernorState.Interval := adaptive.AdaptiveGovernor.currentInterval g;
                 adaptive.GovernorState.Timestamp := adaptive.IO.now ioSave |})
    as (data & Hdata & Hback).
  { split; [exact Hfast|]. split; [exact Hslow|]. split; [exact Hint|exact Hts]. }
  pose proof (saveState_writes json_Marshal g ioSave w data Hdir Hmk Hwr Hrn Hdata) as Hfile.
  subst g'. unfold adaptive.NewAdaptiveGovernor.
  match goal with
  | |- context [adaptive.restoreState _ ?g0 _ _] =>
      destruct (restoreState_adopts json_Unmarshal g0 ioNew w' _ _
                  Hdir Hstat Hread Hfile Hfresh Hback) as (Hf & Hs & Hc & _)
  end.
  rewrite Hf, Hs, Hc. simpl. auto.
Qed.

(** The busy governor saved at second 1000 and a new governor built
    with another base interval half an hour later. *)
Lemma state_round_trip_witness :
  let w' := adaptive.saveState Scenario.binaryMarshal Scenario.busyGovernor
              (Scenario.healthyIO 1000) Scenario.emptyWorld in
  let g' := adaptive.NewAdaptiveGovernor Scenario.binaryUnmarshal (5 * Time.Second)
              "/var/otel" (Scenario.healthyIO 2800) w' in
  adaptive.EMA_Value (adaptive.AdaptiveGovernor.fastEMA g') = 0.8%float /\
  adaptive.EMA_Value (adaptive.AdaptiveGovernor.slowEMA g') = 0.25%float /\
  adaptive.AdaptiveGovernor.currentInterval g' = 2 * Time.Second.
Proof.
  apply (state_round_trip Scenario.binaryMarshal Scenario.binaryUnmarshal
           Scenario.busyGovernor (Scenario.healthyIO 1000) (Scenario.healthyIO 2800)
           Scenario.emptyWorld (5 * Time.Second)).
  - intros state _. apply binary_codec_round_trip.
  - discriminate.
  - vm_compute. reflexivity.
  - vm_compute. reflexivity.
  - vm_compute. split; discriminate.
  - vm_compute. split; [discriminate|reflexivity].
  - reflexivity.
  - reflexivity.
  - reflexivity.
  - reflexivity.
  - reflexivity.
  - vm_compute. discriminate.
Defined.

(** ** Order of binary64 values *)

(** [x <= y] excludes [y < x]. *)
Lemma SFleb_not_ltb x y : SFleb x y = true -> SFltb y x = false.
Proof.
  unfold SFleb, SFltb.
  destruct x as [s1|s1| |s1 m1 e1], y as [s2|s2| |s2 m2 e2]; simpl;
    try destruct s1; try destruct s2; simpl; try congruence.
  - rewrite (Z.compare_antisym e1 e2). destruct (e1 ?= e2); simpl; try congruence.
    change (Pos.compare_cont Eq m2 m1) with (m2 ?= m1)%positive.
    change (Pos.compare_cont Eq m1 m2) with (m1 ?= m2)%positive.
    rewrite (Pos.compare_antisym m1 m2). destruct (m1 ?= m2)%positive; simpl; congruence.
  - rewrite (Z.compare_antisym e1 e2). destruct (e1 ?= e2); simpl; try congruence.
    change (Pos.compare_cont Eq m2 m1) with (m2 ?= m1)%positive.
    change (Pos.compare_cont Eq m1 m2) with (m1 ?= m2)%positive.
    rewrite (Pos.compare_antisym m1 m2). destruct (m1 ?= m2)%positive; simpl; congruence.
Qed.

(** [x <= a] and [a < b], for positive [a] and [b] of the same
    exponent, exclude [b < x]. *)
Lemma SFleb_below_same_exponent x m1 m2 e :
  (m1 < m2)%positive ->
  SFleb x (S754_finite false m1 e) = true -> SFltb (S754_finite false m2 e) x = false.
Proof.
  intros Hm. unfold SFleb, SFltb.
  destruct x as [s|s| |s m e']; simpl; try destruct s; simpl; try congruence.
  rewrite (Z.compare_antisym e' e).
  destruct (Z.compare_spec e' e) as [->|Hlt|Hgt]; simpl; try congruence.
  change (Pos.compare_cont Eq m m1) with (m ?= m1)%positive.
  change (Pos.compare_cont Eq m2 m) with (m2 ?= m)%positive.
  destruct (Pos.compare_spec m m1); try discriminate;
    destruct (Pos.compare_spec m2 m); try reflexivity; lia.
Qed.

Lemma float_leb_not_ltb (x y : float) : (x <=? y)%float = true -> (y <? x)%float = false.
Proof. rewrite leb_spec, ltb_spec. apply SFleb_not_ltb. Qed.

Lemma Prim2SF_HighLoadThreshold :
  Prim2SF adaptive.HighLoadThreshold = S754_finite false 6305039478318694 (-53).
Proof. vm_compute. reflexivity. Qed.

Lemma Prim2SF_CriticalLoadThreshold :
  Prim2SF adaptive.CriticalLoadThreshold = S754_finite false 8106479329266893 (-53).
Proof. vm_compute. reflexivity. Qed.

(** A value at most 0.7 is not above 0.9. *)
Lemma at_most_high_not_critical (x : float) :
  (x <=? adaptive.HighLoadThreshold)%float = true ->
  (adaptive.CriticalLoadThreshold <? x)%float = false.
Proof.
  rewrite leb_spec, ltb_spec, Prim2SF_HighLoadThreshold, Prim2SF_CriticalLoadThreshold.
  apply SFleb_below_same_exponent. reflexivity.
Qed.

(** ** Governor: interval policy *)

Section GovernorPolicy.

Variable math_Pow : float -> float -> float.
Variable json_Marshal : adaptive.GovernorState.t -> option string.

(** The three load regions of the candidate interval. *)
Lemma newIntervalFor_regions baseInterval fastValue :
  ((fastValue <=? adaptive.HighLoadThreshold)%float = true ->
   adaptive.newIntervalFor math_Pow baseInterval fastValue = baseInterval) /\
  ((adaptive.HighLoadThreshold <? fastValue)%float = true ->
   (fastValue <=? adaptive.CriticalLoadThreshold)%float = true ->
   adaptive.newIntervalFor math_Pow baseInterval fastValue
   = Z.min (adaptive.backoffInterval math_Pow baseInterval fastValue)
           adaptive.MaximumInterval) /\
  ((adaptive.CriticalLoadThreshold <? fastValue)%float = true ->
   adaptive.newIntervalFor math_Pow baseInterval fastValue = adaptive.MaximumInterval).
Proof.
  unfold adaptive.newIntervalFor. split; [|split].
  - intros Hle. rewrite (at_most_high_not_critical _ Hle), (float_leb_not_ltb _ _ Hle).
    reflexivity.
  - intros Hhigh Hle. rewrite (float_leb_not_ltb _ _ Hle), Hhigh.
    destruct (Z.gtb_spec (adaptive.backoffInterval math_Pow baseInterval fastValue)
                         adaptive.MaximumInterval); lia.
  - intros Hcrit. now rewrite Hcrit.
Qed.

Lemma saveState_callbackLog g io w :
  adaptive.World.callbackLog (adaptive.saveState json_Marshal g io w)
  = adaptive.World.callbackLog w.
Proof.
  unfold adaptive.saveState.
  destruct (String.eqb _ _); [reflexivity|].
  destruct (negb (adaptive.IO.MkdirAll_ok io)); [reflexivity|].
  destruct (json_Marshal _); [|reflexivity].
  destruct (negb (adaptive.IO.WriteFile_ok io)); [reflexivity|].
  destruct (negb (adaptive.IO.Rename_ok io)); reflexivity.
Qed.

(** [ProcessLoadMetrics] is the update of the two averages followed by
    [adjustInterval]; saving the state touches neither the governor's
    interval nor the callback. *)
Lemma ProcessLoadMetrics_adjusts g load io w :
  let g1 := adaptive.with_EMAs g
              (adaptive.EMA_Update (adaptive.AdaptiveGovernor.fastEMA g) (adaptive.clampLoad load))
              (adaptive.EMA_Update (adaptive.AdaptiveGovernor.slowEMA g) (adaptive.clampLoad load)) in
  let r := adaptive.ProcessLoadMetrics math_Pow json_Marshal g load io w in
  adaptive.AdaptiveGovernor.fastEMA (fst r) = adaptive.AdaptiveGovernor.fastEMA g1 /\
  adaptive.AdaptiveGovernor.currentInterval (fst r)
  = adaptive.AdaptiveGovernor.currentInterval (fst (adaptive.adjustInterval math_Pow g1 w)) /\
  adaptive.World.callbackLog (snd r)
  = adaptive.World.callbackLog (snd (adaptive.adjustInterval math_Pow g1 w)).
Proof.
  intros g1 r. subst r. unfold adaptive.ProcessLoadMetrics. fold (adaptive.clampLoad load). fold g1.
  assert (Hfast : adaptive.AdaptiveGovernor.fastEMA (fst (adaptive.adjustInterval math_Pow g1 w))
                  = adaptive.AdaptiveGovernor.fastEMA g1).
  { unfold adaptive.adjustInterval. destruct (0.1 <? _)%float; reflexivity. }
  destruct (adaptive.adjustInterval math_Pow g1 w) as [g2 w2]. simpl in *.
  destruct (Time.Sub _ _ >? Time.Minute); simpl.
  - rewrite saveState_callbackLog. auto.
  - auto.
Qed.

End GovernorPolicy.

(** C6: after [ProcessLoadMetrics(load)], with [fast] the value of the
    fast EMA, the candidate interval is computed from [fast] (and the
    base interval) alone: it is baseInterval when fast <= 0.70,
    baseInterval * 2^((fast/0.70) - 1) clamped to MAX_INTERVAL when
    0.70 < fast <= 0.90, and MAX_INTERVAL when fast > 0.90. With
    [change] the float64 quotient |candidate - currentInterval| /
    currentInterval, as the source computes it (the difference taken in
    64 bits, both operands converted to float64): when change > 0.10,
    currentInterval is set to the candidate and the registered callback
    is called once, with the candidate; otherwise currentInterval is
    unchanged and the callback is not called. *)
Theorem interval_policy :
  forall (math_Pow : float -> float -> float)
         (json_Marshal : adaptive.GovernorState.t -> option string)
         (g : adaptive.AdaptiveGovernor.t) (load : float) (io : adaptive.IO.t)
         (w : adaptive.World.t),
    let r := adaptive.ProcessLoadMetrics math_Pow json_Marshal g load io w in
    let fast := adaptive.EMA_Value (adaptive.AdaptiveGovernor.fastEMA (fst r)) in
    let baseInterval := adaptive.AdaptiveGovernor.baseInterval g in
    let current := adaptive.AdaptiveGovernor.currentInterval g in
    let candidate := adaptive.newIntervalFor math_Pow baseInterval fast in
    let change := (abs (F64.of_int (Int64.sub candidate current))
                   / F64.of_int current)%float in
    ((fast <=? adaptive.HighLoadThreshold)%float = true -> candidate = baseInterval) /\
    ((adaptive.HighLoadThreshold <? fast)%float = true ->
     (fast <=? adaptive.CriticalLoadThreshold)%float = true ->
     candidate = Z.min (F64.to_int64
                          (F64.of_int baseInterval
                           * math_Pow 2 (fast / adaptive.HighLoadThreshold - 1))%float)
                       adaptive.MaximumInterval) /\
    ((adaptive.CriticalLoadThreshold <? fast)%float = true ->
     candidate = adaptive.MaximumInterval) /\
    ((0.1 <? change)%float = true ->
     adaptive.AdaptiveGovernor.currentInterval (fst r) = candidate /\
     adaptive.World.callbackLog (snd r)
     = adaptive.World.callbackLog w
       ++ (if adaptive.AdaptiveGovernor.intervalChangeCb g then [candidate] else [])) /\
    ((0.1 <? change)%float = false ->
     adaptive.AdaptiveGovernor.currentInterval (fst r) = current /\
     adaptive.World.callbackLog (snd r) = adaptive.World.callbackLog w).
Proof.
  intros math_Pow json_Marshal g load io w r fast baseInterval current candidate change.
  destruct (newIntervalFor_regions math_Pow baseInterval fast) as (Hlow & Hmid & Hhigh).
  split; [exact Hlow|]. split; [exact Hmid|]. split; [exact Hhigh|].
  destruct (ProcessLoadMetrics_adjusts math_Pow json_Marshal g load io w)
    as (Hfast & Hcur & Hlog).
  fold r in Hfast, Hcur, Hlog.
  assert (Hcand : candidate
                  = adaptive.newIntervalFor math_Pow baseInterval
                      (adaptive.EMA_Value (adaptive.AdaptiveGovernor.fastEMA (fst r))))
    by reflexivity.
  rewrite Hfast in Hcand. simpl in Hcand.
  rewrite Hcur, Hlog. unfold adaptive.adjustInterval. simpl.
  fold baseInterval current. rewrite <- Hcand. fold change.
  split; intros Hsig; rewrite Hsig; simpl.
  - split; [reflexivity|]. unfold adaptive.callIntervalChangeCb. simpl.
    destruct (adaptive.AdaptiveGovernor.intervalChangeCb g); simpl;
      [reflexivity | now rewrite app_nil_r].
  - auto.
Qed.

(** ** Sign of a binary64 difference

    For valid binary floats [x >= y >= 0] with [y] finite, the rounded
    difference [x - y] is not below zero: the aligned mantissas are
    ordered as the values are, and rounding a non-negative integer
    mantissa gives a non-negative result. *)

Section SignOfDifference.

Variables prec emax : Z.
Hypothesis prec_pos : 0 < prec.

Lemma digits2_pos_size m : digits2_pos m = Pos.size m.
Proof. induction m as [m IH|m IH|]; simpl; congruence. Qed.

Lemma digits2_pos_bounds m :
  2 ^ (Zpos (digits2_pos m) - 1) <= Zpos m < 2 ^ Zpos (digits2_pos m).
Proof.
  rewrite digits2_pos_size. split.
  - pose proof (Pos.size_le m) as H.
    assert (H2 : 2 ^ Zpos (Pos.size m) <= 2 * Zpos m).
    { rewrite <- Pos2Z.inj_pow. change (2 * Zpos m) with (Zpos m~0). lia. }
    assert (H3 : 2 ^ Zpos (Pos.size m) = 2 * 2 ^ (Zpos (Pos.size m) - 1)).
    { rewrite <- Z.pow_succ_r by lia. f_equal. lia. }
    lia.
  - pose proof (Pos.size_gt m) as H. rewrite <- Pos2Z.inj_pow. lia.
Qed.

Lemma iter_xO_value m d : Zpos (Pos.iter xO m d) = Zpos m * 2 ^ Zpos d.
Proof.
  induction d as [|d IH] using Pos.peano_ind.
  - simpl. lia.
  - rewrite Pos.iter_succ, Pos2Z.inj_xO, IH, Pos2Z.inj_succ, Z.pow_succ_r by lia. lia.
Qed.

Lemma shl_align_value m e e' :
  e' <= e -> Zpos (fst (shl_align m e e')) = Zpos m * 2 ^ (e - e').
Proof.
  intros Hle. unfold shl_align. destruct (e' - e) as [|d|d] eqn:Hd; simpl.
  - replace (e - e') with 0 by lia. lia.
  - lia.
  - rewrite iter_xO_value. f_equal. f_equal. lia.
Qed.

Lemma iter_pos_invariant {A : Type} (P : A -> Prop) (f : A -> A) :
  (forall a, P a -> P (f a)) -> forall n a, P a -> P (SpecFloat.iter_pos f n a).
Proof.
  intros Hf. induction n as [n IH|n IH|]; intros a Ha; simpl; auto.
Qed.

Lemma shr_1_nonneg mrs : 0 <= shr_m mrs -> 0 <= shr_m (shr_1 mrs).
Proof.
  destruct mrs as [m r s]. simpl. destruct m as [|p|p]; [simpl; lia| |lia].
  destruct p; simpl; lia.
Qed.

Lemma shr_fexp_nonneg m e l :
  0 <= m -> 0 <= shr_m (fst (shr_fexp prec emax m e l)).
Proof.
  intros Hm. unfold shr_fexp, shr.
  assert (H0 : 0 <= shr_m (shr_record_of_loc m l)).
  { destruct l as [|[]]; simpl; exact Hm. }
  destruct (fexp prec emax (Zdigits2 m + e) - e); simpl; try exact H0.
  apply iter_pos_invariant; [exact shr_1_nonneg|exact H0].
Qed.

Lemma binary_round_aux_nonneg m e l :
  0 <= m -> SFnonneg (binary_round_aux prec emax false m e l) = true.
Proof.
  intros Hm. unfold binary_round_aux.
  pose proof (shr_fexp_nonneg m e l Hm) as H1.
  destruct (shr_fexp prec emax m e l) as [mrs' e']. simpl in H1.
  assert (H2 : 0 <= round_nearest_even (shr_m mrs') (loc_of_shr_record mrs')).
  { unfold round_nearest_even. destruct (loc_of_shr_record mrs') as [|[]]; try lia.
    destruct (Z.even (shr_m mrs')); lia. }
  pose proof (shr_fexp_nonneg _ e' loc_Exact H2) as H3.
  destruct (shr_fexp prec emax _ e' loc_Exact) as [mrs'' e'']. simpl in H3.
  destruct (shr_m mrs'') as [|p|p]; [reflexivity| |lia].
  destruct (e'' <=? emax - prec); reflexivity.
Qed.

Lemma binary_normalize_nonneg m e :
  0 <= m -> SFnonneg (binary_normalize prec emax m e false) = true.
Proof.
  intros Hm. unfold binary_normalize. destruct m as [|p|p]; [reflexivity| |lia].
  unfold binary_round.
  destruct (shl_align p e (fexp prec emax (Zpos (digits2_pos p) + e))) as [mz ez].
  apply binary_round_aux_nonneg. lia.
Qed.

Lemma SFnonneg_leb x : SFnonneg x = true -> SFleb (S754_zero false) x = true.
Proof. destruct x as [s|s| |s m e]; try destruct s; simpl; intros H; try discriminate; reflexivity. Qed.

(** Canonical mantissas: comparison of exponents decides. *)
Lemma canonical_digits m e :
  canonical_mantissa prec emax m e = true ->
  Zpos (digits2_pos m) <= prec /\ SpecFloat.emin prec emax <= e /\
  (SpecFloat.emin prec emax < e -> Zpos (digits2_pos m) = prec).
Proof.
  unfold canonical_mantissa, fexp. intros H. apply Z.eqb_eq in H. lia.
Qed.

Lemma aligned_le mx ex my ey :
  bounded prec emax mx ex = true -> bounded prec emax my ey = true ->
  SFleb (S754_finite false my ey) (S754_finite false mx ex) = true ->
  Zpos (fst (shl_align my ey (Z.min ex ey))) <= Zpos (fst (shl_align mx ex (Z.min ex ey))).
Proof.
  unfold bounded. intros Hx Hy Hle.
  apply andb_prop in Hx as [Hx _]. apply andb_prop in Hy as [Hy _].
  apply canonical_digits in Hx as (Hdx & Hex & Hfx).
  apply canonical_digits in Hy as (Hdy & Hey & Hfy).
  rewrite !shl_align_value by lia.
  unfold SFleb in Hle. simpl in Hle.
  destruct (Z.compare_spec ey ex) as [Heq|Hlt|Hgt]; [| |discriminate].
  - subst ey. rewrite Z.min_id, Z.sub_diag. simpl.
    change (Pos.compare_cont Eq my mx) with (my ?= mx)%positive in Hle.
    destruct (Pos.compare_spec my mx); [lia|lia|discriminate].
  - rewrite Z.min_r by lia. rewrite Z.sub_diag.
    pose proof (digits2_pos_bounds mx) as [Hmx _].
    pose proof (digits2_pos_bounds my) as [_ Hmy].
    rewrite (Hfx ltac:(lia)) in Hmx.
    assert (Hpow : 2 ^ 1 <= 2 ^ (ex - ey)) by (apply Z.pow_le_mono_r; lia).
    assert (Hmy' : Zpos my < 2 ^ prec).
    { eapply Z.lt_le_trans; [exact Hmy|]. apply Z.pow_le_mono_r; lia. }
    assert (Hp : 2 ^ prec = 2 * 2 ^ (prec - 1)).
    { rewrite <- Z.pow_succ_r by lia. f_equal. lia. }
    change (2 ^ 0) with 1. change (2 ^ 1) with 2 in Hpow. nia.
Qed.

Lemma SFsub_nonneg x y :
  SpecFloat.valid_binary prec emax x = true -> SpecFloat.valid_binary prec emax y = true ->
  SFleb (S754_zero false) y = true ->
  SFleb y x = true ->
  SFltb y (S754_infinity false) = true ->
  SFleb (S754_zero false) (SFsub prec emax x y) = true.
Proof.
  intros Hvx Hvy H0y Hyx Hfin. apply SFnonneg_leb.
  destruct y as [sy|sy| |sy my ey]; simpl in H0y, Hfin; try discriminate.
  - (* y is a zero *)
    destruct x as [sx|sx| |sx mx ex]; simpl in Hyx |- *; try discriminate.
    + destruct sx, sy; reflexivity.
    + destruct sx; [discriminate|reflexivity].
    + destruct sx; [discriminate|reflexivity].
  - destruct sy; discriminate.
  - destruct sy; [discriminate|].
    destruct x as [sx|sx| |sx mx ex]; try discriminate.
    + destruct sx; [discriminate|reflexivity].
    + destruct sx; [discriminate|].
      unfold SFsub. apply binary_normalize_nonneg. simpl.
      pose proof (aligned_le mx ex my ey Hvx Hvy Hyx). lia.
Qed.

End SignOfDifference.

Lemma calcDeltaFloat64_nonneg (curr prev : float) :
  (0 <=? prev)%float = true -> (prev <? infinity)%float = true ->
  (0 <=? curr)%float = true ->
  (0 <=? postgresql.calcDeltaFloat64 curr prev)%float = true.
Proof.
  intros Hprev Hfin Hcurr. unfold postgresql.calcDeltaFloat64.
  destruct (prev <=? curr)%float eqn:Hle; [|exact Hcurr].
  rewrite leb_spec in *. rewrite ltb_spec in Hfin. rewrite sub_spec.
  change (Prim2SF 0) with (S754_zero false) in *.
  change (Prim2SF infinity) with (S754_infinity false) in Hfin.
  apply SFsub_nonneg; auto using Prim2SF_valid. reflexivity.
Qed.

(** ** Non-negative deltas *)

Lemma calcDelta_nonneg curr prev :
  0 <= prev -> 0 <= curr <= Int64.max_int -> 0 <= mysql.calcDelta curr prev.
Proof.
  intros Hprev Hcurr. destruct (calcDelta_cases curr prev) as [Hge Hlt].
  destruct (Z.le_gt_cases prev curr) as [Hle|Hgt].
  - rewrite (Hge Hle), Int64_sub_exact; lia.
  - rewrite (Hlt Hgt). lia.
Qed.

Example timer_went_negative :
  mysql.CalculateDeltas
    (Some (Scenario.mysqlSnapshot [("A", Scenario.digestRow "A" 10 1000)] 0))
    (Some (Scenario.mysqlSnapshot [("A", Scenario.digestRow "A" 12 (-5))] 10))
  = [Scenario.deltaRow "A" 2 (-5) 10%float].
Proof. vm_compute. reflexivity. Qed.

Example new_query_negative_time :
  postgresql.CalculateDeltas
    (Some (Scenario.postgresqlSnapshot [] 0))
    (Some (Scenario.postgresqlSnapshot [("7", Scenario.queryRow "7" 3 (-2.5)%float)] 10))
  = [Scenario.queryDeltaRow "7" 3 (-2.5)%float 10%float].
Proof. vm_compute. reflexivity. Qed.

(** C9, as stated for every pair of snapshots, fails: the delta of a
    counter that went down, or of a new key, is the current counter
    itself, which the row type does not keep from being negative.
    MySQL: row A goes from (calls 10, timer 1000) to (calls 12, timer
    -5); the record has a timer delta of -5. PostgreSQL: a new
    statement with an execution time of -2.5 has that very delta. *)
Lemma deltas_nonnegative_counterexample :
  ~ Stated.mysql_deltas_nonnegative
      (Scenario.mysqlSnapshot [("A", Scenario.digestRow "A" 10 1000)] 0)
      (Scenario.mysqlSnapshot [("A", Scenario.digestRow "A" 12 (-5))] 10) /\
  ~ Stated.postgresql_deltas_nonnegative
      (Scenario.postgresqlSnapshot [] 0)
      (Scenario.postgresqlSnapshot [("7", Scenario.queryRow "7" 3 (-2.5)%float)] 10).
Proof.
  split; intros H.
  - specialize (H (Scenario.deltaRow "A" 2 (-5) 10%float) mysql.SumTimerWait).
    rewrite timer_went_negative in H. specialize (H ltac:(left)). simpl in H. lia.
  - specialize (H (Scenario.queryDeltaRow "7" 3 (-2.5)%float 10%float)).
    rewrite new_query_negative_time in H. specialize (H ltac:(left)).
    destruct H as [_ H]. specialize (H postgresql.TotalExecTime). vm_compute in H.
    discriminate.
Qed.

(** C9, amended: when every counter of both snapshots is not negative
    (integer counters between 0 and the largest 64-bit integer,
    fractional counters finite and at least 0), every counter delta of
    every record emitted by [CalculateDeltas] is at least 0. Both
    families. *)
Theorem deltas_nonnegative :
  (forall prev curr r c,
     mysql_nonnegativeSnapshot prev -> mysql_nonnegativeSnapshot curr ->
     r ∈ mysql.CalculateDeltas (Some prev) (Some curr) ->
     0 <= mysql.counterDelta c r) /\
  (forall prev curr r,
     postgresql_nonnegativeSnapshot prev -> postgresql_nonnegativeSnapshot curr ->
     r ∈ postgresql.CalculateDeltas (Some prev) (Some curr) ->
     (forall c, 0 <= postgresql.intDelta c r) /\
     (forall c, (0 <=? postgresql.floatDelta c r)%float = true)).
Proof.
  split.
  - intros prev curr r c Hprev Hcurr Hr.
    destruct (mysql_record_has_row _ _ _ Hr) as [currData Hc].
    pose proof (Hcurr _ _ Hc c) as Hcv.
    destruct (mysql.Snapshot.Digests prev !! mysql.DeltaResult.Digest r)
      as [prevData|] eqn:Hp.
    + rewrite (mysql_record_of_existing _ _ _ _ _ Hr Hp Hc c).
      apply calcDelta_nonneg; [apply (Hprev _ _ Hp c)|exact Hcv].
    + rewrite (mysql_record_of_new _ _ _ _ Hr Hp Hc c). lia.
  - intros prev curr r Hprev Hcurr Hr.
    destruct (postgresql_record_has_row _ _ _ Hr) as [currData Hc].
    destruct (Hcurr _ _ Hc) as [Hci Hcf].
    destruct (postgresql.Snapshot.Queries prev !! postgresql.DeltaResult.QueryID r)
      as [prevData|] eqn:Hp.
    + destruct (postgresql_record_of_existing _ _ _ _ _ Hr Hp Hc) as [Hint Hfloat].
      destruct (Hprev _ _ Hp) as [Hpi Hpf].
      split; intros c.
      * rewrite Hint. apply calcDelta_nonneg; [apply Hpi|apply Hci].
      * rewrite Hfloat. apply calcDeltaFloat64_nonneg; [apply Hpf|apply Hpf|apply Hcf].
    + destruct (postgresql_record_of_new _ _ _ _ Hr Hp Hc) as [Hint Hfloat].
      split; intros c.
      * rewrite Hint. apply Hci.
      * rewrite Hfloat. apply Hcf.
Qed.

Lemma single_row_nonnegative digest calls timer seconds :
  0 <= calls <= Int64.max_int -> 0 <= timer <= Int64.max_int ->
  mysql_nonnegativeSnapshot
    (Scenario.mysqlSnapshot [(digest, Scenario.digestRow digest calls timer)] seconds).
Proof.
  intros Hcalls Htimer k d Hk. simpl in Hk.
  apply lookup_insert_Some in Hk as [[_ <-]|[_ Hk]];
    [|rewrite lookup_empty in Hk; discriminate].
  intros c. destruct c; simpl; try assumption; unfold Int64.max_int; lia.
Qed.

(** The counter reset of scenario S3: the timer delta, 120, is not
    negative. *)
Lemma deltas_nonnegative_witness :
  0 <= mysql.counterDelta mysql.SumTimerWait (Scenario.deltaRow "A" 3 120 10%float).
Proof.
  apply (proj1 deltas_nonnegative
           (Scenario.mysqlSnapshot [("A", Scenario.digestRow "A" 100 5000)] 0)
           (Scenario.mysqlSnapshot [("A", Scenario.digestRow "A" 3 120)] 10)).
  - apply single_row_nonnegative; unfold Int64.max_int; lia.
  - apply single_row_nonnegative; unfold Int64.max_int; lia.
  - rewrite scenario_counter_reset. left.
Defined.

(** A fractional counter that advanced: 4 - 1.5. *)
Example query_time_advanced :
  postgresql.CalculateDeltas
    (Some (Scenario.postgresqlSnapshot [("7", Scenario.queryRow "7" 10 1.5%float)] 0))
    (Some (Scenario.postgresqlSnapshot [("7", Scenario.queryRow "7" 12 4%float)] 10))
  = [Scenario.queryDeltaRow "7" 2 2.5%float 10%float].
Proof. vm_compute. reflexivity. Qed.

(** A fresh governor with a callback and a base interval of one second.
    Fed a load of 0.95, its fast EMA is 0.95 and the candidate is the
    maximum, sixty times the current interval: it is committed and
    notified. Fed a load of 0.75 instead, the candidate is 1.0625 s,
    one sixteenth above the current interval: inside the dead band, so
    the interval stays at one second and nobody is notified. *)
Lemma interval_policy_witness :
  let g := adaptive.WithIntervalChangeCallback
             (adaptive.NewAdaptiveGovernor Scenario.binaryUnmarshal Time.Second ""
                (Scenario.healthyIO 0) Scenario.emptyWorld) in
  let committed := adaptive.ProcessLoadMetrics Scenario.flatPow Scenario.binaryMarshal g 0.95
                     (Scenario.healthyIO 5) Scenario.emptyWorld in
  let kept := adaptive.ProcessLoadMetrics Scenario.gentlePow Scenario.binaryMarshal g 0.75
                (Scenario.healthyIO 5) Scenario.emptyWorld in
  (adaptive.AdaptiveGovernor.currentInterval (fst committed) = adaptive.MaximumInterval /\
   adaptive.World.callbackLog (snd committed) = [adaptive.MaximumInterval]) /\
  (adaptive.newIntervalFor Scenario.gentlePow Time.Second
     (adaptive.EMA_Value (adaptive.AdaptiveGovernor.fastEMA (fst kept)))
   = 1062500000 /\
   adaptive.AdaptiveGovernor.currentInterval (fst kept) = Time.Second /\
   adaptive.World.callbackLog (snd kept) = []).
Proof.
  intros g committed kept. split.
  - pose proof (interval_policy Scenario.flatPow Scenario.binaryMarshal g 0.95
                  (Scenario.healthyIO 5) Scenario.emptyWorld) as (_ & _ & Hcrit & Hsig & _).
    specialize (Hcrit ltac:(vm_compute; reflexivity)).
    specialize (Hsig ltac:(vm_compute; reflexivity)).
    destruct Hsig as [Hcur Hlog]. subst committed. split.
    + rewrite Hcur. exact Hcrit.
    + rewrite Hlog, Hcrit. reflexivity.
  - pose proof (interval_policy Scenario.gentlePow Scenario.binaryMarshal g 0.75
                  (Scenario.healthyIO 5) Scenario.emptyWorld) as (_ & Hmid & _ & _ & Hkeep).
    specialize (Hmid ltac:(vm_compute; reflexivity) ltac:(vm_compute; reflexivity)).
    specialize (Hkeep ltac:(vm_compute; reflexivity)).
    destruct Hkeep as [Hcur Hlog]. subst kept. split; [|split].
    + refine (eq_trans Hmid _). vm_compute. reflexivity.
    + rewrite Hcur. reflexivity.
    + rewrite Hlog. reflexivity.
Defined.

(** Scenario S6, first part: loads of 0.1, 0.2 and 0.3 leave the
    interval at the base interval of one second. *)
Example low_loads_keep_base_interval :
  adaptive.AdaptiveGovernor.currentInterval
    (fst (adaptive.runOperations Scenario.flatPow Scenario.binaryMarshal
            Scenario.binaryUnmarshal
            (adaptive.NewAdaptiveGovernor Scenario.binaryUnmarshal Time.Second ""
               (Scenario.healthyIO 0) Scenario.emptyWorld, Scenario.emptyWorld)
            [adaptive.OpProcessLoadMetrics 0.1 (Scenario.healthyIO 1);
             adaptive.OpProcessLoadMetrics 0.2 (Scenario.healthyIO 2);
             adaptive.OpProcessLoadMetrics 0.3 (Scenario.healthyIO 3)]))
  = Time.Second.
Proof. vm_compute. reflexivity. Qed.

(** The jittered interval never falls below the minimum, and is the
    current interval itself when the jitter is turned off. *)
Lemma GetCurrentInterval_floor g random :
  (0 <? adaptive.AdaptiveGovernor.jitterPercent g)%float = true ->
  adaptive.MinimumInterval <= adaptive.GetCurrentInterval g random.
Proof.
  intros Hjitter. unfold adaptive.GetCurrentInterval. rewrite Hjitter.
  match goal with |- _ <= (if ?x <? ?y then _ else _) => destruct (Z.ltb_spec x y) end; lia.
Qed.

Example jittered_interval :
  adaptive.GetCurrentInterval Scenario.busyGovernor 0.25 = 2050000000 /\
  adaptive.GetCurrentInterval (adaptive.WithJitterPercent Scenario.busyGovernor 0) 0.25
  = 2 * Time.Second.
Proof. vm_compute. split; reflexivity. Qed.

(** * Further properties of the snapshot store and of the delta engine *)

(** X1. Snapshot store ([NewSnapshotStore], [StoreSnapshot], [GetSnapshot]
    of both packages): a fresh store answers nil for every instance; a
    snapshot stored for an instance is the one read back for it, the
    entries of the other instances are untouched, and storing again
    replaces the entry. *)
Theorem snapshot_store_round_trip :
  (forall instanceID, mysql.GetSnapshot mysql.NewSnapshotStore instanceID = None) /\
  (forall store instanceID snapshot,
     mysql.GetSnapshot (mysql.StoreSnapshot store instanceID snapshot) instanceID = snapshot) /\
  (forall store instanceID other snapshot,
     instanceID <> other ->
     mysql.GetSnapshot (mysql.StoreSnapshot store instanceID snapshot) other
     = mysql.GetSnapshot store other) /\
  (forall store instanceID first second,
     mysql.StoreSnapshot (mysql.StoreSnapshot store instanceID first) instanceID second
     = mysql.StoreSnapshot store instanceID second) /\
  (forall instanceID, postgresql.GetSnapshot postgresql.NewSnapshotStore instanceID = None) /\
  (forall store instanceID snapshot,
     postgresql.GetSnapshot (postgresql.StoreSnapshot store instanceID snapshot) instanceID
     = snapshot) /\
  (forall store instanceID other snapshot,
     instanceID <> other ->
     postgresql.GetSnapshot (postgresql.StoreSnapshot store instanceID snapshot) other
     = postgresql.GetSnapshot store other) /\
  (forall store instanceID first second,
     postgresql.StoreSnapshot (postgresql.StoreSnapshot store instanceID first) instanceID second
     = postgresql.StoreSnapshot store instanceID second).
Proof.
  unfold mysql.GetSnapshot, mysql.StoreSnapshot, mysql.NewSnapshotStore,
    postgresql.GetSnapshot, postgresql.StoreSnapshot, postgresql.NewSnapshotStore.
  split; [intros; now rewrite lookup_empty|].
  split; [intros; now rewrite lookup_insert_eq|].
  split; [intros; now rewrite lookup_insert_ne|].
  split; [intros; now rewrite insert_insert_eq|].
  split; [intros; now rewrite lookup_empty|].
  split; [intros; now rewrite lookup_insert_eq|].
  split; [intros; now rewrite lookup_insert_ne|].
  intros; now rewrite insert_insert_eq.
Qed.

Lemma snapshot_store_round_trip_witness :
  let first := Scenario.mysqlSnapshot [("A", Scenario.digestRow "A" 10 1000)] 0 in
  let store := mysql.StoreSnapshot mysql.NewSnapshotStore "mysql://db:3306/app" (Some first) in
  mysql.GetSnapshot store "mysql://db:3306/app" = Some first /\
  mysql.GetSnapshot store "mysql://replica:3306/app" = None.
Proof.
  destruct snapshot_store_round_trip as (Hnew & Hsame & Hother & _).
  split.
  - apply Hsame.
  - rewrite Hother by discriminate. apply Hnew.
Defined.

(** ** Shape of the result of [CalculateDeltas] *)

Lemma foldl_append_concat {A B : Type} (step : list B -> A -> list B) (l : list A) :
  (forall acc a, step acc a = acc ++ step [] a) ->
  forall acc, foldl step acc l = acc ++ concat (map (step []) l).
Proof.
  intros Hstep. induction l as [|a l IH]; intros acc; simpl.
  - now rewrite app_nil_r.
  - rewrite IH, Hstep. now rewrite <- app_assoc.
Qed.

(** A loop body that appends, for each entry, at most one record keyed
    like the entry: the keys of the result form a sublist of the keys of
    the entries. *)
Lemma concat_keys_sublist {A B K : Type} (f : A -> list B) (key : B -> K) (k : A -> K)
    (l : list A) :
  (forall a, key <$> f a = [] \/ key <$> f a = [k a]) ->
  (key <$> concat (map f l)) `sublist_of` (k <$> l).
Proof.
  intros Hf. induction l as [|a l IH]; simpl.
  - constructor.
  - rewrite fmap_app. destruct (Hf a) as [-> | ->]; simpl.
    + now apply sublist_cons.
    + now apply sublist_skip.
Qed.

Lemma mysql_deltaStep_keys prevDigests t entry :
  mysql.DeltaResult.Digest <$> mysql.deltaStep prevDigests t [] entry = [] \/
  mysql.DeltaResult.Digest <$> mysql.deltaStep prevDigests t [] entry = [fst entry].
Proof.
  destruct entry as [digest currData]. unfold mysql.deltaStep.
  destruct (prevDigests !! digest); [|now right].
  match goal with |- context [if ?b then _ else _] => destruct b end; [now right | now left].
Qed.

Lemma postgresql_deltaStep_keys prevQueries t entry :
  postgresql.DeltaResult.QueryID <$> postgresql.deltaStep prevQueries t [] entry = [] \/
  postgresql.DeltaResult.QueryID <$> postgresql.deltaStep prevQueries t [] entry = [fst entry].
Proof.
  destruct entry as [queryID currData]. unfold postgresql.deltaStep.
  destruct (prevQueries !! queryID); [|now right].
  match goal with |- context [if ?b then _ else _] => destruct b end; [now right | now left].
Qed.

Lemma mysql_CalculateDeltas_keys prev curr :
  (mysql.DeltaResult.Digest <$> mysql.CalculateDeltas (Some prev) (Some curr))
  `sublist_of` (map_to_list (mysql.Snapshot.Digests curr)).*1.
Proof.
  unfold mysql.CalculateDeltas.
  rewrite (foldl_append_concat _ _ (mysql_deltaStep_append _ _)). simpl.
  apply concat_keys_sublist, mysql_deltaStep_keys.
Qed.

Lemma postgresql_CalculateDeltas_keys prev curr :
  (postgresql.DeltaResult.QueryID <$> postgresql.CalculateDeltas (Some prev) (Some curr))
  `sublist_of` (map_to_list (postgresql.Snapshot.Queries curr)).*1.
Proof.
  unfold postgresql.CalculateDeltas.
  rewrite (foldl_append_concat _ _ (postgresql_deltaStep_append _ _)). simpl.
  apply concat_keys_sublist, postgresql_deltaStep_keys.
Qed.

(** The identifying fields of a record are those of the current row. *)
Lemma mysql_deltaStep_identity prevDigests t digest currData r :
  mysql.deltaStep prevDigests t [] (digest, currData) = [r] ->
  mysql.DeltaResult.Digest r = digest /\
  mysql.DeltaResult.SchemaName r = mysql.DigestData.SchemaName currData /\
  mysql.DeltaResult.DigestText r = mysql.DigestData.DigestText currData.
Proof.
  unfold mysql.deltaStep. destruct (prevDigests !! digest).
  - match goal with |- context [if ?b then _ else _] => destruct b end; [|discriminate].
    intros [= <-]. now simpl.
  - intros [= <-]. now simpl.
Qed.

Lemma postgresql_deltaStep_identity prevQueries t queryID currData r :
  postgresql.deltaStep prevQueries t [] (queryID, currData) = [r] ->
  postgresql.DeltaResult.QueryID r = queryID /\
  postgresql.DeltaResult.UserID r = postgresql.QueryData.UserID currData /\
  postgresql.DeltaResult.DBID r = postgresql.QueryData.DBID currData /\
  postgresql.DeltaResult.Query r = postgresql.QueryData.Query currData.
Proof.
  unfold postgresql.deltaStep. destruct (prevQueries !! queryID).
  - match goal with |- context [if ?b then _ else _] => destruct b end; [|discriminate].
    intros [= <-]. now simpl.
  - intros [= <-]. now simpl.
Qed.

(** X2. [CalculateDeltas] (both packages) returns at most one record per
    key of the current snapshot and none for any other key, so a key
    that disappeared from the server produces nothing; a record carries
    the identifying fields of the current row; a nil argument gives no
    record at all. *)
Theorem deltas_one_record_per_current_key :
  (forall prev curr,
     let deltas := mysql.CalculateDeltas prev curr in
     NoDup (mysql.DeltaResult.Digest <$> deltas) /\
     (forall r, r ∈ deltas ->
        exists previous snapshot currData,
          prev = Some previous /\ curr = Some snapshot /\
          mysql.Snapshot.Digests snapshot !! mysql.DeltaResult.Digest r = Some currData /\
          mysql.DeltaResult.SchemaName r = mysql.DigestData.SchemaName currData /\
          mysql.DeltaResult.DigestText r = mysql.DigestData.DigestText currData) /\
     (length deltas
      <= match curr with
         | Some snapshot => size (mysql.Snapshot.Digests snapshot)
         | None => 0
         end)%nat) /\
  (forall prev curr,
     let deltas := postgresql.CalculateDeltas prev curr in
     NoDup (postgresql.DeltaResult.QueryID <$> deltas) /\
     (forall r, r ∈ deltas ->
        exists previous snapshot currData,
          prev = Some previous /\ curr = Some snapshot /\
          postgresql.Snapshot.Queries snapshot !! postgresql.DeltaResult.QueryID r
          = Some currData /\
          postgresql.DeltaResult.UserID r = postgresql.QueryData.UserID currData /\
          postgresql.DeltaResult.DBID r = postgresql.QueryData.DBID currData /\
          postgresql.DeltaResult.Query r = postgresql.QueryData.Query currData) /\
     (length deltas
      <= match curr with
         | Some snapshot => size (postgresql.Snapshot.Queries snapshot)
         | None => 0
         end)%nat).
Proof.
  split.
  - intros [prev|] [curr|]; simpl;
      try (split; [constructor | split; [intros r Hr; inversion Hr | lia]]).
    pose proof (mysql_CalculateDeltas_keys prev curr) as Hsub.
    split; [|split].
    + exact (sublist_NoDup _ _ (NoDup_fst_map_to_list _) Hsub).
    + intros r Hr. apply mysql_CalculateDeltas_elem in Hr as (digest & currData & Hcurr & Hstep).
      apply mysql_deltaStep_identity in Hstep as (Hd & Hs & Ht).
      exists prev, curr, currData. now rewrite Hd.
    + apply sublist_length in Hsub.
      rewrite !length_fmap, length_map_to_list in Hsub. exact Hsub.
  - intros [prev|] [curr|]; simpl;
      try (split; [constructor | split; [intros r Hr; inversion Hr | lia]]).
    pose proof (postgresql_CalculateDeltas_keys prev curr) as Hsub.
    split; [|split].
    + exact (sublist_NoDup _ _ (NoDup_fst_map_to_list _) Hsub).
    + intros r Hr.
      apply postgresql_CalculateDeltas_elem in Hr as (queryID & currData & Hcurr & Hstep).
      apply postgresql_deltaStep_identity in Hstep as (Hd & Hu & Hb & Hq).
      exists prev, curr, currData. now rewrite Hd.
    + apply sublist_length in Hsub.
      rewrite !length_fmap, length_map_to_list in Hsub. exact Hsub.
Qed.

(** ** Unchanged call counts *)

Lemma list_without_elements {A : Type} (l : list A) : (forall a, a ∉ l) -> l = [].
Proof. destruct l as [|a l]; [reflexivity|]. intros H. destruct (H a). now left. Qed.

Lemma Int64_sub_diag a : Int64.sub a a = 0.
Proof. unfold Int64.sub. rewrite Z.sub_diag. reflexivity. Qed.

Lemma mysql_unchanged_no_deltas prev curr :
  (forall digest currData,
     mysql.Snapshot.Digests curr !! digest = Some currData ->
     exists prevData,
       mysql.Snapshot.Digests prev !! digest = Some prevData /\
       mysql.DigestData.CountStar prevData = mysql.DigestData.CountStar currData) ->
  mysql.CalculateDeltas (Some prev) (Some curr) = [].
Proof.
  intros Hsame. apply list_without_elements. intros r Hr.
  apply mysql_CalculateDeltas_elem in Hr as (digest & currData & Hcurr & Hstep).
  destruct (Hsame _ _ Hcurr) as (prevData & Hprev & Hcalls).
  rewrite (mysql_deltaStep_silent _ _ _ _ prevData) in Hstep; [discriminate | assumption |].
  unfold mysql.callsDelta, mysql.calcDelta. rewrite Hprev, Hcalls.
  rewrite Int64_sub_diag. destruct (_ >=? _) eqn:E; lia.
Qed.

Lemma postgresql_deltaStep_silent prevQueries t queryID currData prevData :
  prevQueries !! queryID = Some prevData ->
  postgresql.callsDelta prevQueries queryID currData <= 0 ->
  postgresql.deltaStep prevQueries t [] (queryID, currData) = [].
Proof.
  unfold postgresql.callsDelta, postgresql.calcDeltaInt64, postgresql.deltaStep.
  intros -> H.
  match goal with |- context [if ?b >? 0 then _ else _] => destruct (Z.gtb_spec b 0) end;
    [lia | reflexivity].
Qed.

Lemma postgresql_unchanged_no_deltas prev curr :
  (forall queryID currData,
     postgresql.Snapshot.Queries curr !! queryID = Some currData ->
     exists prevData,
       postgresql.Snapshot.Queries prev !! queryID = Some prevData /\
       postgresql.QueryData.Calls prevData = postgresql.QueryData.Calls currData) ->
  postgresql.CalculateDeltas (Some prev) (Some curr) = [].
Proof.
  intros Hsame. apply list_without_elements. intros r Hr.
  apply postgresql_CalculateDeltas_elem in Hr as (queryID & currData & Hcurr & Hstep).
  destruct (Hsame _ _ Hcurr) as (prevData & Hprev & Hcalls).
  rewrite (postgresql_deltaStep_silent _ _ _ _ prevData) in Hstep;
    [discriminate | assumption |].
  unfold postgresql.callsDelta, postgresql.calcDeltaInt64. rewrite Hprev, Hcalls.
  rewrite Int64_sub_diag. destruct (_ >=? _) eqn:E; lia.
Qed.

(** X3. When every key of the current snapshot was already in the
    previous one with the same number of calls, [CalculateDeltas]
    returns no record, whatever the other counters and the timestamps
    are. *)
Theorem unchanged_calls_give_no_delta :
  (forall prev curr,
     (forall digest currData,
        mysql.Snapshot.Digests curr !! digest = Some currData ->
        exists prevData,
          mysql.Snapshot.Digests prev !! digest = Some prevData /\
          mysql.DigestData.CountStar prevData = mysql.DigestData.CountStar currData) ->
     mysql.CalculateDeltas (Some prev) (Some curr) = []) /\
  (forall prev curr,
     (forall queryID currData,
        postgresql.Snapshot.Queries curr !! queryID = Some currData ->
        exists prevData,
          postgresql.Snapshot.Queries prev !! queryID = Some prevData /\
          postgresql.QueryData.Calls prevData = postgresql.QueryData.Calls currData) ->
     postgresql.CalculateDeltas (Some prev) (Some curr) = []).
Proof.
  split.
  - exact mysql_unchanged_no_deltas.
  - exact postgresql_unchanged_no_deltas.
Qed.

Lemma unchanged_calls_give_no_delta_witness :
  mysql.CalculateDeltas
    (Some (Scenario.mysqlSnapshot
             [("A", Scenario.digestRow "A" 10 1000); ("B", Scenario.digestRow "B" 4 30)] 0))
    (Some (Scenario.mysqlSnapshot [("A", Scenario.digestRow "A" 10 1700)] 10)) = [].
Proof.
  apply (proj1 unchanged_calls_give_no_delta).
  intros digest currData Hcurr. simpl in Hcurr.
  apply lookup_insert_Some in Hcurr as [[<- <-] | [_ Hcurr]].
  - exists (Scenario.digestRow "A" 10 1000). split; reflexivity.
  - now rewrite lookup_empty in Hcurr.
Defined.

(** ** Keys seen for the first time *)

(** X4. A key of the current snapshot that the previous snapshot lacks
    always gets a record, and each delta of that record is the
    cumulative counter of the current row: the whole history of the
    statement is reported as the activity of one interval. *)
Theorem new_key_reports_cumulative_counters :
  (forall prev curr digest currData,
     mysql.Snapshot.Digests curr !! digest = Some currData ->
     mysql.Snapshot.Digests prev !! digest = None ->
     exists r,
       r ∈ mysql.CalculateDeltas (Some prev) (Some curr) /\
       mysql.DeltaResult.Digest r = digest /\
       forall c, mysql.counterDelta c r = mysql.counterValue c currData) /\
  (forall prev curr queryID currData,
     postgresql.Snapshot.Queries curr !! queryID = Some currData ->
     postgresql.Snapshot.Queries prev !! queryID = None ->
     exists r,
       r ∈ postgresql.CalculateDeltas (Some prev) (Some curr) /\
       postgresql.DeltaResult.QueryID r = queryID /\
       (forall c, postgresql.intDelta c r = postgresql.intValue c currData) /\
       (forall c, postgresql.floatDelta c r = postgresql.floatValue c currData)).
Proof.
  split.
  - intros prev curr digest currData Hcurr Hprev.
    destruct (mysql_deltaStep_emits (mysql.Snapshot.Digests prev)
                (Time.Seconds (Time.Sub (mysql.Snapshot.Timestamp curr)
                                        (mysql.Snapshot.Timestamp prev)))
                digest currData (or_introl Hprev)) as [r Hstep].
    exists r. split; [apply mysql_CalculateDeltas_elem; eauto|].
    apply mysql_deltaStep_inv in Hstep as (Hd & _ & Hvalues).
    rewrite Hprev in Hvalues. now split.
  - intros prev curr queryID currData Hcurr Hprev.
    destruct (postgresql_deltaStep_emits (postgresql.Snapshot.Queries prev)
                (Time.Seconds (Time.Sub (postgresql.Snapshot.Timestamp curr)
                                        (postgresql.Snapshot.Timestamp prev)))
                queryID currData (or_introl Hprev)) as [r Hstep].
    exists r. split; [apply postgresql_CalculateDeltas_elem; eauto|].
    apply postgresql_deltaStep_inv in Hstep as (Hd & _ & Hvalues).
    rewrite Hprev in Hvalues. now split.
Qed.

Lemma new_key_reports_cumulative_counters_witness :
  exists r,
    r ∈ mysql.CalculateDeltas
          (Some (Scenario.mysqlSnapshot [("A", Scenario.digestRow "A" 10 1000)] 0))
          (Some (Scenario.mysqlSnapshot
                   [("A", Scenario.digestRow "A" 10 1000);
                    ("B", Scenario.digestRow "B" 70000 9000000)] 10)) /\
    mysql.DeltaResult.Digest r = "B" /\
    forall c, mysql.counterDelta c r
              = mysql.counterValue c (Scenario.digestRow "B" 70000 9000000).
Proof.
  apply (proj1 new_key_reports_cumulative_counters); reflexivity.
Defined.

(** ** Deltas over consecutive intervals *)

Lemma mysql_record_positive prev curr r :
  r ∈ mysql.CalculateDeltas (Some prev) (Some curr) ->
  is_Some (mysql.Snapshot.Digests prev !! mysql.DeltaResult.Digest r) ->
  0 < mysql.DeltaResult.DeltaCountStar r.
Proof.
  intros Hr [prevData Hprev].
  apply mysql_CalculateDeltas_elem in Hr as (digest & currData & _ & Hstep).
  apply mysql_deltaStep_inv in Hstep as (Hd & _ & Hvalues).
  rewrite <- Hd, Hprev in Hvalues. tauto.
Qed.

Lemma postgresql_record_positive prev curr r :
  r ∈ postgresql.CalculateDeltas (Some prev) (Some curr) ->
  is_Some (postgresql.Snapshot.Queries prev !! postgresql.DeltaResult.QueryID r) ->
  0 < postgresql.DeltaResult.DeltaCalls r.
Proof.
  intros Hr [prevData Hprev].
  apply postgresql_CalculateDeltas_elem in Hr as (queryID & currData & _ & Hstep).
  apply postgresql_deltaStep_inv in Hstep as (Hd & _ & Hvalues).
  rewrite <- Hd, Hprev in Hvalues. tauto.
Qed.

Lemma calcDelta_exact a b :
  0 <= b -> b <= a -> a <= Int64.max_int -> mysql.calcDelta a b = a - b.
Proof.
  intros H0 H1 H2. destruct (calcDelta_cases a b) as [-> _]; [|lia].
  now apply Int64_sub_exact.
Qed.

Lemma calcDeltaInt64_exact a b :
  0 <= b -> b <= a -> a <= Int64.max_int -> postgresql.calcDeltaInt64 a b = a - b.
Proof.
  intros H0 H1 H2. destruct (calcDeltaInt64_cases a b) as [-> _]; [|lia].
  now apply Int64_sub_exact.
Qed.

(** X5. Without a counter reset the deltas add up: when a key has a
    record over the interval from a first to a second snapshot and one
    over the interval from the second to a third, the delta computed
    directly from the first to the third snapshot (as happens when the
    collection in between failed and left the store as it was) has a
    record for the key, and each of its integer counters that did not
    go down is the sum of the two. *)
Theorem deltas_add_up_without_reset :
  (forall s0 s1 s2 r01 r12 d0 d1 d2,
     r01 ∈ mysql.CalculateDeltas (Some s0) (Some s1) ->
     r12 ∈ mysql.CalculateDeltas (Some s1) (Some s2) ->
     mysql.DeltaResult.Digest r12 = mysql.DeltaResult.Digest r01 ->
     mysql.Snapshot.Digests s0 !! mysql.DeltaResult.Digest r01 = Some d0 ->
     mysql.Snapshot.Digests s1 !! mysql.DeltaResult.Digest r01 = Some d1 ->
     mysql.Snapshot.Digests s2 !! mysql.DeltaResult.Digest r01 = Some d2 ->
     0 <= mysql.DigestData.CountStar d0 <= mysql.DigestData.CountStar d1 ->
     mysql.DigestData.CountStar d1 <= mysql.DigestData.CountStar d2 <= Int64.max_int ->
     exists r02,
       r02 ∈ mysql.CalculateDeltas (Some s0) (Some s2) /\
       mysql.DeltaResult.Digest r02 = mysql.DeltaResult.Digest r01 /\
       forall c,
         0 <= mysql.counterValue c d0 <= mysql.counterValue c d1 ->
         mysql.counterValue c d1 <= mysql.counterValue c d2 <= Int64.max_int ->
         mysql.counterDelta c r02 = mysql.counterDelta c r01 + mysql.counterDelta c r12) /\
  (forall s0 s1 s2 r01 r12 d0 d1 d2,
     r01 ∈ postgresql.CalculateDeltas (Some s0) (Some s1) ->
     r12 ∈ postgresql.CalculateDeltas (Some s1) (Some s2) ->
     postgresql.DeltaResult.QueryID r12 = postgresql.DeltaResult.QueryID r01 ->
     postgresql.Snapshot.Queries s0 !! postgresql.DeltaResult.QueryID r01 = Some d0 ->
     postgresql.Snapshot.Queries s1 !! postgresql.DeltaResult.QueryID r01 = Some d1 ->
     postgresql.Snapshot.Queries s2 !! postgresql.DeltaResult.QueryID r01 = Some d2 ->
     0 <= postgresql.QueryData.Calls d0 <= postgresql.QueryData.Calls d1 ->
     postgresql.QueryData.Calls d1 <= postgresql.QueryData.Calls d2 <= Int64.max_int ->
     exists r02,
       r02 ∈ postgresql.CalculateDeltas (Some s0) (Some s2) /\
       postgresql.DeltaResult.QueryID r02 = postgresql.DeltaResult.QueryID r01 /\
       forall c,
         0 <= postgresql.intValue c d0 <= postgresql.intValue c d1 ->
         postgresql.intValue c d1 <= postgresql.intValue c d2 <= Int64.max_int ->
         postgresql.intDelta c r02 = postgresql.intDelta c r01 + postgresql.intDelta c r12).
Proof.
  split.
  - intros s0 s1 s2 r01 r12 d0 d1 d2 H01 H12 Hkey Hd0 Hd1 Hd2 Hcalls01 Hcalls12.
    pose proof (mysql_record_of_existing _ _ _ _ _ H01 Hd0 Hd1) as V01.
    assert (Hd1' := Hd1). assert (Hd2' := Hd2). rewrite <- Hkey in Hd1', Hd2'.
    pose proof (mysql_record_of_existing _ _ _ _ _ H12 Hd1' Hd2') as V12.
    pose proof (mysql_record_positive _ _ _ H01 (ex_intro _ d0 Hd0)) as Hpos.
    pose proof (V01 mysql.CountStar) as Hc. simpl in Hc.
    rewrite calcDelta_exact in Hc by lia.
    destruct (proj2 (mysql_record_iff s0 s2 (mysql.DeltaResult.Digest r01)))
      as (r02 & H02 & Hkey02).
    { exists d2. split; [assumption|]. right.
      unfold mysql.callsDelta. rewrite Hd0, calcDelta_exact by lia. lia. }
    exists r02. split; [assumption|]. split; [assumption|].
    intros c Hc01 Hc12.
    assert (Hd0' := Hd0). rewrite <- Hkey02 in Hd0', Hd2.
    rewrite (mysql_record_of_existing _ _ _ _ _ H02 Hd0' Hd2), V01, V12.
    rewrite !calcDelta_exact by lia. lia.
  - intros s0 s1 s2 r01 r12 d0 d1 d2 H01 H12 Hkey Hd0 Hd1 Hd2 Hcalls01 Hcalls12.
    pose proof (proj1 (postgresql_record_of_existing _ _ _ _ _ H01 Hd0 Hd1)) as V01.
    assert (Hd1' := Hd1). assert (Hd2' := Hd2). rewrite <- Hkey in Hd1', Hd2'.
    pose proof (proj1 (postgresql_record_of_existing _ _ _ _ _ H12 Hd1' Hd2')) as V12.
    pose proof (postgresql_record_positive _ _ _ H01 (ex_intro _ d0 Hd0)) as Hpos.
    pose proof (V01 postgresql.Calls) as Hc. simpl in Hc.
    rewrite calcDeltaInt64_exact in Hc by lia.
    destruct (proj2 (postgresql_record_iff s0 s2 (postgresql.DeltaResult.QueryID r01)))
      as (r02 & H02 & Hkey02).
    { exists d2. split; [assumption|]. right.
      unfold postgresql.callsDelta. rewrite Hd0, calcDeltaInt64_exact by lia. lia. }
    exists r02. split; [assumption|]. split; [assumption|].
    intros c Hc01 Hc12.
    assert (Hd0' := Hd0). rewrite <- Hkey02 in Hd0', Hd2.
    rewrite (proj1 (postgresql_record_of_existing _ _ _ _ _ H02 Hd0' Hd2)), V01, V12.
    rewrite !calcDeltaInt64_exact by lia. lia.
Qed.

Lemma deltas_add_up_without_reset_witness :
  exists r02,
    r02 ∈ mysql.CalculateDeltas
            (Some (Scenario.mysqlSnapshot [("A", Scenario.digestRow "A" 10 1000)] 0))
            (Some (Scenario.mysqlSnapshot [("A", Scenario.digestRow "A" 17 2500)] 20)) /\
    mysql.DeltaResult.Digest r02 = "A" /\
    forall c,
      0 <= mysql.counterValue c (Scenario.digestRow "A" 10 1000)
        <= mysql.counterValue c (Scenario.digestRow "A" 12 1400) ->
      mysql.counterValue c (Scenario.digestRow "A" 12 1400)
        <= mysql.counterValue c (Scenario.digestRow "A" 17 2500) <= Int64.max_int ->
      mysql.counterDelta c r02
      = mysql.counterDelta c (Scenario.deltaRow "A" 2 400 10%float)
        + mysql.counterDelta c (Scenario.deltaRow "A" 5 1100 10%float).
Proof.
  apply (proj1 deltas_add_up_without_reset
           (Scenario.mysqlSnapshot [("A", Scenario.digestRow "A" 10 1000)] 0)
           (Scenario.mysqlSnapshot [("A", Scenario.digestRow "A" 12 1400)] 10)
           (Scenario.mysqlSnapshot [("A", Scenario.digestRow "A" 17 2500)] 20)
           (Scenario.deltaRow "A" 2 400 10%float)
           (Scenario.deltaRow "A" 5 1100 10%float)).
  - vm_compute. left.
  - vm_compute. left.
  - reflexivity.
  - reflexivity.
  - reflexivity.
  - reflexivity.
  - vm_compute. split; discriminate.
  - vm_compute. split; discriminate.
Defined.

(** * Further properties of the collection of a PostgreSQL snapshot *)

(** The outcome of the PostgreSQL [collectSnapshot] in terms of the
    answers of the server. *)
Lemma postgresql_collectSnapshot_Ok c db now snapshot :
  postgresql.collectSnapshot c db now = Ok snapshot <->
  postgresql.DB.HasExtension db = Ok true /\
  postgresql.DB.RowsErr db = None /\
  exists rows,
    postgresql.DB.StatementRows db = Ok rows /\
    snapshot = {| postgresql.Snapshot.Queries := foldl (postgresql.scanStep now) ∅ rows;
                  postgresql.Snapshot.Timestamp := now;
                  postgresql.Snapshot.InstanceID := postgresql.Collector.instanceID c |}.
Proof.
  unfold postgresql.collectSnapshot. split.
  - destruct (postgresql.DB.HasExtension db) as [[|]|]; try discriminate. simpl.
    destruct (postgresql.DB.StatementRows db) as [rows|]; [|discriminate].
    destruct (postgresql.DB.RowsErr db); [discriminate|].
    intros [= <-]. repeat split; eauto.
  - intros (-> & -> & rows & -> & ->). reflexivity.
Qed.

(** X6. The PostgreSQL [collectSnapshot] succeeds exactly when the
    extension check passes, the query is accepted and the iteration
    ends without error; a row that fails to scan never makes it fail.
    The snapshot is then stamped with the reading of the clock and with
    the instance identifier of the collector. *)
Theorem snapshot_collection_succeeds_iff :
  (forall c db now,
     (exists snapshot, postgresql.collectSnapshot c db now = Ok snapshot) <->
     postgresql.DB.HasExtension db = Ok true /\
     (exists rows, postgresql.DB.StatementRows db = Ok rows) /\
     postgresql.DB.RowsErr db = None) /\
  (forall c db now snapshot,
     postgresql.collectSnapshot c db now = Ok snapshot ->
     postgresql.Snapshot.Timestamp snapshot = now /\
     postgresql.Snapshot.InstanceID snapshot = postgresql.Collector.instanceID c).
Proof.
  split.
  - intros c db now. split.
    + intros [snapshot H]. apply postgresql_collectSnapshot_Ok in H as (? & ? & rows & ? & _).
      eauto 6.
    + intros (Hp & [rows Hrows] & Herr). eexists.
      apply postgresql_collectSnapshot_Ok. eauto 8.
  - intros c db now snapshot H.
    apply postgresql_collectSnapshot_Ok in H as (_ & _ & rows & _ & ->). now split.
Qed.

(** A server one of whose rows does not scan. *)
Lemma snapshot_collection_succeeds_iff_witness :
  exists snapshot,
    postgresql.collectSnapshot Scenario.postgresqlCollector
      (Scenario.postgresqlServer
         [Err (DriverError "converting NULL to string is unsupported");
          Ok (Scenario.queryRow "7" 10 1.5)])
      (5 * Time.Second) = Ok snapshot.
Proof.
  apply (proj1 snapshot_collection_succeeds_iff). repeat split; eauto.
Defined.

(** ** Entries of a snapshot *)

(** Where an entry of the map built by the scanning loop comes from. *)
Lemma postgresql_scan_provenance now rows :
  forall queries queryID data,
    foldl (postgresql.scanStep now) queries rows !! queryID = Some data ->
    queries !! queryID = Some data \/
    exists row, Ok row ∈ rows /\ postgresql.QueryData.QueryID row = queryID /\
                data = postgresql.QueryData_withTimestamp row now.
Proof.
  induction rows as [|scanned rows IH]; intros queries queryID data; simpl; [now left|].
  intros H. apply IH in H as [H | (row & Hin & Hd & ->)].
  - destruct scanned as [row|err]; simpl in H; [|now left].
    apply lookup_insert_Some in H as [[<- <-] | [_ H]]; [|now left].
    right. exists row. split; [left | now split].
  - right. exists row. split; [now right | now split].
Qed.

(** X7. Every entry of a snapshot collected from PostgreSQL comes from
    a row the server returned and that scanned; it is filed under its
    own query identifier and carries the timestamp of the snapshot. *)
Theorem snapshot_entries_come_from_rows :
  forall c db now snapshot queryID data,
    postgresql.collectSnapshot c db now = Ok snapshot ->
    postgresql.Snapshot.Queries snapshot !! queryID = Some data ->
    postgresql.QueryData.QueryID data = queryID /\
    postgresql.QueryData.Timestamp data = postgresql.Snapshot.Timestamp snapshot /\
    exists rows row,
      postgresql.DB.StatementRows db = Ok rows /\ Ok row ∈ rows /\
      postgresql.QueryData.QueryID row = queryID /\
      data = postgresql.QueryData_withTimestamp row now.
Proof.
  intros c db now snapshot queryID data H Hdata.
  apply postgresql_collectSnapshot_Ok in H as (_ & _ & rows & Hrows & ->). simpl in *.
  apply postgresql_scan_provenance in Hdata as [Hdata | (row & Hin & Hd & ->)].
  - now rewrite lookup_empty in Hdata.
  - split; [now destruct row|]. split; [reflexivity|]. now exists rows, row.
Qed.

Lemma snapshot_entries_come_from_rows_witness :
  exists snapshot data,
    postgresql.collectSnapshot Scenario.postgresqlCollector
      (Scenario.postgresqlServer [Ok (Scenario.queryRow "7" 10 1.5)]) (5 * Time.Second)
    = Ok snapshot /\
    postgresql.Snapshot.Queries snapshot !! "7" = Some data /\
    postgresql.QueryData.QueryID data = "7" /\
    postgresql.QueryData.Timestamp data = 5 * Time.Second.
Proof.
  eexists. eexists. split; [reflexivity|]. split; [reflexivity|].
  destruct (snapshot_entries_come_from_rows Scenario.postgresqlCollector
              (Scenario.postgresqlServer [Ok (Scenario.queryRow "7" 10 1.5)])
              (5 * Time.Second) _ "7" _ eq_refl eq_refl) as (Hkey & Hstamp & _).
  split; [exact Hkey | exact Hstamp].
Defined.

(** Rows after which a key is not stored again leave its entry alone. *)
Lemma postgresql_scan_untouched now rows queryID :
  (forall row, Ok row ∈ rows -> postgresql.QueryData.QueryID row <> queryID) ->
  forall queries, foldl (postgresql.scanStep now) queries rows !! queryID = queries !! queryID.
Proof.
  induction rows as [|scanned rows IH]; intros Hrows queries; simpl; [reflexivity|].
  rewrite IH by (intros row Hin; apply Hrows; now right).
  destruct scanned as [row|err]; simpl; [|reflexivity].
  apply lookup_insert_ne. intros Heq. apply (Hrows row); [left | assumption].
Qed.

(** X8. When the PostgreSQL server returns several rows with the same
    query identifier (one for each user or database that ran the
    query), the snapshot keeps the last of them and nothing of the
    earlier ones; rows that fail to scan, wherever they stand, change
    nothing. *)
Theorem last_row_of_a_key_wins :
  forall c db now snapshot rows1 row rows2,
    postgresql.collectSnapshot c db now = Ok snapshot ->
    postgresql.DB.StatementRows db = Ok (rows1 ++ Ok row :: rows2) ->
    (forall later, Ok later ∈ rows2 ->
                   postgresql.QueryData.QueryID later <> postgresql.QueryData.QueryID row) ->
    postgresql.Snapshot.Queries snapshot !! postgresql.QueryData.QueryID row
    = Some (postgresql.QueryData_withTimestamp row now).
Proof.
  intros c db now snapshot rows1 row rows2 H Hrows Hlater.
  apply postgresql_collectSnapshot_Ok in H as (_ & _ & rows & Hrows' & ->).
  rewrite Hrows in Hrows'. injection Hrows' as <-.
  cbn [postgresql.Snapshot.Queries]. rewrite foldl_app. cbn [foldl].
  rewrite postgresql_scan_untouched by assumption.
  unfold postgresql.scanStep.
  exact (lookup_insert_eq _ (postgresql.QueryData.QueryID row) _).
Qed.

Lemma last_row_of_a_key_wins_witness :
  let rows1 := [Ok (Scenario.queryRowIn "5" "7" 10 1.5)] in
  let row := Scenario.queryRowIn "6" "7" 3 0.25 in
  let rows2 := [Err (DriverError "converting NULL to string is unsupported");
                Ok (Scenario.queryRowIn "5" "8" 1 0.5)] in
  exists snapshot,
    postgresql.collectSnapshot Scenario.postgresqlCollector
      (Scenario.postgresqlServer (rows1 ++ Ok row :: rows2)) (5 * Time.Second) = Ok snapshot /\
    postgresql.Snapshot.Queries snapshot !! "7"
    = Some (postgresql.QueryData_withTimestamp row (5 * Time.Second)).
Proof.
  intros rows1 row rows2. eexists. split; [reflexivity|].
  apply (last_row_of_a_key_wins Scenario.postgresqlCollector
           (Scenario.postgresqlServer (rows1 ++ Ok row :: rows2)) _ _ rows1 row rows2).
  - reflexivity.
  - reflexivity.
  - intros later Hin. subst rows2.
    apply elem_of_cons in Hin as [Hin | Hin]; [discriminate|].
    apply elem_of_cons in Hin as [Hin | Hin]; [injection Hin as ->; discriminate|].
    inversion Hin.
Defined.

(** * Further properties of the PostgreSQL [Collect] *)

Lemma postgresql_collect_success_advances c db now clock store snapshot :
  postgresql.collectSnapshot c db now = Ok snapshot ->
  postgresql.GetSnapshot (fst (postgresql.Collect c db now clock store))
    (postgresql.Collector.instanceID c)
  = Some snapshot.
Proof.
  intros H. unfold postgresql.Collect. rewrite H.
  destruct (postgresql.GetSnapshot store _); simpl;
    unfold postgresql.GetSnapshot, postgresql.StoreSnapshot; now rewrite lookup_insert_eq.
Qed.

Lemma postgresql_Collect_success c db now clock store snapshot :
  postgresql.collectSnapshot c db now = Ok snapshot ->
  postgresql.Collect c db now clock store =
  (postgresql.StoreSnapshot store (postgresql.Collector.instanceID c) (Some snapshot),
   (match postgresql.GetSnapshot store (postgresql.Collector.instanceID c) with
    | None => []
    | Some prev =>
        postgresql.deltaToLogs c clock (postgresql.CalculateDeltas (Some prev) (Some snapshot))
    end, None)).
Proof.
  intros H. unfold postgresql.Collect. rewrite H.
  now destruct (postgresql.GetSnapshot store _).
Qed.

(** X9. A successful PostgreSQL [Collect] files the new snapshot under
    the instance of the collector, whether or not anything is reported,
    and touches the entry of no other instance; it returns no error;
    the first time (no snapshot filed for the instance yet) the batch
    returned is empty. *)
Theorem collect_success_replaces_own_entry :
  forall c db now clock store snapshot,
    postgresql.collectSnapshot c db now = Ok snapshot ->
    let result := postgresql.Collect c db now clock store in
    postgresql.GetSnapshot (fst result) (postgresql.Collector.instanceID c) = Some snapshot /\
    (forall other,
       other <> postgresql.Collector.instanceID c ->
       postgresql.GetSnapshot (fst result) other = postgresql.GetSnapshot store other) /\
    snd (snd result) = None /\
    (postgresql.GetSnapshot store (postgresql.Collector.instanceID c) = None ->
     fst (snd result) = []).
Proof.
  intros c db now clock store snapshot H result. subst result.
  rewrite (postgresql_Collect_success _ _ _ _ _ _ H). simpl.
  unfold postgresql.GetSnapshot, postgresql.StoreSnapshot.
  split; [now rewrite lookup_insert_eq|].
  split; [intros other Hne; now rewrite lookup_insert_ne|].
  split; [reflexivity|]. now intros ->.
Qed.

Lemma collect_success_replaces_own_entry_witness :
  let db := Scenario.postgresqlServer [Ok (Scenario.queryRow "7" 10 1.5)] in
  let result := postgresql.Collect Scenario.postgresqlCollector db (5 * Time.Second)
                  Scenario.tickingClock postgresql.NewSnapshotStore in
  postgresql.GetSnapshot (fst result)
    (postgresql.Collector.instanceID Scenario.postgresqlCollector)
  = Some {| postgresql.Snapshot.Queries :=
              {[ "7" := postgresql.QueryData_withTimestamp (Scenario.queryRow "7" 10 1.5)
                          (5 * Time.Second) ]};
            postgresql.Snapshot.Timestamp := 5 * Time.Second;
            postgresql.Snapshot.InstanceID := "postgresql://db:5432/postgres" |} /\
  snd result = ([], None).
Proof.
  intros db result. subst result.
  destruct (collect_success_replaces_own_entry Scenario.postgresqlCollector db
              (5 * Time.Second) Scenario.tickingClock postgresql.NewSnapshotStore _ eq_refl)
    as (Hfiled & _ & Herr & Hfirst).
  split; [exact Hfiled|].
  rewrite (surjective_pairing (snd (postgresql.Collect _ _ _ _ _))), Herr, Hfirst;
    reflexivity.
Defined.

(** ** A server that does not change *)

Lemma postgresql_scan_same_calls now1 now2 rows :
  forall queries1 queries2,
    (forall queryID,
       option_Forall2 (fun a b => postgresql.QueryData.Calls a = postgresql.QueryData.Calls b)
         (queries1 !! queryID) (queries2 !! queryID)) ->
    forall queryID,
      option_Forall2 (fun a b => postgresql.QueryData.Calls a = postgresql.QueryData.Calls b)
        (foldl (postgresql.scanStep now1) queries1 rows !! queryID)
        (foldl (postgresql.scanStep now2) queries2 rows !! queryID).
Proof.
  induction rows as [|scanned rows IH]; intros queries1 queries2 Hrel; simpl; [exact Hrel|].
  apply IH. intros queryID.
  destruct scanned as [row|err]; simpl; [|apply Hrel].
  destruct (decide (postgresql.QueryData.QueryID row = queryID)) as [<-|Hne].
  - rewrite !lookup_insert_eq. now constructor.
  - rewrite !lookup_insert_ne by assumption. apply Hrel.
Qed.

(** X10. When the PostgreSQL server gives the same answers to two
    successful collections in a row, the second one returns an empty
    batch and no error, whatever time passed in between. *)
Theorem unchanged_server_gives_empty_batch :
  forall c db now1 now2 clock1 clock2 store snapshot,
    postgresql.collectSnapshot c db now1 = Ok snapshot ->
    let store1 := fst (postgresql.Collect c db now1 clock1 store) in
    snd (postgresql.Collect c db now2 clock2 store1) = ([], None).
Proof.
  intros c db now1 now2 clock1 clock2 store snapshot H store1.
  assert (Hfiled : postgresql.GetSnapshot store1 (postgresql.Collector.instanceID c)
                   = Some snapshot)
    by now apply postgresql_collect_success_advances.
  apply postgresql_collectSnapshot_Ok in H as (Hp & He & rows & Hrows & ->).
  rewrite (postgresql_Collect_success c db now2 clock2 store1
             {| postgresql.Snapshot.Queries := foldl (postgresql.scanStep now2) ∅ rows;
                postgresql.Snapshot.Timestamp := now2;
                postgresql.Snapshot.InstanceID := postgresql.Collector.instanceID c |})
    by (apply postgresql_collectSnapshot_Ok; eauto 8).
  rewrite Hfiled. cbn [snd]. rewrite postgresql_unchanged_no_deltas; [reflexivity|].
  cbn [postgresql.Snapshot.Queries]. intros queryID currData Hcurr.
  pose proof (postgresql_scan_same_calls now1 now2 rows ∅ ∅
                (fun k => ltac:(rewrite lookup_empty; constructor)) queryID) as Hrel.
  rewrite Hcurr in Hrel. inversion Hrel as [prevData ? Hcalls|]; subst. eauto.
Qed.

Lemma unchanged_server_gives_empty_batch_witness :
  let db := Scenario.postgresqlServer
              [Ok (Scenario.queryRow "7" 10 1.5); Ok (Scenario.queryRow "8" 4 0.5)] in
  let store1 := fst (postgresql.Collect Scenario.postgresqlCollector db (5 * Time.Second)
                       Scenario.tickingClock postgresql.NewSnapshotStore) in
  snd (postgresql.Collect Scenario.postgresqlCollector db (15 * Time.Second)
         Scenario.tickingClock store1) = ([], None).
Proof.
  intros db store1.
  exact (unchanged_server_gives_empty_batch Scenario.postgresqlCollector db
           (5 * Time.Second) (15 * Time.Second) Scenario.tickingClock Scenario.tickingClock
           postgresql.NewSnapshotStore _ eq_refl).
Defined.

(** * Further properties of the log builder *)

Lemma mysql_logStep_fold clock deltas :
  forall records,
    foldl (mysql.logStep clock) records deltas =
    records ++ imap (fun i delta => mysql.logRecord (clock (length records + i)%nat) delta)
                    (filter (fun delta => 0 < mysql.DeltaResult.DeltaCountStar delta) deltas).
Proof.
  induction deltas as [|delta deltas IH]; intros records; simpl.
  - now rewrite app_nil_r.
  - rewrite IH. unfold mysql.logStep. rewrite filter_cons.
    destruct (Z.leb_spec (mysql.DeltaResult.DeltaCountStar delta) 0) as [Hle|Hgt].
    + destruct (decide (0 < mysql.DeltaResult.DeltaCountStar delta)); [lia|reflexivity].
    + destruct (decide (0 < mysql.DeltaResult.DeltaCountStar delta)); [|lia].
      rewrite <- app_assoc. f_equal. simpl. rewrite Nat.add_0_r. f_equal.
      apply imap_ext. intros i d _. rewrite length_app. simpl. do 2 f_equal. lia.
Qed.

Lemma postgresql_logStep_fold clock deltas :
  forall records,
    foldl (postgresql.logStep clock) records deltas =
    records ++ imap (fun i delta => postgresql.logRecord (clock (length records + i)%nat) delta)
                    (filter (fun delta => 0 < postgresql.DeltaResult.DeltaCalls delta) deltas).
Proof.
  induction deltas as [|delta deltas IH]; intros records; simpl.
  - now rewrite app_nil_r.
  - rewrite IH. unfold postgresql.logStep. rewrite filter_cons.
    destruct (Z.leb_spec (postgresql.DeltaResult.DeltaCalls delta) 0) as [Hle|Hgt].
    + destruct (decide (0 < postgresql.DeltaResult.DeltaCalls delta)); [lia|reflexivity].
    + destruct (decide (0 < postgresql.DeltaResult.DeltaCalls delta)); [|lia].
      rewrite <- app_assoc. f_equal. simpl. rewrite Nat.add_0_r. f_equal.
      apply imap_ext. intros i d _. rewrite length_app. simpl. do 2 f_equal. lia.
Qed.

(** X11. The log records of the batch [deltaToLogs] builds are, in the
    order of the deltas, one record for each delta with a positive
    calls delta and nothing else: no such delta is lost. The record
    carries the attributes and the text of its delta, the severity
    INFO, and the reading of the clock at its turn ([imap] numbers the
    deltas kept from zero). *)
Theorem log_batch_is_the_positive_deltas :
  (forall c clock deltas,
     pdata.AllLogRecords (mysql.deltaToLogs c clock deltas)
     = imap (fun i delta => mysql.logRecord (clock i) delta)
            (filter (fun delta => 0 < mysql.DeltaResult.DeltaCountStar delta) deltas)) /\
  (forall c clock deltas,
     pdata.AllLogRecords (postgresql.deltaToLogs c clock deltas)
     = imap (fun i delta => postgresql.logRecord (clock i) delta)
            (filter (fun delta => 0 < postgresql.DeltaResult.DeltaCalls delta) deltas)).
Proof.
  split.
  - intros c clock [|delta deltas]; [reflexivity|].
    unfold mysql.deltaToLogs, pdata.AllLogRecords.
    cbn [length Nat.eqb pdata.NewLogs app map concat pdata.ResourceLogs.ScopeLogsSlice
         pdata.ScopeLogs.LogRecords].
    rewrite !app_nil_r. now rewrite mysql_logStep_fold.
  - intros c clock [|delta deltas]; [reflexivity|].
    unfold postgresql.deltaToLogs, pdata.AllLogRecords.
    cbn [length Nat.eqb pdata.NewLogs app map concat pdata.ResourceLogs.ScopeLogsSlice
         pdata.ScopeLogs.LogRecords].
    rewrite !app_nil_r. now rewrite postgresql_logStep_fold.
Qed.

(** ** Attributes of a log record *)

(** X12. The attributes of a log record determine the delta they were
    built from: every field of the delta is written under a key of its
    own, and no key is written twice with different fields. *)
Theorem log_attributes_determine_the_delta :
  (forall delta1 delta2,
     mysql.logAttributes delta1 = mysql.logAttributes delta2 -> delta1 = delta2) /\
  (forall delta1 delta2,
     postgresql.logAttributes delta1 = postgresql.logAttributes delta2 -> delta1 = delta2).
Proof.
  split.
  - intros [] [] H. vm_compute in H. injection H. intros. subst. reflexivity.
  - intros [] [] H. vm_compute in H. injection H. intros. subst. reflexivity.
Qed.

Lemma log_attributes_determine_the_delta_witness :
  mysql.logAttributes (Scenario.deltaRow "A" 2 400 10%float)
  <> mysql.logAttributes (Scenario.deltaRow "A" 2 500 10%float).
Proof.
  intros H. apply (proj1 log_attributes_determine_the_delta) in H. discriminate H.
Defined.

(** ** Shape of a batch *)

(** X13. A batch built by [deltaToLogs] is empty when there is no
    delta; otherwise it has exactly one resource, tagged with the
    service name, the database system and the instance identifier of
    the collector, holding exactly one scope named [qanprocessor] --
    also when every delta is dropped for want of calls, in which case
    the batch has a resource and no record. *)
Theorem batch_has_one_resource_and_one_scope :
  (forall c clock, mysql.deltaToLogs c clock [] = []) /\
  (forall c clock, postgresql.deltaToLogs c clock [] = []) /\
  (forall c clock delta deltas,
     exists records,
       mysql.deltaToLogs c clock (delta :: deltas)
       = [ {| pdata.ResourceLogs.ResourceAttributes :=
                [("service.name", pdata.ValueStr "obsidian-core");
                 ("db.system", pdata.ValueStr "mysql");
                 ("resource.instance.id", pdata.ValueStr (mysql.Collector.instanceID c))];
              pdata.ResourceLogs.ScopeLogsSlice :=
                [ {| pdata.ScopeLogs.ScopeName := "qanprocessor";
                     pdata.ScopeLogs.LogRecords := records |} ] |} ] /\
       (Forall (fun d => mysql.DeltaResult.DeltaCountStar d <= 0) (delta :: deltas) ->
        records = [])) /\
  (forall c clock delta deltas,
     exists records,
       postgresql.deltaToLogs c clock (delta :: deltas)
       = [ {| pdata.ResourceLogs.ResourceAttributes :=
                [("service.name", pdata.ValueStr "obsidian-core");
                 ("db.system", pdata.ValueStr "postgresql");
                 ("resource.instance.id",
                  pdata.ValueStr (postgresql.Collector.instanceID c))];
              pdata.ResourceLogs.ScopeLogsSlice :=
                [ {| pdata.ScopeLogs.ScopeName := "qanprocessor";
                     pdata.ScopeLogs.LogRecords := records |} ] |} ] /\
       (Forall (fun d => postgresql.DeltaResult.DeltaCalls d <= 0) (delta :: deltas) ->
        records = [])).
Proof.
  split; [reflexivity|]. split; [reflexivity|]. split.
  - intros c clock delta deltas. eexists. split; [reflexivity|].
    intros Hnone. rewrite mysql_logStep_fold.
    replace (filter _ (delta :: deltas)) with (@nil mysql.DeltaResult.t); [reflexivity|].
    symmetry. apply list_without_elements. intros d Hd.
    apply list_elem_of_filter in Hd as [Hpos Hd].
    rewrite Forall_forall in Hnone. specialize (Hnone d Hd). simpl in Hnone. lia.
  - intros c clock delta deltas. eexists. split; [reflexivity|].
    intros Hnone. rewrite postgresql_logStep_fold.
    replace (filter _ (delta :: deltas)) with (@nil postgresql.DeltaResult.t); [reflexivity|].
    symmetry. apply list_without_elements. intros d Hd.
    apply list_elem_of_filter in Hd as [Hpos Hd].
    rewrite Forall_forall in Hnone. specialize (Hnone d Hd). simpl in Hnone. lia.
Qed.

Lemma batch_has_one_resource_and_one_scope_witness :
  exists records,
    mysql.deltaToLogs Scenario.mysqlCollector Scenario.tickingClock
      [Scenario.deltaRow "B" 0 0 10%float]
    = [ {| pdata.ResourceLogs.ResourceAttributes :=
             [("service.name", pdata.ValueStr "obsidian-core");
              ("db.system", pdata.ValueStr "mysql");
              ("resource.instance.id",
               pdata.ValueStr "mysql://db:3306/information_schema")];
           pdata.ResourceLogs.ScopeLogsSlice :=
             [ {| pdata.ScopeLogs.ScopeName := "qanprocessor";
                  pdata.ScopeLogs.LogRecords := records |} ] |} ] /\
    records = [].
Proof.
  destruct (proj1 (proj2 (proj2 batch_has_one_resource_and_one_scope))
              Scenario.mysqlCollector Scenario.tickingClock
              (Scenario.deltaRow "B" 0 0 10%float) []) as (records & Hbatch & Hnone).
  exists records. split; [exact Hbatch|].
  apply Hnone. repeat constructor. vm_compute. discriminate.
Defined.

(** * Further properties of the averages and of the input checks *)

(** ** Classes of binary64 values *)

Lemma Prim2SF_nan_inv (x : float) : Prim2SF x = S754_nan -> x = nan.
Proof. intros H. apply Prim2SF_inj. now rewrite H. Qed.

Lemma is_nan_false_SF (x : float) : is_nan x = false -> Prim2SF x <> S754_nan.
Proof.
  unfold is_nan. rewrite FloatAxioms.eqb_spec. intros H Hnan. rewrite Hnan in H. discriminate.
Qed.

Lemma is_finite_SF (x : float) :
  is_finite x = true ->
  (exists s, Prim2SF x = S754_zero s) \/ (exists s m e, Prim2SF x = S754_finite s m e).
Proof.
  unfold is_finite, is_nan, is_infinity. rewrite !FloatAxioms.eqb_spec, abs_spec.
  change (Prim2SF infinity) with (S754_infinity false).
  destruct (Prim2SF x) as [s|s| |s m e]; try destruct s; simpl; intros H;
    try discriminate; eauto 6.
Qed.

Lemma SFcompare_refl x : x <> S754_nan -> SFcompare x x = Some Eq.
Proof.
  destruct x as [s|s| |s m e]; simpl; try congruence.
  - now destruct s.
  - intros _. rewrite Z.compare_refl.
    change (Pos.compare_cont Eq m m) with (m ?= m)%positive.
    rewrite Pos.compare_refl. now destruct s.
Qed.

(** For two values that are not NaN, [x < y] fails only when [y <= x]. *)
Lemma SFltb_false_leb x y :
  x <> S754_nan -> y <> S754_nan -> SFltb x y = false -> SFleb y x = true.
Proof.
  unfold SFleb, SFltb.
  destruct x as [s1|s1| |s1 m1 e1], y as [s2|s2| |s2 m2 e2]; simpl;
    try destruct s1; try destruct s2; simpl; try congruence; intros _ _.
  - rewrite (Z.compare_antisym e1 e2). destruct (e1 ?= e2); simpl; try congruence.
    change (Pos.compare_cont Eq m2 m1) with (m2 ?= m1)%positive.
    change (Pos.compare_cont Eq m1 m2) with (m1 ?= m2)%positive.
    rewrite (Pos.compare_antisym m1 m2). destruct (m1 ?= m2)%positive; simpl; congruence.
  - rewrite (Z.compare_antisym e1 e2). destruct (e1 ?= e2); simpl; try congruence.
    change (Pos.compare_cont Eq m2 m1) with (m2 ?= m1)%positive.
    change (Pos.compare_cont Eq m1 m2) with (m1 ?= m2)%positive.
    rewrite (Pos.compare_antisym m1 m2). destruct (m1 ?= m2)%positive; simpl; congruence.
Qed.

Lemma float_ltb_false_leb (x y : float) :
  is_nan x = false -> is_nan y = false -> (x <? y)%float = false -> (y <=? x)%float = true.
Proof.
  intros Hx Hy. rewrite ltb_spec, leb_spec.
  apply SFltb_false_leb; now apply is_nan_false_SF.
Qed.

(** A comparison with NaN is false. *)
Lemma float_ltb_nan (y : float) : (nan <? y)%float = false /\ (y <? nan)%float = false.
Proof.
  rewrite !ltb_spec. change (Prim2SF nan) with S754_nan. split; [reflexivity|].
  now destruct (Prim2SF y) as [s|s| |s m e].
Qed.

(** An operand NaN makes the sum, the difference and the product NaN. *)
Lemma float_arith_nan (x : float) :
  (nan + x = nan /\ x + nan = nan /\ nan - x = nan /\ x - nan = nan /\
   nan * x = nan /\ x * nan = nan)%float.
Proof.
  repeat split; apply Prim2SF_nan_inv;
    rewrite ?add_spec, ?sub_spec, ?mul_spec; change (Prim2SF nan) with S754_nan;
    try reflexivity; now destruct (Prim2SF x) as [s|s| |s m e].
Qed.

(** The difference of a finite value and itself is the positive zero. *)
Lemma SFsub_diag prec emax s m e :
  SFsub prec emax (S754_finite s m e) (S754_finite s m e) = S754_zero false.
Proof. unfold SFsub. cbv zeta. now rewrite Z.sub_diag. Qed.

(** ** What the operations leave alone *)

Section GovernorSettings.

Variable math_Pow : float -> float -> float.
Variable json_Marshal : adaptive.GovernorState.t -> option string.
Variable json_Unmarshal : string -> option adaptive.GovernorState.t.

Lemma sameSettings_refl g : adaptive.sameSettings g g.
Proof. now repeat split. Qed.

Lemma sameSettings_trans g1 g2 g3 :
  adaptive.sameSettings g1 g2 -> adaptive.sameSettings g2 g3 -> adaptive.sameSettings g1 g3.
Proof.
  unfold adaptive.sameSettings. intros (? & ? & ? & ?) (? & ? & ? & ?).
  repeat split; congruence.
Qed.

Lemma adjustInterval_settings g w :
  adaptive.sameSettings g (fst (adaptive.adjustInterval math_Pow g w)).
Proof.
  unfold adaptive.adjustInterval. destruct (0.1 <? _)%float; now repeat split.
Qed.

Lemma restoreState_settings g io w :
  adaptive.sameSettings g (adaptive.restoreState json_Unmarshal g io w).
Proof.
  unfold adaptive.restoreState.
  destruct (String.eqb _ _); [apply sameSettings_refl|].
  destruct (if adaptive.IO.Stat_ok io then _ else _); [|apply sameSettings_refl].
  destruct (_ >? _); [apply sameSettings_refl|].
  destruct (negb _); [apply sameSettings_refl|].
  destruct (json_Unmarshal _); [|apply sameSettings_refl].
  now repeat split.
Qed.

Lemma ProcessLoadMetrics_settings g load io w :
  adaptive.sameSettings g (fst (adaptive.ProcessLoadMetrics math_Pow json_Marshal g load io w)).
Proof.
  unfold adaptive.ProcessLoadMetrics.
  match goal with |- context [adaptive.adjustInterval math_Pow ?g1 w] =>
    pose proof (adjustInterval_settings g1 w) as H;
    destruct (adaptive.adjustInterval math_Pow g1 w) as [g2 w2] end.
  simpl in H. destruct (_ >? _); simpl; destruct H as (? & ? & ? & ?); now repeat split.
Qed.

Lemma Reset_settings g remove_ok w :
  adaptive.sameSettings g (fst (adaptive.Reset g remove_ok w)).
Proof. now repeat split. Qed.

Lemma applyOperation_settings g w op :
  adaptive.sameSettings g
    (fst (adaptive.applyOperation math_Pow json_Marshal json_Unmarshal (g, w) op)).
Proof.
  destruct op as [load io|remove_ok|io]; unfold adaptive.applyOperation.
  - apply ProcessLoadMetrics_settings.
  - apply Reset_settings.
  - apply restoreState_settings.
Qed.

Lemma runOperations_settings ops :
  forall g w,
    adaptive.sameSettings g
      (fst (adaptive.runOperations math_Pow json_Marshal json_Unmarshal (g, w) ops)).
Proof.
  unfold adaptive.runOperations.
  induction ops as [|op ops IH]; intros g w; cbn [foldl]; [apply sameSettings_refl|].
  pose proof (applyOperation_settings g w op) as H.
  destruct (adaptive.applyOperation math_Pow json_Marshal json_Unmarshal (g, w) op) as [g1 w1].
  eapply sameSettings_trans; [exact H | apply IH].
Qed.

Lemma NewAdaptiveGovernor_jitter baseInterval stateDir io w :
  adaptive.AdaptiveGovernor.jitterPercent
    (adaptive.NewAdaptiveGovernor json_Unmarshal baseInterval stateDir io w)
  = adaptive.DefaultJitterPercent.
Proof.
  unfold adaptive.NewAdaptiveGovernor.
  match goal with |- context [adaptive.restoreState json_Unmarshal ?g io w] =>
    destruct (restoreState_settings g io w) as (_ & -> & _) end.
  reflexivity.
Qed.

End GovernorSettings.

(** ** The averages *)

(** X14. An average takes its first sample, after its creation or after
    a reset, as it is, whatever its weight. Once it holds a finite
    value, a sample equal to that value leaves it unchanged as a number
    (only a negative zero may turn into the positive zero): under a
    steady load the average does not drift. *)
Theorem average_first_sample_and_steady_state :
  (forall alpha sample,
     adaptive.EMA_Value (adaptive.EMA_Update (adaptive.NewEMA alpha) sample) = sample) /\
  (forall e sample,
     adaptive.EMA_Value (adaptive.EMA_Update (adaptive.EMA_Reset e) sample) = sample) /\
  (forall e,
     adaptive.EMA.initValue e = true ->
     is_finite (adaptive.EMA.alpha e) = true ->
     is_finite (adaptive.EMA.value e) = true ->
     (adaptive.EMA_Value (adaptive.EMA_Update e (adaptive.EMA_Value e))
      =? adaptive.EMA_Value e)%float = true).
Proof.
  split; [reflexivity|]. split; [reflexivity|].
  intros [alpha value init]. simpl. intros -> Halpha Hvalue.
  unfold adaptive.EMA_Update, adaptive.EMA_Value. simpl.
  rewrite FloatAxioms.eqb_spec, add_spec, mul_spec, sub_spec.
  unfold SF64add, SF64mul, SF64sub, SFeqb.
  destruct (is_finite_SF _ Hvalue) as [[s ->] | (s & m & e & ->)];
    destruct (is_finite_SF _ Halpha) as [[sa ->] | (sa & ma & ea & ->)].
  - now destruct s, sa.
  - now destruct s, sa.
  - rewrite SFsub_diag. cbn [SFmul SFadd]. rewrite SFcompare_refl; [reflexivity | discriminate].
  - rewrite SFsub_diag. cbn [SFmul SFadd]. rewrite SFcompare_refl; [reflexivity | discriminate].
Qed.

Lemma average_first_sample_and_steady_state_witness :
  (adaptive.EMA_Value
     (adaptive.EMA_Update (adaptive.EMA.mk adaptive.FastEMAAlpha 0.8 true) 0.8)
   =? 0.8)%float = true.
Proof.
  apply (proj2 (proj2 average_first_sample_and_steady_state)
           (adaptive.EMA.mk adaptive.FastEMAAlpha 0.8 true)); reflexivity.
Defined.

Section NaNLoad.

Variable math_Pow : float -> float -> float.
Variable json_Marshal : adaptive.GovernorState.t -> option string.

Lemma clampLoad_nan : adaptive.clampLoad nan = nan.
Proof.
  unfold adaptive.clampLoad.
  now rewrite (proj1 (float_ltb_nan 0)), (proj2 (float_ltb_nan 1)).
Qed.

Lemma EMA_Update_nan e : adaptive.EMA_Value (adaptive.EMA_Update e nan) = nan.
Proof.
  unfold adaptive.EMA_Update, adaptive.EMA_Value.
  destruct (adaptive.EMA.initValue e); simpl; [|reflexivity].
  destruct (float_arith_nan (adaptive.EMA.value e)) as (_ & _ & -> & _).
  destruct (float_arith_nan (adaptive.EMA.alpha e)) as (_ & _ & _ & _ & _ & ->).
  now destruct (float_arith_nan (adaptive.EMA.value e)) as (_ & -> & _).
Qed.

Lemma EMA_Update_poisoned e sample :
  adaptive.EMA.initValue e = true -> adaptive.EMA.value e = nan ->
  adaptive.EMA_Value (adaptive.EMA_Update e sample) = nan.
Proof.
  unfold adaptive.EMA_Update, adaptive.EMA_Value. intros -> ->. simpl.
  now destruct (float_arith_nan (adaptive.EMA.alpha e * (sample - nan))%float) as (-> & _).
Qed.

Lemma EMA_Update_initValue e sample :
  adaptive.EMA.initValue (adaptive.EMA_Update e sample) = true.
Proof. unfold adaptive.EMA_Update. now destruct (adaptive.EMA.initValue e) eqn:E. Qed.

Lemma newIntervalFor_nan baseInterval :
  adaptive.newIntervalFor math_Pow baseInterval nan = baseInterval.
Proof.
  unfold adaptive.newIntervalFor.
  now rewrite (proj2 (float_ltb_nan adaptive.CriticalLoadThreshold)),
    (proj2 (float_ltb_nan adaptive.HighLoadThreshold)).
Qed.

Lemma adjustInterval_current_cases g w :
  let g' := fst (adaptive.adjustInterval math_Pow g w) in
  adaptive.AdaptiveGovernor.currentInterval g' = adaptive.AdaptiveGovernor.currentInterval g \/
  adaptive.AdaptiveGovernor.currentInterval g'
  = adaptive.newIntervalFor math_Pow (adaptive.AdaptiveGovernor.baseInterval g)
      (adaptive.EMA_Value (adaptive.AdaptiveGovernor.fastEMA g)).
Proof.
  unfold adaptive.adjustInterval. destruct (0.1 <? _)%float; simpl; auto.
Qed.

Lemma ProcessLoadMetrics_nan g load io w :
  load = nan \/
  (adaptive.EMA.initValue (adaptive.AdaptiveGovernor.fastEMA g) = true /\
   adaptive.EMA.value (adaptive.AdaptiveGovernor.fastEMA g) = nan) ->
  let g' := fst (adaptive.ProcessLoadMetrics math_Pow json_Marshal g load io w) in
  adaptive.EMA.initValue (adaptive.AdaptiveGovernor.fastEMA g') = true /\
  adaptive.EMA.value (adaptive.AdaptiveGovernor.fastEMA g') = nan /\
  (adaptive.AdaptiveGovernor.currentInterval g' = adaptive.AdaptiveGovernor.currentInterval g \/
   adaptive.AdaptiveGovernor.currentInterval g' = adaptive.AdaptiveGovernor.baseInterval g).
Proof.
  intros Hnan g'. subst g'.
  destruct (ProcessLoadMetrics_adjusts math_Pow json_Marshal g load io w) as (Hfast & Hcur & _).
  rewrite Hfast, Hcur. cbn [adaptive.with_EMAs adaptive.AdaptiveGovernor.fastEMA].
  assert (Hvalue : adaptive.EMA.value
                     (adaptive.EMA_Update (adaptive.AdaptiveGovernor.fastEMA g)
                        (adaptive.clampLoad load)) = nan).
  { destruct Hnan as [-> | [Hinit Hvalue]].
    - rewrite clampLoad_nan. apply EMA_Update_nan.
    - now apply EMA_Update_poisoned. }
  split; [apply EMA_Update_initValue|]. split; [exact Hvalue|].
  match goal with |- context [adaptive.adjustInterval math_Pow ?g1 w] =>
    destruct (adjustInterval_current_cases g1 w) as [H | H] end.
  - left. exact H.
  - right. rewrite H. cbn [adaptive.with_EMAs adaptive.AdaptiveGovernor.fastEMA
                           adaptive.AdaptiveGovernor.baseInterval].
    unfold adaptive.EMA_Value. rewrite Hvalue. apply newIntervalFor_nan.
Qed.

End NaNLoad.

(** X15. [ProcessLoadMetrics] does not reject a load that is NaN: the
    check of the range lets it through, both updates of an average with
    it give NaN, and an average that is NaN stays NaN under every later
    sample. From then on the governor only ever chooses its base
    interval, until [Reset] clears the averages. *)
Theorem nan_load_disables_the_governor :
  forall (math_Pow : float -> float -> float)
         (json_Marshal : adaptive.GovernorState.t -> option string)
         (g : adaptive.AdaptiveGovernor.t) (load : float) (io : adaptive.IO.t)
         (w : adaptive.World.t),
    load = nan \/
    (adaptive.EMA.initValue (adaptive.AdaptiveGovernor.fastEMA g) = true /\
     adaptive.EMA.value (adaptive.AdaptiveGovernor.fastEMA g) = nan) ->
    let g' := fst (adaptive.ProcessLoadMetrics math_Pow json_Marshal g load io w) in
    adaptive.EMA.initValue (adaptive.AdaptiveGovernor.fastEMA g') = true /\
    adaptive.EMA.value (adaptive.AdaptiveGovernor.fastEMA g') = nan /\
    adaptive.newIntervalFor math_Pow (adaptive.AdaptiveGovernor.baseInterval g')
      (adaptive.EMA_Value (adaptive.AdaptiveGovernor.fastEMA g'))
    = adaptive.AdaptiveGovernor.baseInterval g /\
    (adaptive.AdaptiveGovernor.currentInterval g' = adaptive.AdaptiveGovernor.currentInterval g \/
     adaptive.AdaptiveGovernor.currentInterval g' = adaptive.AdaptiveGovernor.baseInterval g).
Proof.
  intros math_Pow json_Marshal g load io w Hnan g'.
  destruct (ProcessLoadMetrics_nan math_Pow json_Marshal g load io w Hnan)
    as (Hinit & Hvalue & Hcur).
  fold g' in Hinit, Hvalue, Hcur.
  split; [exact Hinit|]. split; [exact Hvalue|]. split; [|exact Hcur].
  unfold adaptive.EMA_Value. rewrite Hvalue, newIntervalFor_nan.
  apply (ProcessLoadMetrics_settings math_Pow json_Marshal g load io w).
Qed.

Lemma nan_load_disables_the_governor_witness :
  let g' := fst (adaptive.ProcessLoadMetrics Scenario.flatPow Scenario.noMarshal
                   Scenario.busyGovernor nan (Scenario.healthyIO 30) Scenario.emptyWorld) in
  adaptive.EMA.initValue (adaptive.AdaptiveGovernor.fastEMA g') = true /\
  adaptive.EMA.value (adaptive.AdaptiveGovernor.fastEMA g') = nan /\
  adaptive.newIntervalFor Scenario.flatPow (adaptive.AdaptiveGovernor.baseInterval g')
    (adaptive.EMA_Value (adaptive.AdaptiveGovernor.fastEMA g'))
  = Time.Second /\
  (adaptive.AdaptiveGovernor.currentInterval g' = 2 * Time.Second \/
   adaptive.AdaptiveGovernor.currentInterval g' = Time.Second).
Proof.
  apply (nan_load_disables_the_governor Scenario.flatPow Scenario.noMarshal
           Scenario.busyGovernor nan (Scenario.healthyIO 30) Scenario.emptyWorld).
  now left.
Defined.

(** ** Checks of the range of the inputs *)

(** X16. The check of the range in [ProcessLoadMetrics] and the one in
    [WithJitterPercent] do what they are for on every number: a load
    that is not NaN is fed to the averages as a value from 0 to 1 (so
    the first sample of a fresh governor lies in that range), and a
    jitter that is not NaN is recorded as a value from 0 to 0.5. *)
Theorem load_and_jitter_are_clamped :
  (forall load,
     is_nan load = false ->
     (0 <=? adaptive.clampLoad load)%float = true /\
     (adaptive.clampLoad load <=? 1)%float = true) /\
  (forall (math_Pow : float -> float -> float)
          (json_Marshal : adaptive.GovernorState.t -> option string)
          g load io w,
     adaptive.EMA.initValue (adaptive.AdaptiveGovernor.fastEMA g) = false ->
     adaptive.EMA_Value
       (adaptive.AdaptiveGovernor.fastEMA
          (fst (adaptive.ProcessLoadMetrics math_Pow json_Marshal g load io w)))
     = adaptive.clampLoad load) /\
  (forall g percent,
     is_nan percent = false ->
     let jitter := adaptive.AdaptiveGovernor.jitterPercent
                     (adaptive.WithJitterPercent g percent) in
     (0 <=? jitter)%float = true /\ (jitter <=? 0.5)%float = true).
Proof.
  split; [|split].
  - intros load Hnan. unfold adaptive.clampLoad.
    destruct (load <? 0)%float eqn:Hlow; [now split|].
    destruct (1 <? load)%float eqn:Hhigh; [now split|].
    split; now apply float_ltb_false_leb.
  - intros math_Pow json_Marshal g load io w Hfresh.
    destruct (ProcessLoadMetrics_adjusts math_Pow json_Marshal g load io w) as (-> & _).
    cbn [adaptive.with_EMAs adaptive.AdaptiveGovernor.fastEMA].
    unfold adaptive.EMA_Update. now rewrite Hfresh.
  - intros g percent Hnan. unfold adaptive.WithJitterPercent.
    cbn [adaptive.AdaptiveGovernor.jitterPercent].
    destruct (percent <? 0)%float eqn:Hlow; [now split|].
    destruct (0.5 <? percent)%float eqn:Hhigh; [now split|].
    split; now apply float_ltb_false_leb.
Qed.

Lemma load_and_jitter_are_clamped_witness :
  ((0 <=? adaptive.clampLoad 7.5)%float = true /\
   (adaptive.clampLoad 7.5 <=? 1)%float = true) /\
  ((0 <=? adaptive.clampLoad (-0.25))%float = true /\
   (adaptive.clampLoad (-0.25) <=? 1)%float = true).
Proof.
  split; apply (proj1 load_and_jitter_are_clamped); reflexivity.
Defined.

(** * Further properties of the governor *)

(** ** The interval handed to the ticker *)

(** X17. [GetCurrentInterval] on a governor made by
    [NewAdaptiveGovernor] never returns less than the minimum interval,
    whatever happened to the governor since, whatever the random draw,
    and even when the interval restored from a state file is below the
    minimum: the constructor turns the jitter on, no operation turns it
    off, and the jittered value is raised to the minimum. With the
    jitter set to zero, [GetCurrentInterval] is [GetRawInterval]. *)
Theorem jittered_interval_never_below_minimum :
  (forall (math_Pow : float -> float -> float)
          (json_Marshal : adaptive.GovernorState.t -> option string)
          (json_Unmarshal : string -> option adaptive.GovernorState.t)
          baseInterval stateDir io w ops random,
     adaptive.MinimumInterval <=
     adaptive.GetCurrentInterval
       (fst (adaptive.runOperations math_Pow json_Marshal json_Unmarshal
               (adaptive.NewAdaptiveGovernor json_Unmarshal baseInterval stateDir io w, w)
               ops))
       random) /\
  (forall g random,
     adaptive.GetCurrentInterval (adaptive.WithJitterPercent g 0) random
     = adaptive.GetRawInterval g).
Proof.
  split; [|reflexivity].
  intros math_Pow json_Marshal json_Unmarshal baseInterval stateDir io w ops random.
  apply GetCurrentInterval_floor.
  destruct (runOperations_settings math_Pow json_Marshal json_Unmarshal ops
              (adaptive.NewAdaptiveGovernor json_Unmarshal baseInterval stateDir io w) w)
    as (_ & -> & _).
  now rewrite NewAdaptiveGovernor_jitter.
Qed.

(** ** The callback *)

Section GovernorCallback.

Variable math_Pow : float -> float -> float.
Variable json_Marshal : adaptive.GovernorState.t -> option string.
Variable json_Unmarshal : string -> option adaptive.GovernorState.t.

Lemma default_last_app {A : Type} (d : A) (l1 l2 : list A) :
  default d (last (l1 ++ l2)) = default (default d (last l1)) (last l2).
Proof. rewrite last_app. now destruct (last l2). Qed.

Lemma adjustInterval_callback g w :
  adaptive.AdaptiveGovernor.intervalChangeCb g = true ->
  let r := adaptive.adjustInterval math_Pow g w in
  exists calls,
    adaptive.World.callbackLog (snd r) = adaptive.World.callbackLog w ++ calls /\
    adaptive.AdaptiveGovernor.currentInterval (fst r)
    = default (adaptive.AdaptiveGovernor.currentInterval g) (last calls).
Proof.
  intros Hcb. unfold adaptive.adjustInterval.
  destruct (0.1 <? _)%float.
  - eexists [_]. unfold adaptive.callIntervalChangeCb.
    cbn [adaptive.with_currentInterval adaptive.AdaptiveGovernor.intervalChangeCb].
    rewrite Hcb. split; reflexivity.
  - exists []. split; [now rewrite app_nil_r | reflexivity].
Qed.

Lemma applyOperation_callback g w op :
  adaptive.AdaptiveGovernor.intervalChangeCb g = true ->
  adaptive.exportedOperation op ->
  let r := adaptive.applyOperation math_Pow json_Marshal json_Unmarshal (g, w) op in
  exists calls,
    adaptive.World.callbackLog (snd r) = adaptive.World.callbackLog w ++ calls /\
    adaptive.AdaptiveGovernor.currentInterval (fst r)
    = default (adaptive.AdaptiveGovernor.currentInterval g) (last calls).
Proof.
  intros Hcb Hop. destruct op as [load io|remove_ok|io]; [| |destruct Hop];
    unfold adaptive.applyOperation.
  - destruct (ProcessLoadMetrics_adjusts math_Pow json_Marshal g load io w) as (_ & Hcur & Hlog).
    cbv zeta. rewrite Hcur, Hlog.
    match goal with |- context [adaptive.adjustInterval math_Pow ?g1 w] =>
      exact (adjustInterval_callback g1 w Hcb) end.
  - exists [adaptive.AdaptiveGovernor.baseInterval g].
    unfold adaptive.Reset, adaptive.callIntervalChangeCb.
    cbn [adaptive.with_currentInterval adaptive.with_lastSnapshotTime adaptive.with_EMAs
         adaptive.AdaptiveGovernor.intervalChangeCb adaptive.AdaptiveGovernor.baseInterval
         adaptive.AdaptiveGovernor.stateDir adaptive.AdaptiveGovernor.currentInterval fst snd].
    rewrite Hcb. split; [|reflexivity].
    destruct (negb _); [destruct remove_ok|]; reflexivity.
Qed.

End GovernorCallback.

(** X18. Once a callback is registered, it is told of every change of
    the interval made through [ProcessLoadMetrics] and [Reset]: after
    any sequence of these, the interval of the governor is the argument
    of the latest call of the callback, or the interval it started with
    when no call was made. The ticker that the callback resets is
    therefore never out of step with the governor. *)
Theorem callback_follows_the_interval :
  forall (math_Pow : float -> float -> float)
         (json_Marshal : adaptive.GovernorState.t -> option string)
         (json_Unmarshal : string -> option adaptive.GovernorState.t)
         (g : adaptive.AdaptiveGovernor.t) (w : adaptive.World.t)
         (ops : list adaptive.Operation),
    Forall adaptive.exportedOperation ops ->
    let r := adaptive.runOperations math_Pow json_Marshal json_Unmarshal
               (adaptive.WithIntervalChangeCallback g, w) ops in
    exists calls,
      adaptive.World.callbackLog (snd r) = adaptive.World.callbackLog w ++ calls /\
      adaptive.GetRawInterval (fst r)
      = default (adaptive.GetRawInterval g) (last calls).
Proof.
  intros math_Pow json_Marshal json_Unmarshal g w ops Hops.
  change (adaptive.GetRawInterval g)
    with (adaptive.AdaptiveGovernor.currentInterval (adaptive.WithIntervalChangeCallback g)).
  assert (Hcb : adaptive.AdaptiveGovernor.intervalChangeCb
                  (adaptive.WithIntervalChangeCallback g) = true) by reflexivity.
  revert Hcb. generalize (adaptive.WithIntervalChangeCallback g). clear g.
  unfold adaptive.runOperations, adaptive.GetRawInterval. revert w.
  induction Hops as [|op ops Hop Hops IH]; intros w g Hcb; cbn [foldl].
  - exists []. split; [now rewrite app_nil_r | reflexivity].
  - destruct (applyOperation_callback math_Pow json_Marshal json_Unmarshal g w op Hcb Hop)
      as (calls1 & Hlog1 & Hcur1).
    pose proof (applyOperation_settings math_Pow json_Marshal json_Unmarshal g w op)
      as (_ & _ & _ & Hcb1).
    destruct (adaptive.applyOperation math_Pow json_Marshal json_Unmarshal (g, w) op)
      as [g1 w1].
    cbn [fst snd] in *. rewrite Hcb in Hcb1.
    destruct (IH w1 g1 Hcb1) as (calls2 & Hlog2 & Hcur2).
    exists (calls1 ++ calls2). split.
    + now rewrite Hlog2, Hlog1, app_assoc.
    + now rewrite Hcur2, Hcur1, default_last_app.
Qed.

Lemma callback_follows_the_interval_witness :
  let r := adaptive.runOperations Scenario.flatPow Scenario.noMarshal Scenario.noUnmarshal
             (adaptive.WithIntervalChangeCallback Scenario.busyGovernor, Scenario.emptyWorld)
             [adaptive.OpProcessLoadMetrics 0.95 (Scenario.healthyIO 10);
              adaptive.OpProcessLoadMetrics 0.95 (Scenario.healthyIO 20);
              adaptive.OpReset true] in
  exists calls,
    adaptive.World.callbackLog (snd r) = [] ++ calls /\
    adaptive.GetRawInterval (fst r) = default (2 * Time.Second) (last calls).
Proof.
  apply (callback_follows_the_interval Scenario.flatPow Scenario.noMarshal
           Scenario.noUnmarshal Scenario.busyGovernor Scenario.emptyWorld).
  repeat constructor.
Defined.

(** ** Restoring, resetting and saving the state *)

Section GovernorRestore.

Variable math_Pow : float -> float -> float.
Variable json_Marshal : adaptive.GovernorState.t -> option string.
Variable json_Unmarshal : string -> option adaptive.GovernorState.t.

(** What makes [restoreState] give up. *)
Lemma restoreState_gives_up g io w :
  adaptive.AdaptiveGovernor.stateDir g = "" \/
  adaptive.IO.Stat_ok io = false \/
  match adaptive.World.files w
          !! adaptive.filepath_Join (adaptive.AdaptiveGovernor.stateDir g)
               adaptive.StateFileName with
  | None => True
  | Some file =>
      Time.Hour < Time.Sub (adaptive.IO.now io) (adaptive.File.ModTime file) \/
      adaptive.IO.ReadFile_ok io = false \/
      json_Unmarshal (adaptive.File.data file) = None
  end ->
  adaptive.restoreState json_Unmarshal g io w = g.
Proof.
  unfold adaptive.restoreState. intros [-> | [-> | H]]; [reflexivity | |].
  - now destruct (String.eqb _ _).
  - destruct (String.eqb _ _); [reflexivity|].
    destruct (adaptive.IO.Stat_ok io); [|reflexivity].
    destruct (adaptive.World.files w !! _) as [file|]; [|reflexivity].
    destruct H as [H | [-> | ->]].
    + destruct (Z.gtb_spec (Time.Sub (adaptive.IO.now io) (adaptive.File.ModTime file))
                  Time.Hour); [reflexivity | lia].
    + now destruct (_ >? _).
    + destruct (_ >? _); [reflexivity|]. now destruct (negb _).
Qed.

Lemma Reset_removes_state g w :
  let r := adaptive.Reset g true w in
  adaptive.AdaptiveGovernor.stateDir g = "" \/
  adaptive.World.files (snd r)
    !! adaptive.filepath_Join (adaptive.AdaptiveGovernor.stateDir g) adaptive.StateFileName
  = None.
Proof.
  unfold adaptive.Reset. cbv zeta.
  cbn [adaptive.with_currentInterval adaptive.with_lastSnapshotTime adaptive.with_EMAs
       adaptive.AdaptiveGovernor.stateDir adaptive.AdaptiveGovernor.baseInterval snd].
  rewrite callIntervalChangeCb_files.
  destruct (String.eqb_spec (adaptive.AdaptiveGovernor.stateDir g) "") as [->|Hne];
    [now left|right].
  cbn [negb adaptive.with_files adaptive.World.files]. apply lookup_delete_eq.
Qed.

End GovernorRestore.

(** X19. [restoreState], and with it [NewAdaptiveGovernor], leaves the
    governor as it is (a cold start at the base interval) when no state
    directory is configured, when the state file is missing or cannot
    be examined, when it was written more than an hour ago, when it
    cannot be read, and when it does not parse. *)
Theorem unusable_state_is_ignored :
  forall (json_Unmarshal : string -> option adaptive.GovernorState.t)
         (baseInterval : Time.Duration) (stateDir : string)
         (io : adaptive.IO.t) (w : adaptive.World.t),
    stateDir = "" \/
    adaptive.IO.Stat_ok io = false \/
    match adaptive.World.files w !! adaptive.filepath_Join stateDir adaptive.StateFileName with
    | None => True
    | Some file =>
        Time.Hour < Time.Sub (adaptive.IO.now io) (adaptive.File.ModTime file) \/
        adaptive.IO.ReadFile_ok io = false \/
        json_Unmarshal (adaptive.File.data file) = None
    end ->
    adaptive.NewAdaptiveGovernor json_Unmarshal baseInterval stateDir io w
    = {| adaptive.AdaptiveGovernor.fastEMA := adaptive.NewEMA adaptive.FastEMAAlpha;
         adaptive.AdaptiveGovernor.slowEMA := adaptive.NewEMA adaptive.SlowEMAAlpha;
         adaptive.AdaptiveGovernor.baseInterval := Z.max baseInterval adaptive.MinimumInterval;
         adaptive.AdaptiveGovernor.currentInterval :=
           Z.max baseInterval adaptive.MinimumInterval;
         adaptive.AdaptiveGovernor.jitterPercent := adaptive.DefaultJitterPercent;
         adaptive.AdaptiveGovernor.stateDir := stateDir;
         adaptive.AdaptiveGovernor.lastSnapshotTime := adaptive.zeroTime;
         adaptive.AdaptiveGovernor.intervalChangeCb := false |}.
Proof.
  intros json_Unmarshal baseInterval stateDir io w H.
  unfold adaptive.NewAdaptiveGovernor. rewrite restoreState_gives_up by exact H.
  unfold adaptive.with_currentInterval. cbn.
  destruct (Z.ltb_spec baseInterval adaptive.MinimumInterval).
  - now rewrite Z.max_r by lia.
  - now rewrite Z.max_l by lia.
Qed.

Lemma unusable_state_is_ignored_witness :
  adaptive.AdaptiveGovernor.currentInterval
    (adaptive.NewAdaptiveGovernor Scenario.binaryUnmarshal Time.Second "/var/otel"
       (Scenario.healthyIO 7200) Scenario.worldWithTinyState)
  = Time.Second.
Proof.
  rewrite (unusable_state_is_ignored Scenario.binaryUnmarshal Time.Second "/var/otel"
             (Scenario.healthyIO 7200) Scenario.worldWithTinyState).
  - reflexivity.
  - right. right. left. reflexivity.
Defined.

(** X20. [Reset] puts the governor back to where a cold start puts it:
    the interval is the base interval, both averages wait for a first
    sample, the time of the last save is cleared, and the callback, if
    there is one, is called with the base interval. When the state file
    could be removed, a governor constructed afterwards on the same
    directory starts cold too: a saved state does not survive a
    reset. *)
Theorem reset_forgets_the_saved_state :
  forall (json_Unmarshal : string -> option adaptive.GovernorState.t)
         (g : adaptive.AdaptiveGovernor.t) (w : adaptive.World.t)
         (baseInterval : Time.Duration) (io : adaptive.IO.t),
    let r := adaptive.Reset g true w in
    let restarted :=
      adaptive.NewAdaptiveGovernor json_Unmarshal baseInterval
        (adaptive.AdaptiveGovernor.stateDir g) io (snd r) in
    adaptive.GetRawInterval (fst r) = adaptive.GetBaseInterval g /\
    adaptive.AdaptiveGovernor.fastEMA (fst r)
    = adaptive.NewEMA (adaptive.EMA.alpha (adaptive.AdaptiveGovernor.fastEMA g)) /\
    adaptive.AdaptiveGovernor.slowEMA (fst r)
    = adaptive.NewEMA (adaptive.EMA.alpha (adaptive.AdaptiveGovernor.slowEMA g)) /\
    adaptive.AdaptiveGovernor.lastSnapshotTime (fst r) = adaptive.zeroTime /\
    adaptive.World.callbackLog (snd r)
    = adaptive.World.callbackLog w
      ++ (if adaptive.AdaptiveGovernor.intervalChangeCb g
          then [adaptive.GetBaseInterval g] else []) /\
    adaptive.GetRawInterval restarted = Z.max baseInterval adaptive.MinimumInterval /\
    adaptive.AdaptiveGovernor.fastEMA restarted = adaptive.NewEMA adaptive.FastEMAAlpha /\
    adaptive.AdaptiveGovernor.slowEMA restarted = adaptive.NewEMA adaptive.SlowEMAAlpha.
Proof.
  intros json_Unmarshal g w baseInterval io r restarted.
  split; [reflexivity|]. split; [reflexivity|]. split; [reflexivity|]. split; [reflexivity|].
  split.
  - subst r. unfold adaptive.Reset, adaptive.callIntervalChangeCb. cbv zeta.
    cbn [adaptive.with_currentInterval adaptive.with_lastSnapshotTime adaptive.with_EMAs
         adaptive.AdaptiveGovernor.stateDir adaptive.AdaptiveGovernor.baseInterval
         adaptive.AdaptiveGovernor.intervalChangeCb snd].
    destruct (adaptive.AdaptiveGovernor.intervalChangeCb g);
      destruct (negb _); cbn; now rewrite ?app_nil_r.
  - subst restarted. unfold adaptive.NewAdaptiveGovernor.
    rewrite restoreState_gives_up.
    + unfold adaptive.GetRawInterval. cbn. split; [|now split].
      destruct (Z.ltb_spec baseInterval adaptive.MinimumInterval); lia.
    + cbn [adaptive.with_currentInterval adaptive.AdaptiveGovernor.stateDir].
      destruct (Reset_removes_state g w) as [Hdir | Hgone]; [now left|].
      right. right. fold r in Hgone. now rewrite Hgone.
Qed.

(** ** Saving the state *)

Lemma String_length_append (s1 s2 : string) :
  String.length (s1 +:+ s2) = (String.length s1 + String.length s2)%nat.
Proof. induction s1 as [|c s1 IH]; simpl; [reflexivity | now rewrite IH]. Qed.

Lemma tempPath_differs (statePath : string) : statePath +:+ ".tmp" <> statePath.
Proof.
  intros H. apply (f_equal String.length) in H.
  rewrite String_length_append in H. simpl in H. lia.
Qed.

(** X21. [saveState] changes no file but the state file of the governor
    and the temporary file beside it, and calls nobody. The state file
    is replaced in one step: afterwards it either is what it was, or
    holds the encoding of the current averages and interval, with no
    temporary file left. When creating the directory, encoding, writing
    or renaming fails, the state file is what it was. *)
Theorem save_replaces_the_state_file_or_nothing :
  forall (json_Marshal : adaptive.GovernorState.t -> option string)
         (g : adaptive.AdaptiveGovernor.t) (io : adaptive.IO.t) (w : adaptive.World.t),
    let w' := adaptive.saveState json_Marshal g io w in
    let statePath :=
      adaptive.filepath_Join (adaptive.AdaptiveGovernor.stateDir g) adaptive.StateFileName in
    let tempPath := statePath +:+ ".tmp" in
    let state :=
      {| adaptive.GovernorState.FastEMAValue :=
           adaptive.EMA_Value (adaptive.AdaptiveGovernor.fastEMA g);
         adaptive.GovernorState.SlowEMAValue :=
           adaptive.EMA_Value (adaptive.AdaptiveGovernor.slowEMA g);
         adaptive.GovernorState.Interval := adaptive.AdaptiveGovernor.currentInterval g;
         adaptive.GovernorState.Timestamp := adaptive.IO.now io |} in
    adaptive.World.callbackLog w' = adaptive.World.callbackLog w /\
    (forall path,
       path <> statePath -> path <> tempPath ->
       adaptive.World.files w' !! path = adaptive.World.files w !! path) /\
    (adaptive.World.files w' !! statePath = adaptive.World.files w !! statePath \/
     exists data,
       json_Marshal state = Some data /\
       adaptive.World.files w' !! statePath
       = Some {| adaptive.File.data := data; adaptive.File.ModTime := adaptive.IO.now io |} /\
       adaptive.World.files w' !! tempPath = None) /\
    (adaptive.AdaptiveGovernor.stateDir g = "" \/
     adaptive.IO.MkdirAll_ok io = false \/
     json_Marshal state = None \/
     adaptive.IO.WriteFile_ok io = false \/
     adaptive.IO.Rename_ok io = false ->
     adaptive.World.files w' !! statePath = adaptive.World.files w !! statePath).
Proof.
  intros json_Marshal g io w w' statePath tempPath state.
  pose proof (tempPath_differs statePath) as Hne. fold tempPath in Hne.
  split; [apply saveState_callbackLog|].
  subst w'. unfold adaptive.saveState. fold statePath. fold tempPath. fold state.
  destruct (String.eqb_spec (adaptive.AdaptiveGovernor.stateDir g) "") as [Hdir|Hdir].
  { split; [reflexivity|]. split; [now left | reflexivity]. }
  destruct (adaptive.IO.MkdirAll_ok io); cbn [negb];
    [|split; [reflexivity|]; split; [now left | reflexivity]].
  destruct (json_Marshal state) as [data|];
    [|split; [reflexivity|]; split; [now left | reflexivity]].
  destruct (adaptive.IO.WriteFile_ok io); cbn [negb];
    [|split; [reflexivity|]; split; [now left | reflexivity]].
  destruct (adaptive.IO.Rename_ok io); cbn [negb adaptive.with_files adaptive.World.files].
  - split; [|split].
    + intros path H1 H2.
      rewrite lookup_insert_ne, lookup_delete_ne, lookup_insert_ne by congruence.
      reflexivity.
    + right. exists data. split; [reflexivity|]. split.
      * apply lookup_insert_eq.
      * rewrite lookup_insert_ne by congruence. apply lookup_delete_eq.
    + intros [H | [H | [H | [H | H]]]]; congruence.
  - split; [|split].
    + intros path H1 H2. now rewrite lookup_insert_ne by congruence.
    + left. now rewrite lookup_insert_ne by congruence.
    + intros _. now rewrite lookup_insert_ne by congruence.
Qed.

Lemma save_replaces_the_state_file_or_nothing_witness :
  let io := {| adaptive.IO.now := 90 * Time.Second;
               adaptive.IO.MkdirAll_ok := true;
               adaptive.IO.WriteFile_ok := true;
               adaptive.IO.Rename_ok := false;
               adaptive.IO.Stat_ok := true;
               adaptive.IO.ReadFile_ok := true |} in
  adaptive.World.files
    (adaptive.saveState Scenario.binaryMarshal Scenario.busyGovernor io
       Scenario.worldWithTinyState)
    !! adaptive.filepath_Join "/var/otel" adaptive.StateFileName
  = adaptive.World.files Scenario.worldWithTinyState
      !! adaptive.filepath_Join "/var/otel" adaptive.StateFileName.
Proof.
  intros io.
  apply (save_replaces_the_state_file_or_nothing Scenario.binaryMarshal
           Scenario.busyGovernor io Scenario.worldWithTinyState).
  right. right. right. right. reflexivity.
Defined.

(** ** The save of once a minute *)

Section GovernorSaves.

Variable math_Pow : float -> float -> float.
Variable json_Marshal : adaptive.GovernorState.t -> option string.

Lemma adjustInterval_lastSnapshotTime g w :
  adaptive.AdaptiveGovernor.lastSnapshotTime (fst (adaptive.adjustInterval math_Pow g w))
  = adaptive.AdaptiveGovernor.lastSnapshotTime g.
Proof.
  unfold adaptive.adjustInterval. now destruct (0.1 <? _)%float.
Qed.

(** [ProcessLoadMetrics] in terms of its three steps. *)
Lemma ProcessLoadMetrics_steps g load io w :
  let g1 := adaptive.with_EMAs g
              (adaptive.EMA_Update (adaptive.AdaptiveGovernor.fastEMA g)
                 (adaptive.clampLoad load))
              (adaptive.EMA_Update (adaptive.AdaptiveGovernor.slowEMA g)
                 (adaptive.clampLoad load)) in
  let r2 := adaptive.adjustInterval math_Pow g1 w in
  adaptive.ProcessLoadMetrics math_Pow json_Marshal g load io w =
  if Time.Sub (adaptive.IO.now io) (adaptive.AdaptiveGovernor.lastSnapshotTime g) >? Time.Minute
  then (adaptive.with_lastSnapshotTime (fst r2) (adaptive.IO.now io),
        adaptive.saveState json_Marshal (fst r2) io (snd r2))
  else r2.
Proof.
  intros g1 r2. unfold adaptive.ProcessLoadMetrics. fold (adaptive.clampLoad load).
  fold g1. pose proof (adjustInterval_lastSnapshotTime g1 w) as Hlast.
  fold r2 in Hlast |- *. destruct r2 as [g2 w2]. cbn [fst snd] in *.
  change (adaptive.AdaptiveGovernor.lastSnapshotTime g1)
    with (adaptive.AdaptiveGovernor.lastSnapshotTime g) in Hlast.
  now rewrite Hlast.
Qed.

Lemma ProcessLoadMetrics_throttled g load io w :
  Time.Sub (adaptive.IO.now io) (adaptive.AdaptiveGovernor.lastSnapshotTime g) <= Time.Minute ->
  let r := adaptive.ProcessLoadMetrics math_Pow json_Marshal g load io w in
  adaptive.World.files (snd r) = adaptive.World.files w /\
  adaptive.AdaptiveGovernor.lastSnapshotTime (fst r)
  = adaptive.AdaptiveGovernor.lastSnapshotTime g.
Proof.
  intros Hrecent r. subst r. rewrite ProcessLoadMetrics_steps.
  destruct (Z.gtb_spec (Time.Sub (adaptive.IO.now io)
                          (adaptive.AdaptiveGovernor.lastSnapshotTime g)) Time.Minute);
    [lia|].
  split; [apply adjustInterval_files | now rewrite adjustInterval_lastSnapshotTime].
Qed.

Lemma ProcessLoadMetrics_due g load io w :
  Time.Minute < Time.Sub (adaptive.IO.now io) (adaptive.AdaptiveGovernor.lastSnapshotTime g) ->
  let r := adaptive.ProcessLoadMetrics math_Pow json_Marshal g load io w in
  adaptive.AdaptiveGovernor.lastSnapshotTime (fst r) = adaptive.IO.now io /\
  (adaptive.AdaptiveGovernor.stateDir g <> "" ->
   adaptive.IO.MkdirAll_ok io = true ->
   adaptive.IO.WriteFile_ok io = true ->
   adaptive.IO.Rename_ok io = true ->
   forall data,
     json_Marshal
       {| adaptive.GovernorState.FastEMAValue :=
            adaptive.EMA_Value (adaptive.AdaptiveGovernor.fastEMA (fst r));
          adaptive.GovernorState.SlowEMAValue :=
            adaptive.EMA_Value (adaptive.AdaptiveGovernor.slowEMA (fst r));
          adaptive.GovernorState.Interval := adaptive.AdaptiveGovernor.currentInterval (fst r);
          adaptive.GovernorState.Timestamp := adaptive.IO.now io |} = Some data ->
     adaptive.World.files (snd r)
       !! adaptive.filepath_Join (adaptive.AdaptiveGovernor.stateDir g) adaptive.StateFileName
     = Some {| adaptive.File.data := data; adaptive.File.ModTime := adaptive.IO.now io |}).
Proof.
  intros Hdue r. subst r. rewrite ProcessLoadMetrics_steps.
  destruct (Z.gtb_spec (Time.Sub (adaptive.IO.now io)
                          (adaptive.AdaptiveGovernor.lastSnapshotTime g)) Time.Minute);
    [|lia].
  split; [reflexivity|].
  cbn [fst snd adaptive.with_lastSnapshotTime adaptive.AdaptiveGovernor.fastEMA
       adaptive.AdaptiveGovernor.slowEMA adaptive.AdaptiveGovernor.currentInterval].
  intros Hdir Hmk Hwr Hrn data Hdata.
  match goal with |- context [adaptive.adjustInterval math_Pow ?g1 w] =>
    destruct (adjustInterval_settings math_Pow g1 w) as (_ & _ & Hsame & _);
    cbn [adaptive.with_EMAs adaptive.AdaptiveGovernor.stateDir] in Hsame end.
  rewrite <- Hsame. apply saveState_writes; try assumption. now rewrite Hsame.
Qed.

End GovernorSaves.

(** X22. [ProcessLoadMetrics] attempts a save only when more than a
    minute has passed since the last attempt: otherwise it touches no
    file. The time of the last attempt advances whether or not the
    attempt wrote anything, so a failed save is not retried before
    another minute has passed. An attempt on which every step succeeds
    leaves in the state file the averages and the interval as they are
    after the call. *)
Theorem state_is_saved_at_most_once_a_minute :
  forall (math_Pow : float -> float -> float)
         (json_Marshal : adaptive.GovernorState.t -> option string)
         (g : adaptive.AdaptiveGovernor.t) (load : float) (io : adaptive.IO.t)
         (w : adaptive.World.t),
    let r := adaptive.ProcessLoadMetrics math_Pow json_Marshal g load io w in
    (Time.Sub (adaptive.IO.now io) (adaptive.AdaptiveGovernor.lastSnapshotTime g)
     <= Time.Minute ->
     adaptive.World.files (snd r) = adaptive.World.files w /\
     adaptive.AdaptiveGovernor.lastSnapshotTime (fst r)
     = adaptive.AdaptiveGovernor.lastSnapshotTime g) /\
    (Time.Minute
     < Time.Sub (adaptive.IO.now io) (adaptive.AdaptiveGovernor.lastSnapshotTime g) ->
     adaptive.AdaptiveGovernor.lastSnapshotTime (fst r) = adaptive.IO.now io /\
     (forall load' io',
        Time.Sub (adaptive.IO.now io') (adaptive.IO.now io) <= Time.Minute ->
        adaptive.World.files
          (snd (adaptive.ProcessLoadMetrics math_Pow json_Marshal (fst r) load' io' (snd r)))
        = adaptive.World.files (snd r)) /\
     (adaptive.AdaptiveGovernor.stateDir g <> "" ->
      adaptive.IO.MkdirAll_ok io = true ->
      adaptive.IO.WriteFile_ok io = true ->
      adaptive.IO.Rename_ok io = true ->
      forall data,
        json_Marshal
          {| adaptive.GovernorState.FastEMAValue :=
               adaptive.EMA_Value (adaptive.AdaptiveGovernor.fastEMA (fst r));
             adaptive.GovernorState.SlowEMAValue :=
               adaptive.EMA_Value (adaptive.AdaptiveGovernor.slowEMA (fst r));
             adaptive.GovernorState.Interval :=
               adaptive.AdaptiveGovernor.currentInterval (fst r);
             adaptive.GovernorState.Timestamp := adaptive.IO.now io |} = Some data ->
        adaptive.World.files (snd r)
          !! adaptive.filepath_Join (adaptive.AdaptiveGovernor.stateDir g)
               adaptive.StateFileName
        = Some {| adaptive.File.data := data;
                  adaptive.File.ModTime := adaptive.IO.now io |})).
Proof.
  intros math_Pow json_Marshal g load io w r. split.
  - intros Hrecent. now apply ProcessLoadMetrics_throttled.
  - intros Hdue.
    destruct (ProcessLoadMetrics_due math_Pow json_Marshal g load io w Hdue) as [Hlast Hfile].
    fold r in Hlast, Hfile. split; [exact Hlast|]. split; [|exact Hfile].
    intros load' io' Hsoon.
    apply ProcessLoadMetrics_throttled. now rewrite Hlast.
Qed.

Lemma state_is_saved_at_most_once_a_minute_witness :
  let r := adaptive.ProcessLoadMetrics Scenario.flatPow Scenario.binaryMarshal
             Scenario.busyGovernor 0.5 (Scenario.healthyIO 30) Scenario.emptyWorld in
  adaptive.World.files (snd r) = ∅ /\
  adaptive.AdaptiveGovernor.lastSnapshotTime (fst r) = 0.
Proof.
  apply (proj1 (state_is_saved_at_most_once_a_minute Scenario.flatPow Scenario.binaryMarshal
                  Scenario.busyGovernor 0.5 (Scenario.healthyIO 30) Scenario.emptyWorld)).
  vm_compute. discriminate.
Defined.

(** ** The dead band *)

(** An interval is never more than a tenth away from itself, also when
    it is zero (the quotient is then not a number). *)
Lemma no_change_is_not_significant interval :
  (0.1 <? abs (F64.of_int (Int64.sub interval interval)) / F64.of_int interval)%float = false.
Proof.
  rewrite Int64_sub_diag.
  change (abs (F64.of_int 0)) with 0%float.
  rewrite ltb_spec, div_spec. change (Prim2SF 0) with (S754_zero false).
  remember (Prim2SF 0.1) as tenth eqn:E. vm_compute in E. subst tenth.
  now destruct (Prim2SF (F64.of_int interval)) as [s|s| |s m e].
Qed.

(** X23. [adjustInterval] does nothing when the interval it would
    choose is the current one, so applying it a second time changes
    nothing and calls nobody: the interval settles in one step for a
    given average. *)
Theorem adjust_interval_settles_in_one_step :
  forall (math_Pow : float -> float -> float)
         (g : adaptive.AdaptiveGovernor.t) (w : adaptive.World.t),
    let r := adaptive.adjustInterval math_Pow g w in
    adaptive.adjustInterval math_Pow (fst r) (snd r) = r.
Proof.
  intros math_Pow g w r. subst r. unfold adaptive.adjustInterval at 2 3 4.
  destruct (0.1 <? _)%float eqn:Hchange.
  - unfold adaptive.adjustInterval.
    cbn [fst snd adaptive.with_currentInterval adaptive.AdaptiveGovernor.fastEMA
         adaptive.AdaptiveGovernor.baseInterval adaptive.AdaptiveGovernor.currentInterval].
    now rewrite no_change_is_not_significant.
  - unfold adaptive.adjustInterval. cbn [fst snd]. now rewrite Hchange.
Qed.

(** ** After a restart *)

Section GovernorRestart.

Variable math_Pow : float -> float -> float.
Variable json_Marshal : adaptive.GovernorState.t -> option string.

Lemma adjustInterval_EMAs g w :
  adaptive.AdaptiveGovernor.fastEMA (fst (adaptive.adjustInterval math_Pow g w))
  = adaptive.AdaptiveGovernor.fastEMA g /\
  adaptive.AdaptiveGovernor.slowEMA (fst (adaptive.adjustInterval math_Pow g w))
  = adaptive.AdaptiveGovernor.slowEMA g.
Proof.
  unfold adaptive.adjustInterval. now destruct (0.1 <? _)%float.
Qed.

(** Both averages after [ProcessLoadMetrics]. *)
Lemma ProcessLoadMetrics_EMAs g load io w :
  let r := adaptive.ProcessLoadMetrics math_Pow json_Marshal g load io w in
  adaptive.AdaptiveGovernor.fastEMA (fst r)
  = adaptive.EMA_Update (adaptive.AdaptiveGovernor.fastEMA g) (adaptive.clampLoad load) /\
  adaptive.AdaptiveGovernor.slowEMA (fst r)
  = adaptive.EMA_Update (adaptive.AdaptiveGovernor.slowEMA g) (adaptive.clampLoad load).
Proof.
  intros r. subst r. rewrite ProcessLoadMetrics_steps.
  match goal with |- context [adaptive.adjustInterval math_Pow ?g1 w] =>
    destruct (adjustInterval_EMAs g1 w) as [Hfast Hslow] end.
  destruct (_ >? _);
    cbn [fst adaptive.with_lastSnapshotTime adaptive.AdaptiveGovernor.fastEMA
         adaptive.AdaptiveGovernor.slowEMA]; now rewrite Hfast, Hslow.
Qed.

End GovernorRestart.

(** X24. A governor that was constructed from a usable state file
    continues from the saved averages: the first load it is given is
    blended into the restored averages with the weights 0.3 and 0.05,
    instead of replacing them as a first sample does. *)
Theorem restored_averages_are_continued :
  forall (math_Pow : float -> float -> float)
         (json_Marshal : adaptive.GovernorState.t -> option string)
         (json_Unmarshal : string -> option adaptive.GovernorState.t)
         (baseInterval : Time.Duration) (stateDir : string)
         (io io' : adaptive.IO.t) (w w' : adaptive.World.t)
         (file : adaptive.File.t) (state : adaptive.GovernorState.t) (load : float),
    stateDir <> "" ->
    adaptive.IO.Stat_ok io = true ->
    adaptive.IO.ReadFile_ok io = true ->
    adaptive.World.files w !! adaptive.filepath_Join stateDir adaptive.StateFileName
    = Some file ->
    Time.Sub (adaptive.IO.now io) (adaptive.File.ModTime file) <= Time.Hour ->
    json_Unmarshal (adaptive.File.data file) = Some state ->
    let g := adaptive.NewAdaptiveGovernor json_Unmarshal baseInterval stateDir io w in
    let r := adaptive.ProcessLoadMetrics math_Pow json_Marshal g load io' w' in
    adaptive.EMA_Value (adaptive.AdaptiveGovernor.fastEMA (fst r))
    = (adaptive.GovernorState.FastEMAValue state
       + adaptive.FastEMAAlpha
         * (adaptive.clampLoad load - adaptive.GovernorState.FastEMAValue state))%float /\
    adaptive.EMA_Value (adaptive.AdaptiveGovernor.slowEMA (fst r))
    = (adaptive.GovernorState.SlowEMAValue state
       + adaptive.SlowEMAAlpha
         * (adaptive.clampLoad load - adaptive.GovernorState.SlowEMAValue state))%float.
Proof.
  intros math_Pow json_Marshal json_Unmarshal baseInterval stateDir io io' w w' file state
    load Hdir Hstat Hread Hfile Hfresh Hparse g r.
  destruct (ProcessLoadMetrics_EMAs math_Pow json_Marshal g load io' w') as [Hfast Hslow].
  fold r in Hfast, Hslow. rewrite Hfast, Hslow.
  assert (Hg : adaptive.AdaptiveGovernor.fastEMA g
               = adaptive.EMA.mk adaptive.FastEMAAlpha
                   (adaptive.GovernorState.FastEMAValue state) true /\
               adaptive.AdaptiveGovernor.slowEMA g
               = adaptive.EMA.mk adaptive.SlowEMAAlpha
                   (adaptive.GovernorState.SlowEMAValue state) true).
  { subst g. unfold adaptive.NewAdaptiveGovernor, adaptive.restoreState.
    cbn [adaptive.with_currentInterval adaptive.AdaptiveGovernor.stateDir
         adaptive.AdaptiveGovernor.fastEMA adaptive.AdaptiveGovernor.slowEMA].
    destruct (String.eqb_spec stateDir "") as [|_]; [contradiction|].
    rewrite Hstat, Hfile, Hread, Hparse.
    destruct (Z.gtb_spec (Time.Sub (adaptive.IO.now io) (adaptive.File.ModTime file))
                Time.Hour); [lia|].
    now split. }
  destruct Hg as [-> ->]. now split.
Qed.

Lemma restored_averages_are_continued_witness :
  let g := adaptive.NewAdaptiveGovernor Scenario.binaryUnmarshal Time.Second "/var/otel"
             (Scenario.healthyIO 60) Scenario.worldWithTinyState in
  let r := adaptive.ProcessLoadMetrics Scenario.flatPow Scenario.binaryMarshal g 1
             (Scenario.healthyIO 61) Scenario.worldWithTinyState in
  adaptive.EMA_Value (adaptive.AdaptiveGovernor.fastEMA (fst r))
  = (0.5 + adaptive.FastEMAAlpha * (adaptive.clampLoad 1 - 0.5))%float /\
  adaptive.EMA_Value (adaptive.AdaptiveGovernor.slowEMA (fst r))
  = (0.5 + adaptive.SlowEMAAlpha * (adaptive.clampLoad 1 - 0.5))%float.
Proof.
  apply (restored_averages_are_continued Scenario.flatPow Scenario.binaryMarshal
           Scenario.binaryUnmarshal Time.Second "/var/otel" (Scenario.healthyIO 60)
           (Scenario.healthyIO 61) Scenario.worldWithTinyState Scenario.worldWithTinyState
           _ Scenario.tinyState 1 ltac:(discriminate) eq_refl eq_refl eq_refl).
  - vm_compute. discriminate.
  - vm_compute. reflexivity.
Defined.

(** ** The slow average *)

(** X25. The slow average plays no part in the choice of the interval:
    [ProcessLoadMetrics] updates it, and [saveState] writes it, but the
    interval chosen and the calls of the callback are the same whatever
    the slow average is. *)
Theorem slow_average_does_not_steer :
  forall (math_Pow : float -> float -> float)
         (json_Marshal : adaptive.GovernorState.t -> option string)
         (g : adaptive.AdaptiveGovernor.t) (slow : adaptive.EMA.t)
         (load : float) (io : adaptive.IO.t) (w : adaptive.World.t),
    let r := adaptive.ProcessLoadMetrics math_Pow json_Marshal g load io w in
    let r' := adaptive.ProcessLoadMetrics math_Pow json_Marshal
                (adaptive.with_EMAs g (adaptive.AdaptiveGovernor.fastEMA g) slow) load io w in
    adaptive.GetRawInterval (fst r') = adaptive.GetRawInterval (fst r) /\
    adaptive.AdaptiveGovernor.fastEMA (fst r') = adaptive.AdaptiveGovernor.fastEMA (fst r) /\
    adaptive.World.callbackLog (snd r') = adaptive.World.callbackLog (snd r).
Proof.
  intros math_Pow json_Marshal g slow load io w r r'. subst r r'.
  destruct (ProcessLoadMetrics_adjusts math_Pow json_Marshal g load io w)
    as (Hfast & Hcur & Hlog).
  destruct (ProcessLoadMetrics_adjusts math_Pow json_Marshal
              (adaptive.with_EMAs g (adaptive.AdaptiveGovernor.fastEMA g) slow) load io w)
    as (Hfast' & Hcur' & Hlog').
  unfold adaptive.GetRawInterval. rewrite Hfast, Hcur, Hlog, Hfast', Hcur', Hlog'.
  unfold adaptive.adjustInterval.
  cbn [adaptive.with_EMAs adaptive.AdaptiveGovernor.fastEMA
       adaptive.AdaptiveGovernor.baseInterval adaptive.AdaptiveGovernor.currentInterval].
  destruct (0.1 <? _)%float; now repeat split.
Qed.

(** * Further properties of the load probe *)

Lemma setMetric_Timestamp metrics name valueStr :
  adaptive.MySQLMetrics.Timestamp (adaptive.setMetric metrics name valueStr)
  = adaptive.MySQLMetrics.Timestamp metrics.
Proof.
  destruct metrics. unfold adaptive.setMetric.
  repeat (match goal with |- context [if ?b then _ else _] => destruct b end;
          [reflexivity|]).
  reflexivity.
Qed.

Lemma setMetric_ThreadsConnected metrics name valueStr :
  name <> "Threads_connected" ->
  adaptive.MySQLMetrics.ThreadsConnected (adaptive.setMetric metrics name valueStr)
  = adaptive.MySQLMetrics.ThreadsConnected metrics.
Proof.
  intros Hname. destruct metrics. unfold adaptive.setMetric.
  destruct (String.eqb name "Threads_running"); [reflexivity|].
  destruct (String.eqb_spec name "Threads_connected"); [contradiction|].
  repeat (match goal with |- context [if ?b then _ else _] => destruct b end;
          [reflexivity|]).
  reflexivity.
Qed.

Lemma scanStatusRows_Timestamp rows :
  forall metrics metrics',
    adaptive.scanStatusRows rows metrics = Ok metrics' ->
    adaptive.MySQLMetrics.Timestamp metrics' = adaptive.MySQLMetrics.Timestamp metrics.
Proof.
  induction rows as [|[[name valueStr]|err] rows IH]; intros metrics metrics' H; simpl in H.
  - now injection H as <-.
  - apply IH in H. now rewrite H, setMetric_Timestamp.
  - discriminate.
Qed.

Lemma scanStatusRows_ThreadsConnected rows :
  (forall valueStr, Ok ("Threads_connected", valueStr) ∉ rows) ->
  forall metrics metrics',
    adaptive.scanStatusRows rows metrics = Ok metrics' ->
    adaptive.MySQLMetrics.ThreadsConnected metrics'
    = adaptive.MySQLMetrics.ThreadsConnected metrics.
Proof.
  induction rows as [|[[name valueStr]|err] rows IH]; intros Hrows metrics metrics' H;
    simpl in H.
  - now injection H as <-.
  - apply IH in H; [|intros v Hin; apply (Hrows v); now right].
    rewrite H. apply setMetric_ThreadsConnected. intros ->. apply (Hrows valueStr). left.
  - discriminate.
Qed.

(** A row that fails to scan, after rows that scanned, aborts the
    loop. *)
Lemma scanStatusRows_aborts rows1 err rows2 :
  Forall (fun scanned => exists row, scanned = Ok row) rows1 ->
  forall metrics,
    adaptive.scanStatusRows (rows1 ++ Err err :: rows2) metrics
    = Err (WrapError "error scanning row" err).
Proof.
  induction 1 as [|scanned rows1 [[name valueStr] ->] _ IH]; intros metrics; simpl.
  - reflexivity.
  - apply IH.
Qed.

(** X26. A probe that fails (the query is refused, a row does not
    scan, the iteration ends in error) reports the load 0 with the
    error wrapped, and leaves the previous reading of the collector as
    it was, so that the next probe is compared with the last one that
    succeeded. Unlike the collection of digests, the probe is aborted
    by the first row that fails to scan. A probe that succeeds becomes
    the previous reading, stamped with the reading of the clock. *)
Theorem failed_probe_keeps_previous_reading :
  (forall c db now err,
     adaptive.collectMySQLMetrics db now = Err err ->
     adaptive.CollectMetrics c db now
     = (c, (0%float, Some (WrapError "failed to collect MySQL metrics" err)))) /\
  (forall db now rows1 err rows2,
     adaptive.StatusDB.StatusRows db = Ok (rows1 ++ Err err :: rows2) ->
     Forall (fun scanned => exists row, scanned = Ok row) rows1 ->
     adaptive.collectMySQLMetrics db now = Err (WrapError "error scanning row" err)) /\
  (forall c db now metrics,
     adaptive.collectMySQLMetrics db now = Ok metrics ->
     fst (adaptive.CollectMetrics c db now)
     = {| adaptive.MySQLCollector.lastMetrics := Some metrics |} /\
     snd (snd (adaptive.CollectMetrics c db now)) = None /\
     adaptive.MySQLMetrics.Timestamp metrics = now).
Proof.
  split; [|split].
  - intros c db now err H. unfold adaptive.CollectMetrics. now rewrite H.
  - intros db now rows1 err rows2 Hrows Hscanned. unfold adaptive.collectMySQLMetrics.
    now rewrite Hrows, scanStatusRows_aborts.
  - intros c db now metrics H. unfold adaptive.CollectMetrics. rewrite H.
    split; [reflexivity|]. split; [reflexivity|].
    unfold adaptive.collectMySQLMetrics in H.
    destruct (adaptive.StatusDB.StatusRows db) as [rows|]; [|discriminate].
    destruct (adaptive.scanStatusRows rows _) as [metrics'|] eqn:Hscan; [|discriminate].
    destruct (adaptive.StatusDB.RowsErr db); [discriminate|].
    injection H as <-. now apply scanStatusRows_Timestamp in Hscan.
Qed.

Lemma failed_probe_keeps_previous_reading_witness :
  let previous := {| adaptive.MySQLCollector.lastMetrics :=
                       Some (adaptive.MySQLMetrics.mk 1 4 900 9 0 3500 0) |} in
  let db := {| adaptive.StatusDB.StatusRows :=
                 Ok [Ok ("Threads_running", "3");
                     Err (DriverError "unsupported Scan");
                     Ok ("Threads_connected", "12")];
               adaptive.StatusDB.RowsErr := None |} in
  adaptive.CollectMetrics previous db (10 * Time.Second)
  = (previous,
     (0%float,
      Some (WrapError "failed to collect MySQL metrics"
              (WrapError "error scanning row" (DriverError "unsupported Scan"))))).
Proof.
  intros previous db.
  apply (proj1 failed_probe_keeps_previous_reading).
  apply (proj1 (proj2 failed_probe_keeps_previous_reading) db (10 * Time.Second)
           [Ok ("Threads_running", "3")] (DriverError "unsupported Scan")
           [Ok ("Threads_connected", "12")]).
  - reflexivity.
  - repeat constructor. now exists ("Threads_running", "3").
Defined.

(** ** The load without slow queries and without connections *)

Lemma CalculateLoad_no_questions d :
  adaptive.MySQLMetricsDiff.QuestionsDiff d <= 0 ->
  adaptive.CalculateLoad d
  = if adaptive.MySQLMetricsDiff.ThreadsConnected d <=? 0 then 0%float
    else
      let t := (F64.of_int (adaptive.MySQLMetricsDiff.ThreadsRunning d)
                / F64.of_int (adaptive.MySQLMetricsDiff.ThreadsConnected d))%float in
      ((if (1 <? t)%float then 1%float else t) * 0.7 + 0)%float.
Proof.
  intros Hq. unfold adaptive.CalculateLoad.
  destruct (_ <=? 0); [reflexivity|].
  destruct (Z.gtb_spec (adaptive.MySQLMetricsDiff.QuestionsDiff d) 0); [lia|].
  reflexivity.
Qed.

(** X27. The load is 0 whenever the probe sees no connected thread: a
    count that is zero, negative or unparsable, or a status answer
    without a row for [Threads_connected] (the count then keeps its
    initial value 0). And when the number of questions did not go up
    since the previous probe (or went down, after a restart of the
    server), the slow queries do not count: the load is 0.7 times what
    [MySQLMetrics.CalculateLoad] gives for the reading, the share of
    running threads capped at 1. *)
Theorem load_without_connections_or_questions :
  (forall c db now metrics,
     adaptive.collectMySQLMetrics db now = Ok metrics ->
     adaptive.MySQLMetrics.ThreadsConnected metrics <= 0 ->
     fst (snd (adaptive.CollectMetrics c db now)) = 0%float) /\
  (forall db now rows metrics,
     adaptive.StatusDB.StatusRows db = Ok rows ->
     (forall valueStr, Ok ("Threads_connected", valueStr) ∉ rows) ->
     adaptive.collectMySQLMetrics db now = Ok metrics ->
     adaptive.MySQLMetrics.ThreadsConnected metrics = 0) /\
  (forall c db now metrics previous,
     adaptive.collectMySQLMetrics db now = Ok metrics ->
     adaptive.MySQLCollector.lastMetrics c = Some previous ->
     adaptive.MySQLMetrics.Questions metrics <= adaptive.MySQLMetrics.Questions previous ->
     Int64.in_range (adaptive.MySQLMetrics.Questions metrics
                     - adaptive.MySQLMetrics.Questions previous) ->
     fst (snd (adaptive.CollectMetrics c db now))
     = (adaptive.MySQLMetrics_CalculateLoad metrics * 0.7 + 0)%float).
Proof.
  split; [|split].
  - intros c db now metrics H Hconn. unfold adaptive.CollectMetrics. rewrite H. simpl.
    unfold adaptive.CalculateLoad.
    replace (adaptive.MySQLMetricsDiff.ThreadsConnected
               (adaptive.CalculateDiff metrics (adaptive.MySQLCollector.lastMetrics c)))
      with (adaptive.MySQLMetrics.ThreadsConnected metrics)
      by now destruct (adaptive.MySQLCollector.lastMetrics c).
    destruct (Z.leb_spec (adaptive.MySQLMetrics.ThreadsConnected metrics) 0); [reflexivity|lia].
  - intros db now rows metrics Hrows Hmissing H.
    unfold adaptive.collectMySQLMetrics in H. rewrite Hrows in H.
    destruct (adaptive.scanStatusRows rows _) as [metrics'|] eqn:Hscan; [|discriminate].
    destruct (adaptive.StatusDB.RowsErr db); [discriminate|].
    injection H as <-.
    now apply (scanStatusRows_ThreadsConnected rows Hmissing) in Hscan.
  - intros c db now metrics previous H Hlast Hquestions Hrange.
    unfold adaptive.CollectMetrics. rewrite H, Hlast. cbn [fst snd].
    rewrite CalculateLoad_no_questions.
    + cbn [adaptive.CalculateDiff adaptive.MySQLMetricsDiff.ThreadsConnected
           adaptive.MySQLMetricsDiff.ThreadsRunning].
      unfold adaptive.MySQLMetrics_CalculateLoad.
      now destruct (adaptive.MySQLMetrics.ThreadsConnected metrics <=? 0).
    + cbn [adaptive.CalculateDiff adaptive.MySQLMetricsDiff.QuestionsDiff].
      unfold Int64.sub. rewrite Int64_wrap_small by assumption. lia.
Qed.

Lemma load_without_connections_or_questions_witness :
  fst (snd (adaptive.CollectMetrics adaptive.NewMySQLCollector
              {| adaptive.StatusDB.StatusRows :=
                   Ok [Ok ("Threads_running", "3"); Ok ("Questions", "1000")];
                 adaptive.StatusDB.RowsErr := None |}
              (10 * Time.Second)))
  = 0%float.
Proof.
  eapply (proj1 load_without_connections_or_questions); [reflexivity|].
  vm_compute. discriminate.
Defined.

(** ** The elapsed time between two readings *)

Lemma Time_Sub_diag t : Time.Sub t t = 0.
Proof. unfold Time.Sub. rewrite Z.sub_diag. reflexivity. Qed.

(** X28. [CalculateDiff] never reports an elapsed time that is zero or
    negative when it is given a previous reading: such a time is
    replaced by one second, as happens when both readings carry the
    same timestamp, and the two rates are the differences divided by
    the elapsed time so corrected. The differences are the 64-bit
    differences of the counters. Without a previous reading, every
    difference and rate is zero. *)
Theorem probe_elapsed_time_is_never_zero :
  (forall m,
     let d := adaptive.CalculateDiff m None in
     adaptive.MySQLMetricsDiff.QuestionsDiff d = 0 /\
     adaptive.MySQLMetricsDiff.SlowQueriesDiff d = 0 /\
     adaptive.MySQLMetricsDiff.LockTimeDiff d = 0 /\
     adaptive.MySQLMetricsDiff.ElapsedSeconds d = 0%float /\
     adaptive.MySQLMetricsDiff.QPS d = 0%float /\
     adaptive.MySQLMetricsDiff.SlowQPS d = 0%float) /\
  (forall m previous,
     let d := adaptive.CalculateDiff m (Some previous) in
     (adaptive.MySQLMetricsDiff.ElapsedSeconds d <=? 0)%float = false /\
     adaptive.MySQLMetricsDiff.QuestionsDiff d
     = Int64.sub (adaptive.MySQLMetrics.Questions m) (adaptive.MySQLMetrics.Questions previous) /\
     adaptive.MySQLMetricsDiff.SlowQueriesDiff d
     = Int64.sub (adaptive.MySQLMetrics.SlowQueries m)
         (adaptive.MySQLMetrics.SlowQueries previous) /\
     adaptive.MySQLMetricsDiff.QPS d
     = (F64.of_int (adaptive.MySQLMetricsDiff.QuestionsDiff d)
        / adaptive.MySQLMetricsDiff.ElapsedSeconds d)%float /\
     adaptive.MySQLMetricsDiff.SlowQPS d
     = (F64.of_int (adaptive.MySQLMetricsDiff.SlowQueriesDiff d)
        / adaptive.MySQLMetricsDiff.ElapsedSeconds d)%float /\
     (adaptive.MySQLMetrics.Timestamp m = adaptive.MySQLMetrics.Timestamp previous ->
      adaptive.MySQLMetricsDiff.ElapsedSeconds d = 1%float)).
Proof.
  split.
  - intros m d. now repeat split.
  - intros m previous d. subst d.
    cbn [adaptive.CalculateDiff adaptive.MySQLMetricsDiff.ElapsedSeconds
         adaptive.MySQLMetricsDiff.QuestionsDiff adaptive.MySQLMetricsDiff.SlowQueriesDiff
         adaptive.MySQLMetricsDiff.QPS adaptive.MySQLMetricsDiff.SlowQPS].
    split.
    { destruct (Time.Seconds _ <=? 0)%float eqn:E; [reflexivity | exact E]. }
    split; [reflexivity|]. split; [reflexivity|]. split; [reflexivity|].
    split; [reflexivity|].
    intros ->. now rewrite Time_Sub_diag.
Qed.

Lemma probe_elapsed_time_is_never_zero_witness :
  adaptive.MySQLMetricsDiff.ElapsedSeconds
    (adaptive.CalculateDiff (adaptive.MySQLMetrics.mk 3 12 1000 10 0 3600 (5 * Time.Second))
       (Some (adaptive.MySQLMetrics.mk 1 4 900 9 0 3500 (5 * Time.Second))))
  = 1%float.
Proof.
  apply (proj2 probe_elapsed_time_is_never_zero
           (adaptive.MySQLMetrics.mk 3 12 1000 10 0 3600 (5 * Time.Second))
           (adaptive.MySQLMetrics.mk 1 4 900 9 0 3500 (5 * Time.Second))).
  reflexivity.
Defined.

(** * Construction of the collectors and of the processor *)

Section ProcessorConstruction.

Variable json_Unmarshal : string -> option adaptive.GovernorState.t.

(** Whether the configuration asks for the adaptive collector. *)
Lemma newMySQLCollectors_Ok config conn io w fixed adaptiveCollector :
  qanprocessor.newMySQLCollectors json_Unmarshal config conn io w
  = Ok (fixed, adaptiveCollector) ->
  let cfg := qanprocessor.Config.MySQL config in
  let adaptiveAsked :=
    String.eqb (qanprocessor.MySQLConfig.CollectionInterval cfg) "adaptive"
    || qanprocessor.AdaptiveConfig.Enabled (qanprocessor.MySQLConfig.AdaptiveConfig cfg) in
  let seconds :=
    Z.max 1 (qanprocessor.AdaptiveConfig.BaseInterval
               (qanprocessor.MySQLConfig.AdaptiveConfig cfg)) in
  let directory :=
    qanprocessor.AdaptiveConfig.StateDirectory (qanprocessor.MySQLConfig.AdaptiveConfig cfg) in
  (is_Some adaptiveCollector <->
   qanprocessor.MySQLConfig.Enabled cfg = true /\ adaptiveAsked = true) /\
  (is_Some fixed <->
   qanprocessor.MySQLConfig.Enabled cfg = true /\ adaptiveAsked = false) /\
  (forall collector,
     adaptiveCollector = Some collector ->
     qanprocessor.AdaptiveCollector.governor collector
     = adaptive.NewAdaptiveGovernor json_Unmarshal (Int64.wrap (seconds * Time.Second))
         (if String.eqb directory "" then "/var/otel/governor_state" else directory) io w /\
     qanprocessor.AdaptiveCollector.collector collector = adaptive.NewMySQLCollector) /\
  (forall collector,
     fixed = Some collector ->
     mysql.NewCollector (qanprocessor.MySQLConfig.Endpoint cfg)
       (qanprocessor.MySQLConfig.Username cfg) (qanprocessor.MySQLConfig.Password cfg)
       (qanprocessor.MySQLConfig.Database cfg)
       (qanprocessor.Connections.mysqlOpen conn) (qanprocessor.Connections.mysqlPing conn)
     = Ok collector).
Proof.
  unfold qanprocessor.newMySQLCollectors. cbv zeta.
  assert (Hseconds : forall n, (if n <=? 0 then 1 else n) = Z.max 1 n)
    by (intros n; destruct (Z.leb_spec n 0); lia).
  rewrite Hseconds.
  destruct (qanprocessor.MySQLConfig.Enabled _).
  - destruct (_ || _).
    + unfold qanprocessor.NewAdaptiveCollector.
      destruct (qanprocessor.Connections.mysqlAdaptive conn); [discriminate|].
      intros [= <- <-]. split; [|split; [|split]].
      * split; [now intros _ | intros _; eauto].
      * split; [intros [? [=]] | intros [_ [=]]].
      * intros collector [= <-]. now split.
      * intros collector [=].
    + destruct (mysql.NewCollector _ _ _ _ _ _) as [collector|]; [|discriminate].
      intros [= <- <-]. split; [|split; [|split]].
      * split; [intros [? [=]] | intros [_ [=]]].
      * split; [now intros _ | intros _; eauto].
      * intros ? [=].
      * now intros ? [= <-].
  - intros [= <- <-]. split; [|split; [|split]].
    + split; [intros [? [=]] | intros [[=] _]].
    + split; [intros [? [=]] | intros [[=] _]].
    + intros ? [=].
    + intros ? [=].
Qed.

End ProcessorConstruction.

(** X29. The collectors of a processor that was constructed follow the
    configuration. For MySQL there is the adaptive collector or the
    fixed-interval one, never both, and neither when MySQL is disabled;
    the adaptive one is taken when the collection interval is the word
    [adaptive] or the adaptive section is enabled, so that a disabled
    adaptive section does not turn off what the interval asks for. The
    governor is the one [NewAdaptiveGovernor] makes for the configured
    number of seconds (1 when the number is not positive) and for the
    configured state directory ([/var/otel/governor_state] when empty).
    There is a PostgreSQL collector exactly when PostgreSQL is
    enabled. *)
Theorem processor_collectors_follow_the_configuration :
  forall (json_Unmarshal : string -> option adaptive.GovernorState.t)
         (config : qanprocessor.Config.t) (conn : qanprocessor.Connections.t)
         (io : adaptive.IO.t) (w : adaptive.World.t) (p : qanprocessor.qanProcessor.t),
    qanprocessor.newQANProcessor json_Unmarshal config conn io w = Ok p ->
    let cfg := qanprocessor.Config.MySQL config in
    let adaptiveAsked :=
      String.eqb (qanprocessor.MySQLConfig.CollectionInterval cfg) "adaptive"
      || qanprocessor.AdaptiveConfig.Enabled (qanprocessor.MySQLConfig.AdaptiveConfig cfg) in
    let seconds :=
      Z.max 1 (qanprocessor.AdaptiveConfig.BaseInterval
                 (qanprocessor.MySQLConfig.AdaptiveConfig cfg)) in
    let directory :=
      qanprocessor.AdaptiveConfig.StateDirectory
        (qanprocessor.MySQLConfig.AdaptiveConfig cfg) in
    (is_Some (qanprocessor.qanProcessor.mysqlAdaptiveCollector p) <->
     qanprocessor.MySQLConfig.Enabled cfg = true /\ adaptiveAsked = true) /\
    (is_Some (qanprocessor.qanProcessor.mysqlCollector p) <->
     qanprocessor.MySQLConfig.Enabled cfg = true /\ adaptiveAsked = false) /\
    (is_Some (qanprocessor.qanProcessor.postgresqlCollector p) <->
     qanprocessor.PostgreSQLConfig.Enabled (qanprocessor.Config.PostgreSQL config) = true) /\
    (forall collector,
       qanprocessor.qanProcessor.mysqlAdaptiveCollector p = Some collector ->
       qanprocessor.AdaptiveCollector.governor collector
       = adaptive.NewAdaptiveGovernor json_Unmarshal (Int64.wrap (seconds * Time.Second))
           (if String.eqb directory "" then "/var/otel/governor_state" else directory) io w /\
       qanprocessor.AdaptiveCollector.collector collector = adaptive.NewMySQLCollector /\
       (seconds <= 9223372036 ->
        adaptive.GetBaseInterval (qanprocessor.AdaptiveCollector.governor collector)
        = seconds * Time.Second)).
Proof.
  intros json_Unmarshal config conn io w p H cfg adaptiveAsked seconds directory.
  unfold qanprocessor.newQANProcessor in H.
  destruct (qanprocessor.newMySQLCollectors json_Unmarshal config conn io w)
    as [[fixed adaptiveCollector]|] eqn:Hmysql; [|discriminate].
  apply newMySQLCollectors_Ok in Hmysql as (Hadaptive & Hfixed & Hgovernor & _).
  fold cfg in Hadaptive, Hfixed, Hgovernor. fold adaptiveAsked in Hadaptive, Hfixed.
  fold seconds in Hgovernor. fold directory in Hgovernor.
  assert (Hp : qanprocessor.qanProcessor.mysqlCollector p = fixed /\
               qanprocessor.qanProcessor.mysqlAdaptiveCollector p = adaptiveCollector /\
               (is_Some (qanprocessor.qanProcessor.postgresqlCollector p) <->
                qanprocessor.PostgreSQLConfig.Enabled (qanprocessor.Config.PostgreSQL config)
                = true)).
  { cbv zeta in H.
    destruct (qanprocessor.PostgreSQLConfig.Enabled _).
    - destruct (postgresql.NewCollector _ _ _ _ _ _); [|discriminate].
      injection H as <-. cbn. repeat split; eauto.
    - injection H as <-. cbn. repeat split; [intros [? [=]] | intros [=]]. }
  destruct Hp as (-> & -> & Hpostgresql).
  split; [exact Hadaptive|]. split; [exact Hfixed|]. split; [exact Hpostgresql|].
  intros collector Hcollector. destruct (Hgovernor collector Hcollector) as [Hg Hc].
  split; [exact Hg|]. split; [exact Hc|].
  intros Hsmall. rewrite Hg. unfold adaptive.GetBaseInterval.
  rewrite NewAdaptiveGovernor_base, Int64_wrap_small.
  - unfold adaptive.MinimumInterval, Time.Millisecond, Time.Second. lia.
  - unfold Int64.in_range, Int64.min_int, Int64.max_int, Time.Second. lia.
Qed.

Lemma processor_collectors_follow_the_configuration_witness :
  let config :=
    {| qanprocessor.Config.MySQL :=
         {| qanprocessor.MySQLConfig.Enabled := true;
            qanprocessor.MySQLConfig.Endpoint := "db:3306";
            qanprocessor.MySQLConfig.Username := "monitor";
            qanprocessor.MySQLConfig.Password := "secret";
            qanprocessor.MySQLConfig.Database := "";
            qanprocessor.MySQLConfig.CollectionInterval := "adaptive";
            qanprocessor.MySQLConfig.AdaptiveConfig :=
              {| qanprocessor.AdaptiveConfig.BaseInterval := 0;
                 qanprocessor.AdaptiveConfig.StateDirectory := "";
                 qanprocessor.AdaptiveConfig.Enabled := false |} |};
       qanprocessor.Config.PostgreSQL :=
         {| qanprocessor.PostgreSQLConfig.Enabled := false;
            qanprocessor.PostgreSQLConfig.Endpoint := "";
            qanprocessor.PostgreSQLConfig.Username := "";
            qanprocessor.PostgreSQLConfig.Password := "";
            qanprocessor.PostgreSQLConfig.Database := "";
            qanprocessor.PostgreSQLConfig.CollectionInterval := 0 |} |} in
  let conn := qanprocessor.Connections.mk None None None None None in
  exists p collector,
    qanprocessor.newQANProcessor Scenario.noUnmarshal config conn (Scenario.healthyIO 0)
      Scenario.emptyWorld = Ok p /\
    qanprocessor.qanProcessor.mysqlAdaptiveCollector p = Some collector /\
    adaptive.GetBaseInterval (qanprocessor.AdaptiveCollector.governor collector)
    = Time.Second.
Proof.
  intros config conn. eexists. eexists. split; [reflexivity|]. split; [reflexivity|].
  destruct (processor_collectors_follow_the_configuration Scenario.noUnmarshal config conn
              (Scenario.healthyIO 0) Scenario.emptyWorld _ eq_refl)
    as (_ & _ & _ & Hgovernor).
  destruct (Hgovernor _ eq_refl) as (_ & _ & Hbase).
  apply Hbase. vm_compute. discriminate.
Defined.

(** * The MySQL collector *)

(** The first check of the MySQL [collectSnapshot] fails on every
    answer of the server. *)
Lemma mysql_collectSnapshot_fails c db now :
  exists cause,
    mysql.collectSnapshot c db now
    = Err (WrapError "failed to check performance_schema status" cause).
Proof.
  unfold mysql.collectSnapshot, sql.Row_Scan_nil_string.
  destruct (mysql.DB.PerformanceSchema db) as [status|err]; eauto.
Qed.

(** X30. The MySQL [collectSnapshot] never returns a snapshot: its
    first check scans the row into a nil destination, which
    [database/sql] refuses whatever the server answers, so that every
    call ends with the error of the [performance_schema] check. Hence
    no sequence of calls of the MySQL [Collect] ever files a snapshot
    or returns a log record: each call returns an empty batch with an
    error and leaves the store as it was. *)
Theorem mysql_collection_never_succeeds :
  (forall c db now,
     exists cause,
       mysql.collectSnapshot c db now
       = Err (WrapError "failed to check performance_schema status" cause)) /\
  (forall c db now clock store,
     exists err, mysql.Collect c db now clock store = (store, ([], Some err))) /\
  (forall c clock (ticks : list (mysql.DB.t * Time.Time)) store,
     foldl (fun store tick => fst (mysql.Collect c (fst tick) (snd tick) clock store))
       store ticks
     = store).
Proof.
  assert (Hcollect : forall c db now clock store,
             exists err, mysql.Collect c db now clock store = (store, ([], Some err))).
  { intros c db now clock store.
    destruct (mysql_collectSnapshot_fails c db now) as [cause H].
    unfold mysql.Collect. rewrite H. eauto. }
  split; [exact mysql_collectSnapshot_fails|]. split; [exact Hcollect|].
  intros c clock ticks. induction ticks as [|[db now] ticks IH]; intros store; [reflexivity|].
  cbn [foldl fst snd]. destruct (Hcollect c db now clock store) as [err ->]. apply IH.
Qed.

(** A server with everything switched on. *)
Lemma mysql_collection_never_succeeds_witness :
  exists err,
    mysql.Collect Scenario.mysqlCollector (Scenario.mysqlServer []) (5 * Time.Second)
      Scenario.tickingClock mysql.NewSnapshotStore
    = (mysql.NewSnapshotStore, ([], Some err)).
Proof.
  apply (proj1 (proj2 mysql_collection_never_succeeds)).
Defined.
